(** * jack: module calls, shared resources, the training loop and its hooks

    A shallow embedding of the orchestration layer of the jack reader
    framework:

    - [TensorPort]       jack/core/tensorport.py      (ordering and equality of ports)
    - [TFModelModule]    jack/core/tensorflow.py      ([__call__], [convert_to_feed_dict])
    - [SharedResources]  jack/core/shared_resources.py ([store], [load])
    - [TFReader]         jack/core/tensorflow.py      (the loop of [train])
    - [LossHook], [XQAEvalHook], [KBPEvalHook]   jack/util/hooks.py
    - [TFModelModuleSetup]  jack/core/tensorflow.py   ([setup])
    - [TraceHook], [EvalHook]   jack/util/hooks.py    ([add_to_history], [__call__],
                                                       [at_iteration_end], [at_epoch_end])
    - [MeanAveragePrecision]    the ranking metric, in the words of the specification

    Python objects are references (object identities), dictionaries are
    finite maps or insertion-ordered association lists where the order
    is observable, exceptions are an explicit result type, and Python
    floats are IEEE binary64 numbers (primitive floats). *)

From Stdlib Require Import ZArith String PrimFloat Floats Lia.
From stdpp Require Import base option list gmap strings sorting.

Set Default Proof Using "Type".
Set Warnings "-inexact-float".
Local Open Scope Z_scope.

(** * Python prelude: exceptions, truthiness, numbers *)

Module Py.

(** The exceptions the modelled code can raise. *)
Inductive exn : Type :=
| KeyError
| IndexError
| TypeError
| AttributeError
| ZeroDivisionError
| FileNotFoundError
| UnpicklingError
| SessionError
| ValueError.

(** The outcome of a call: a value, or a raised exception. *)
Inductive res (A : Type) : Type :=
| Ret (a : A)
| Raise (e : exn).
Arguments Ret {A} a.
Arguments Raise {A} e.

#[export] Instance res_ret : MRet res := @Ret.
#[export] Instance res_bind : MBind res :=
  λ A B f m, match m with Ret a => f a | Raise e => Raise e end.
#[export] Instance res_fmap : FMap res :=
  λ A B f m, match m with Ret a => Ret (f a) | Raise e => Raise e end.

Definition raises {A} (m : res A) : Prop := ∃ e, m = Raise e.
Definition returns {A} (m : res A) : Prop := ∃ a, m = Ret a.

(** [x or y] on an optional list: [None] and [[]] are falsy. *)
Definition or_list {A} (x : option (list A)) (y : list A) : list A :=
  match x with
  | None | Some [] => y
  | Some l => l
  end.

(** [d[k]] on a dictionary. *)
Definition getitem `{Countable K} {V} (d : gmap K V) (k : K) : res V :=
  match d !! k with
  | Some v => Ret v
  | None => Raise KeyError
  end.

(** [l[i]] on a list with a natural index. *)
Definition index {A} (l : list A) (i : nat) : res A :=
  match l !! i with
  | Some v => Ret v
  | None => Raise IndexError
  end.

(** [dict(pairs)]: pairs are inserted from left to right, so that the
    last value given for a key is the one that stays. *)
Definition dict `{Countable K} {V} (pairs : list (K * V)) : gmap K V :=
  fold_left (λ d kv, <[kv.1 := kv.2]> d) pairs ∅.

(** [float(n)] for an integer [n]: the nearest binary64 number, ties
    to even. (Python raises OverflowError beyond the largest float,
    where this gives infinity.) *)
Definition float_of_int (n : Z) : float :=
  SF2Prim (binary_normalize prec emax n 0 false).

(** [max(a, b)] and [min(a, b)] on numbers: the first argument is kept
    unless the second is strictly larger (smaller). *)
Definition max (a b : float) : float := if PrimFloat.ltb a b then b else a.
Definition min (a b : float) : float := if PrimFloat.ltb b a then b else a.

(** Comparison of [str] values: lexicographic on the characters. *)
Definition str_gt (a b : string) : bool :=
  match String.compare a b with Gt => true | _ => false end.

End Py.
Import Py.

(** * jack/core/tensorport.py *)

Module TensorPort.

(** A port object is reached through its reference; the reference is
    the object's identity. *)
Definition ref : Type := positive.

(** The attributes [TensorPort.__init__] sets. *)
Record obj : Type := Obj {
  dtype : string;
  shape : list (option Z);
  name : string;
  doc_string : option string;
  shape_string : option string
}.

Abbreviation heap := (gmap positive obj).

Definition getattr_name (h : heap) (p : ref) : res string :=
  match h !! p with
  | Some o => Ret (name o)
  | None => Raise AttributeError
  end.

(** [def __gt__(self, port): return self.name > port.name] *)
Definition __gt__ (h : heap) (self port : ref) : res bool :=
  a ← getattr_name h self;
  b ← getattr_name h port;
  mret (str_gt a b).

(** The class defines neither [__eq__] nor [__hash__]: [p == q] is
    the default of [object], the identity of the two objects, and so is
    the key a dictionary files a port under. *)
Definition __eq__ (self port : ref) : bool := bool_decide (self = port).
Definition __hash__ (self : ref) : positive := self.

(** Two port objects created by two calls of the constructor with the
    same arguments. *)
Definition loss_obj : obj :=
  Obj "float32" [None] "loss"
      (Some "Represents loss on each instance in the batch")
      (Some "[batch_size]").
Definition two_loss_ports : heap := {[ 1%positive := loss_obj; 2%positive := loss_obj ]}.

End TensorPort.

(** * jack/core/tensorflow.py: TFModelModule *)

Module TFModelModule.

(** Ports and graph tensors are objects used as dictionary keys and
    compared by [in]: all that is looked at is their identity. *)
Definition port : Type := TensorPort.ref.
Definition tensor : Type := positive.

Section module.
(** The type of the arrays in a batch ([np.ndarray]). *)
Context {ndarray : Type}.

(** [tf_session.run] on one fetch: the value of a graph tensor
    under a feed dictionary, or an exception of the backend. *)
Variable session_eval : gmap tensor ndarray → tensor → res ndarray.

(** The state [__call__] reads: the two abstract port lists, and
    the dictionaries [setup] fills ([None] until then).
    [_placeholders] keeps the order of insertion, which
    [convert_to_feed_dict] iterates in. *)
Record t : Type := Module_ {
  output_ports : list port;
  training_output_ports : list port;
  _tensors : option (gmap port tensor);
  _placeholders : option (list (port * tensor))
}.

(** [tf_session.run(fetches, feed_dict)] on a list of fetches. *)
Definition session_run (fetches : list tensor) (feed_dict : gmap tensor ndarray)
  : res (list ndarray) :=
  mapM (session_eval feed_dict) fetches.

(** [{ph: mapping[port] for port, ph in self.placeholders.items() if port in mapping}] *)
Definition convert_to_feed_dict (self : t) (mapping : gmap port ndarray)
  : res (gmap tensor ndarray) :=
  match _placeholders self with
  | None => Raise AttributeError
  | Some items =>
      Ret (fold_left
             (λ result '(port, ph),
                match mapping !! port with
                | Some v => <[ph := v]> result
                | None => result
                end)
             items ∅)
  end.

(** [self.tensors[p]] *)
Definition tensors_getitem (self : t) (p : port) : res tensor :=
  match _tensors self with
  | None => Raise TypeError
  | Some d => getitem d p
  end.

(** [p in self.output_ports or p in self.training_output_ports] *)
Definition is_computed (self : t) (p : port) : bool :=
  bool_decide (p ∈ output_ports self) || bool_decide (p ∈ training_output_ports self).

(** The closing loop of [__call__]:
    [for p in goal_ports: if p not in ret and p in batch: ret[p] = batch[p]] *)
Definition pass_through (batch : gmap port ndarray) (goal_ports : list port)
    (ret : gmap port ndarray) : gmap port ndarray :=
  fold_left
    (λ ret p,
       match ret !! p, batch !! p with
       | None, Some v => <[p := v]> ret
       | _, _ => ret
       end)
    goal_ports ret.

Definition __call__ (self : t) (batch : gmap port ndarray)
    (goal_ports : option (list port)) : res (gmap port ndarray) :=
  let goal_ports := or_list goal_ports (output_ports self) in
  feed_dict ← convert_to_feed_dict self batch;
  goal_tensors ← mapM (tensors_getitem self) (filter (λ p, is_computed self p) goal_ports);
  outputs ← session_run goal_tensors feed_dict;
  let ret := dict (zip (filter (λ p, is_computed self p) goal_ports) outputs) in
  mret (pass_through batch goal_ports ret).

(** The goal ports whose values the session computes: the list both
    filters of [__call__] give. *)
Definition computed (self : t) (goal_ports : list port) : list port :=
  filter (λ p, is_computed self p) goal_ports.

(** The value the session computes for a port:
    [session.run(self.tensors[p], feed_dict)]. *)
Definition value_of (self : t) (feed_dict : gmap tensor ndarray) (p : port)
  : Py.exn + ndarray :=
  match tensors_getitem self p with
  | Ret x => match session_eval feed_dict x with Ret v => inr v | Raise e => inl e end
  | Raise e => inl e
  end.

End module.

Arguments t : clear implicits.

(** A module after [setup(is_training=True)]: output port 1 and
    training output port 2 (the loss), computed from the placeholders
    of the input ports 5 and 6. Arrays are integers. The session of the
    example gives a fed tensor its fed value, and any other tensor the
    sum of its number and the value fed to the placeholder of port 5,
    without which it fails. *)
Definition ex_eval (feed_dict : gmap tensor Z) (x : tensor) : res Z :=
  match feed_dict !! x, feed_dict !! 15%positive with
  | Some v, _ => Ret v
  | None, Some v => Ret (v + Z.pos x)
  | None, None => Raise SessionError
  end.
Definition ex_module : t :=
  {| output_ports := [1%positive];
     training_output_ports := [2%positive];
     _tensors := Some {[ 1%positive := 11%positive; 2%positive := 12%positive;
                         5%positive := 15%positive; 6%positive := 16%positive ]};
     _placeholders := Some [(5%positive, 15%positive); (6%positive, 16%positive)] |}.
(** The batch holds the input ports 5 and 6 and one further port 7
    (an index array that the model does not produce). *)
Definition ex_batch : gmap port Z :=
  {[ 5%positive := 50; 6%positive := 60; 7%positive := 77 ]}.

End TFModelModule.

(** * jack/core/shared_resources.py *)

Module SharedResources.

(** Modelled from the spec: [jack.util.vocab.Vocab], of which
    [shared_resources.py] only has the import. The spec describes the
    vocabulary as a token/id mapping in both directions that can grow
    until it is frozen, serialized as an artifact of its own, whose
    loading from a path that does not exist is fatal. *)
Record Vocab : Type := MkVocab {
  sym2id : gmap string Z;
  id2sym : gmap Z string;
  frozen : bool
}.

(** [Vocab()] *)
Definition Vocab_new : Vocab := MkVocab ∅ ∅ false.
Definition get_id (v : Vocab) (token : string) : option Z := sym2id v !! token.
Definition get_sym (v : Vocab) (i : Z) : option string := id2sym v !! i.

(** Values of configuration entries. *)
Inductive scalar : Type :=
| SNone
| SBool (b : bool)
| SInt (n : Z)
| SStr (s : string).

(** Values of the attributes of a [SharedResources] object. *)
Inductive value : Type :=
| VNone
| VScalar (s : scalar)
| VDict (d : gmap string scalar)
| VVocab (v : Vocab).

(** The object is its attribute dictionary, [self.__dict__]. *)
Record t : Type := Obj { __dict__ : gmap string value }.

(** What a file holds: a pickled attribute dictionary, or a stored
    vocabulary. *)
Inductive artifact : Type :=
| Pickled (attrs : gmap string value)
| VocabFile (v : Vocab).

(** The file system: path to content. *)
Abbreviation files := (gmap string artifact).

(** [self.config = config or dict(); self.vocab = vocab] *)
Definition __init__ (vocab : option Vocab) (config : option (gmap string scalar)) : t :=
  let config :=
    match config with
    | Some c => if decide (c = ∅) then ∅ else c
    | None => ∅
    end in
  Obj {[ "config" := VDict config;
         "vocab" := match vocab with Some v => VVocab v | None => VNone end ]}.

(** Modelled from the spec: [Vocab.store(path)] writes the vocabulary
    as one artifact at [path]. *)
Definition Vocab_store (self : Vocab) (path : string) (fs : files) : files :=
  <[path := VocabFile self]> fs.

(** Modelled from the spec: [Vocab.load(path)] reconstructs the
    vocabulary from the artifact at [path] and fails when there is
    none. *)
Definition Vocab_load (self : Vocab) (path : string) (fs : files) : res Vocab :=
  match fs !! path with
  | Some (VocabFile v) => Ret v
  | Some (Pickled _) => Raise UnpicklingError
  | None => Raise FileNotFoundError
  end.

(** [store]: the attributes other than [vocab] are pickled to [path],
    then the vocabulary is stored at [path + "_vocab"]. The result is
    the file system after the call and the outcome of the call. *)
Definition store (self : t) (path : string) (fs : files) : files * res unit :=
  let remaining := filter (λ kv, kv.1 ≠ "vocab") (__dict__ self) in
  let fs := <[path := Pickled remaining]> fs in
  match __dict__ self !! "vocab" with
  | Some (VVocab v) => (Vocab_store v (path +:+ "_vocab") fs, Ret ())
  | _ => (fs, Raise AttributeError)
  end.

(** [load]: the attributes pickled at [path], if the file exists,
    update [self.__dict__]; then [self.vocab] is a new [Vocab] loaded
    from [path + "_vocab"]. The result is the object after the call and
    the outcome of the call. *)
Definition load (self : t) (path : string) (fs : files) : t * res unit :=
  let updated :=
    match fs !! path with
    | Some (Pickled attrs) => Ret (attrs ∪ __dict__ self)
    | Some (VocabFile _) => Raise UnpicklingError
    | None => Ret (__dict__ self)
    end in
  match updated with
  | Raise e => (self, Raise e)
  | Ret d =>
      match Vocab_load Vocab_new (path +:+ "_vocab") fs with
      | Ret v => (Obj (<["vocab" := VVocab v]> d), Ret ())
      | Raise e => (Obj (<["vocab" := VVocab Vocab_new]> d), Raise e)
      end
  end.

(** [self.config] and [self.vocab] *)
Definition config (self : t) : option value := __dict__ self !! "config".
Definition vocab (self : t) : option value := __dict__ self !! "vocab".

(** A populated object: a frozen vocabulary of three tokens and a
    configuration of two entries. *)
Definition ex_vocab : Vocab :=
  MkVocab {[ "<UNK>" := 0; "the" := 1; "reader" := 2 ]}
          {[ 0 := "<UNK>"; 1 := "the"; 2 := "reader" ]} true.
Definition ex_config : gmap string scalar :=
  {[ "name" := SStr "fastqa"; "repr_dim" := SInt 100 ]}.
Definition ex_resources : t := __init__ (Some ex_vocab) (Some ex_config).

End SharedResources.

(** * jack/core/tensorflow.py: the loop of TFReader.train *)

Module TFReader.

Section train.
(** Batches, the state of the model's variables, loss values, and the
    hooks with what they hold. *)
Context {Batch Model Loss Hook : Type}.

(** [feed_dict = self.model_module.convert_to_feed_dict(batch)] and
    [current_loss, _ = self.session.run([loss, min_op], feed_dict=feed_dict)]:
    the variables after the two statements, and the loss the session
    reports or the exception one of them raises. *)
Variable session_run : Model → Batch → Model * res Loss.

(** [hook.at_iteration_end(i, current_loss, set_name='train')] and
    [hook.at_epoch_end(i)]: the hook after the call, and whether the
    call returned (the loop does not look at what it returns) or
    raised. A hook holds the reader, and may read the variables. *)
Variable hook_at_iteration_end : Model → Hook → Z → Loss → string → Hook * res unit.
Variable hook_at_epoch_end : Model → Hook → Z → Hook * res unit.

(** What [input_module.batch_generator] handed back, once, before
    the loop: an object that can be iterated again and again, or a
    plain generator, which every [for] resumes where the last one
    left it. *)
Inductive batches : Type :=
| Restartable (all : list Batch)
| Generator (rest : list Batch).

(** The items one [for ... in enumerate(batches)] sees, and the
    iterable afterwards. *)
Definition iterate (b : batches) : list Batch * batches :=
  match b with
  | Restartable all => (all, Restartable all)
  | Generator rest => (rest, Generator [])
  end.

(** A call made on the hook at position [hook] of [hooks]. *)
Inductive call : Type :=
| at_iteration_end (hook : nat) (epoch : Z) (loss : Loss) (set_name : string)
| at_epoch_end (hook : nat) (epoch : Z).

(** The state of the loop: the model's variables, the hooks, and the
    calls made on the hooks so far, in the order they were made (a call
    that raised is the last of them). The hooks of the list are taken
    to be distinct objects: a call on one changes that one only. *)
Record state : Type := State {
  variables : Model;
  hooks_of : list Hook;
  calls : list call
}.

(** [for hook in hooks: hook.<method>(...)], on the hooks from position
    [k] on: the hooks afterwards, the calls made, and the exception of
    the call that raised, which is where the loop stops. *)
Fixpoint for_hooks (method : Hook → Hook * res unit) (event : nat → call) (k : nat)
    (hooks : list Hook) : list Hook * list call * res unit :=
  match hooks with
  | [] => ([], [], Ret ())
  | hook :: hooks =>
      match method hook with
      | (hook, Ret _) =>
          let '(hooks, made, r) := for_hooks method event (S k) hooks in
          (hook :: hooks, event k :: made, r)
      | (hook, Raise e) => (hook :: hooks, [event k], Raise e)
      end
  end.

(** [for hook in hooks: hook.at_iteration_end(i, current_loss, set_name='train')] *)
Definition iteration_hooks (model : Model) (hooks : list Hook) (i : Z) (current_loss : Loss)
  : list Hook * list call * res unit :=
  for_hooks (λ hook, hook_at_iteration_end model hook i current_loss "train")
            (λ k, at_iteration_end k i current_loss "train") 0 hooks.

(** [for hook in hooks: hook.at_epoch_end(i)] *)
Definition epoch_hooks (model : Model) (hooks : list Hook) (i : Z)
  : list Hook * list call * res unit :=
  for_hooks (λ hook, hook_at_epoch_end model hook i) (λ k, at_epoch_end k i) 0 hooks.

(** [for j, batch in enumerate(batches): ...]. Nothing is caught: the
    first exception, of the session or of a hook, ends the loop and is
    the outcome. *)
Fixpoint batch_loop (i : Z) (items : list Batch) (st : state) : state * res unit :=
  match items with
  | [] => (st, Ret ())
  | batch :: items =>
      match session_run (variables st) batch with
      | (model, Raise e) => (State model (hooks_of st) (calls st), Raise e)
      | (model, Ret current_loss) =>
          let '(hooks, made, r) := iteration_hooks model (hooks_of st) i current_loss in
          let st := State model hooks (calls st ++ made) in
          match r with
          | Ret _ => batch_loop i items st
          | Raise e => (st, Raise e)
          end
      end
  end.

(** [for i in range(1, max_epochs + 1): ...] *)
Fixpoint epoch_loop (epochs : list Z) (b : batches) (st : state) : state * res unit :=
  match epochs with
  | [] => (st, Ret ())
  | i :: epochs =>
      let '(items, b) := iterate b in
      match batch_loop i items st with
      | (st, Raise e) => (st, Raise e)
      | (st, Ret _) =>
          let '(hooks, made, r) := epoch_hooks (variables st) (hooks_of st) i in
          let st := State (variables st) hooks (calls st ++ made) in
          match r with
          | Ret _ => epoch_loop epochs b st
          | Raise e => (st, Raise e)
          end
      end
  end.

(** [range(1, max_epochs + 1)] *)
Definition epochs_range (max_epochs : Z) : list Z :=
  map (λ k, Z.of_nat k) (seq 1 (Z.to_nat max_epochs)).

Definition train (hooks : list Hook) (b : batches) (max_epochs : Z) (model : Model)
  : state * res unit :=
  epoch_loop (epochs_range max_epochs) b (State model hooks []).

(** The calls of a round over [n] hooks that no exception ends. *)
Definition iteration_round (n : nat) (i : Z) (current_loss : Loss) : list call :=
  map (λ k, at_iteration_end k i current_loss "train") (seq 0 n).
Definition epoch_round (n : nat) (i : Z) : list call :=
  map (λ k, at_epoch_end k i) (seq 0 n).

(** The variables after the session was run on the batches one after
    the other, where no run raises. *)
Fixpoint updates (items : list Batch) (model : Model) : option Model :=
  match items with
  | [] => Some model
  | batch :: items =>
      match session_run model batch with
      | (model, Ret _) => updates items model
      | (_, Raise _) => None
      end
  end.

(** No call of the session and no call of a hook raises. *)
Definition nothing_raises : Prop :=
  (∀ model batch, returns (session_run model batch).2)
  ∧ (∀ model hook i loss set_name,
       returns (hook_at_iteration_end model hook i loss set_name).2)
  ∧ (∀ model hook i, returns (hook_at_epoch_end model hook i).2).

(** The number of [at_iteration_end] and of [at_epoch_end] calls a
    trace holds for the hook at position [k]. *)
Definition is_iteration_call (k : nat) (c : call) : bool :=
  match c with at_iteration_end h _ _ _ => bool_decide (h = k) | _ => false end.
Definition is_epoch_call (k : nat) (c : call) : bool :=
  match c with at_epoch_end h _ => bool_decide (h = k) | _ => false end.
Definition iteration_calls (k : nat) (trace : list call) : nat :=
  length (filter (λ c, is_iteration_call k c) trace).
Definition epoch_calls (k : nat) (trace : list call) : nat :=
  length (filter (λ c, is_epoch_call k c) trace).

End train.

Arguments call : clear implicits.
Arguments batches : clear implicits.
Arguments state : clear implicits.

(** The number of calls one round over the hooks at the positions [n],
    ..., [n + len - 1] makes on the hook at position [k]: one when there
    is such a hook, none otherwise. *)
Definition once (n k len : nat) : nat :=
  if decide (n ≤ k < n + len)%nat then 1%nat else 0%nat.

(** The scenario of two epochs over two batches with two hooks: the
    batches are named 1 and 2, the loss the session reports is ten
    times the number of updates so far plus the batch, and a hook counts
    the calls made on it. *)
Definition ex_run (m b : nat) : nat * res nat := (S m, Ret (10 * m + b)%nat).
Definition ex_at_iteration_end (m count : nat) (i : Z) (loss : nat) (set_name : string)
  : nat * res unit := (S count, Ret ()).
Definition ex_at_epoch_end (m count : nat) (i : Z) : nat * res unit := (S count, Ret ()).
Definition ex_hooks : list nat := [0%nat; 0%nat].
Definition ex_train (b : batches nat) (max_epochs : Z) (model : nat)
  : state nat nat nat * res unit :=
  train ex_run ex_at_iteration_end ex_at_epoch_end ex_hooks b max_epochs model.

End TFReader.

(** * jack/util/hooks.py: LossHook *)

Module LossHook.
Local Open Scope float_scope.

(** The attributes of the hook. The dictionaries are keyed by set
    name. [scores] is the history [add_to_history] appends to:
    set name, loss, iteration, epoch. *)
Record t : Type := Hook {
  _iter_interval : option Z;
  _acc_loss : gmap string float;
  _iter : gmap string Z;
  _epoch_loss : gmap string float;
  _iter_epoch : gmap string Z;
  scores : list (string * float * Z * Z)
}.

Definition __init__ (iter_interval : option Z) : t :=
  Hook iter_interval {[ "train" := 0 ]} {[ "train" := 0%Z ]}
       {[ "train" := 0 ]} {[ "train" := 0%Z ]} [].

(** Methods read and write the attributes and may raise. *)
Definition M (A : Type) : Type := t → t * res A.
Definition ret {A} (a : A) : M A := λ self, (self, Ret a).
Definition raise {A} (e : exn) : M A := λ self, (self, Raise e).
Definition bind {A B} (m : M A) (f : A → M B) : M B :=
  λ self, match m self with
          | (self, Ret a) => f a self
          | (self, Raise e) => (self, Raise e)
          end.
Notation "x <~ m ;; k" := (bind m (λ x, k))
  (at level 100, m at next level, right associativity).
Notation "m ;;; k" := (bind m (λ _, k))
  (at level 100, right associativity).

(** [self.<attr>[set_name]] and [self.<attr>[set_name] = v] *)
Definition get {V} (attr : t → gmap string V) (set_name : string) : M V :=
  λ self, (self, getitem (attr self) set_name).
Definition set_acc_loss (set_name : string) (v : float) : M unit :=
  λ self, (Hook (_iter_interval self) (<[set_name := v]> (_acc_loss self)) (_iter self)
                (_epoch_loss self) (_iter_epoch self) (scores self), Ret ()).
Definition set_iter (set_name : string) (v : Z) : M unit :=
  λ self, (Hook (_iter_interval self) (_acc_loss self) (<[set_name := v]> (_iter self))
                (_epoch_loss self) (_iter_epoch self) (scores self), Ret ()).
Definition set_epoch_loss (set_name : string) (v : float) : M unit :=
  λ self, (Hook (_iter_interval self) (_acc_loss self) (_iter self)
                (<[set_name := v]> (_epoch_loss self)) (_iter_epoch self) (scores self), Ret ()).
Definition set_iter_epoch (set_name : string) (v : Z) : M unit :=
  λ self, (Hook (_iter_interval self) (_acc_loss self) (_iter self)
                (_epoch_loss self) (<[set_name := v]> (_iter_epoch self)) (scores self), Ret ()).

(** [TraceHook.add_to_history({'loss': loss}, iter_value, epoch, set_name)] *)
Definition add_to_history (loss : float) (iter_value epoch : Z) (set_name : string) : M unit :=
  λ self, (Hook (_iter_interval self) (_acc_loss self) (_iter self)
                (_epoch_loss self) (_iter_epoch self)
                (scores self ++ [(set_name, loss, iter_value, epoch)]), Ret ()).

(** [a % b] on integers. *)
Definition int_mod (a b : Z) : M Z :=
  if decide (b = 0%Z) then raise ZeroDivisionError else ret (a mod b)%Z.

(** The first lines of [at_iteration_end]: a set name seen for the
    first time gets its four entries. *)
Definition init_set (set_name : string) : M unit :=
  λ self,
    match _acc_loss self !! set_name with
    | Some _ => (self, Ret ())
    | None =>
        (Hook (_iter_interval self)
              (<[set_name := 0]> (_acc_loss self)) (<[set_name := 0%Z]> (_iter self))
              (<[set_name := 0]> (_epoch_loss self)) (<[set_name := 0%Z]> (_iter_epoch self))
              (scores self), Ret ())
    end.

Definition at_iteration_end (epoch : Z) (loss : float) (set_name : string) : M float :=
  λ self,
    match _iter_interval self with
    | None => ret loss self
    | Some iter_interval =>
        (init_set set_name ;;;
         n <~ get _iter_epoch set_name ;; set_iter_epoch set_name (n + 1)%Z ;;;
         e <~ get _epoch_loss set_name ;; set_epoch_loss set_name (e + 1) ;;;
         i <~ get _iter set_name ;; set_iter set_name (i + 1)%Z ;;;
         a <~ get _acc_loss set_name ;; set_acc_loss set_name (a + loss) ;;;
         i <~ get _iter set_name ;;
         due <~ (if decide (i = 0%Z) then ret false
                 else r <~ int_mod i iter_interval ;; ret (bool_decide (r = 0%Z))) ;;
         (if due : bool then
            a <~ get _acc_loss set_name ;;
            let loss := a / float_of_int iter_interval in
            i <~ get _iter set_name ;;
            add_to_history loss i epoch set_name ;;;
            set_acc_loss set_name 0
          else ret ()) ;;;
         i <~ get _iter set_name ;;
         if decide (i = 0%Z) then ret 0
         else a <~ get _acc_loss set_name ;; ret (a / float_of_int i)) self
    end.

Definition at_epoch_end (epoch : Z) (set_name : string) : M float :=
  λ self,
    match _iter_interval self with
    | None =>
        (* [self._acc_loss[set_name] / self._iter_interval[set_name]]:
           subscripting [None] *)
        (_ <~ get _acc_loss set_name ;; raise TypeError) self
    | Some _ =>
        (n <~ get _iter_epoch set_name ;;
         if decide (n = 0%Z) then ret 0
         else e <~ get _epoch_loss set_name ;; ret (e / float_of_int n)) self
    end.

(** [n] calls of [at_iteration_end] for one set name, with the losses
    given, whatever each call returns or raises. *)
Fixpoint iterations (epoch : Z) (set_name : string) (losses : list float) (self : t) : t :=
  match losses with
  | [] => self
  | loss :: losses => iterations epoch set_name losses (at_iteration_end epoch loss set_name self).1
  end.

(** What [self._epoch_loss[set_name]] holds after [n] times [+= 1],
    starting from [0.0]. *)
Fixpoint epoch_loss_after (n : nat) : float :=
  match n with
  | O => 0
  | S n => epoch_loss_after n + 1
  end.

(** [epoch_loss_after k / k] is [1.0] for every [k] from [n + 1] to
    [n + m], where [e] is [epoch_loss_after n]: a check that runs. *)
Fixpoint ratio_is_one (m : nat) (n : Z) (e : float) : bool :=
  match m with
  | O => true
  | S m =>
      let e := e + 1 in
      let n := (n + 1)%Z in
      if PrimFloat.Leibniz.eqb (e / float_of_int n) 1 then ratio_is_one m n e else false
  end.

(** A small logic for the methods. [triple P m Qn Qe]: started in a
    state with [P], the method [m] ends in a state with [Qn a] when it
    returns [a], and in a state with [Qe] when it raises. *)
Definition triple {A} (P : t → Prop) (m : M A) (Qn : A → t → Prop) (Qe : t → Prop) : Prop :=
  ∀ self, P self →
    match m self with
    | (self', Ret a) => Qn a self'
    | (self', Raise _) => Qe self'
    end.

(** [keeps P m]: [m] ends in a state with [P], however it ends. *)
Definition keeps {A} (P : t → Prop) (m : M A) : Prop := triple P m (λ _, P) P.

(** The entries of [set_name]: [e] in [_epoch_loss], [n] in
    [_iter_epoch]. *)
Definition entries (set_name : string) (e : float) (n : Z) (self : t) : Prop :=
  is_Some (_iter_interval self)
  ∧ is_Some (_acc_loss self !! set_name)
  ∧ is_Some (_iter self !! set_name)
  ∧ _epoch_loss self !! set_name = Some e
  ∧ _iter_epoch self !! set_name = Some n.

(** What the dictionaries hold for a set name after [k] iterations:
    nothing yet (a name other than ['train'], before its first
    iteration), or the count [k] in [_iter_epoch] and [k] times [+ 1]
    in [_epoch_loss]. *)
Definition counted (set_name : string) (k : nat) (self : t) : Prop :=
  is_Some (_iter_interval self)
  ∧ ((k = 0%nat ∧ _acc_loss self !! set_name = None)
     ∨ (is_Some (_acc_loss self !! set_name)
        ∧ is_Some (_iter self !! set_name)
        ∧ _epoch_loss self !! set_name = Some (epoch_loss_after k)
        ∧ _iter_epoch self !! set_name = Some (Z.of_nat k))).

(** The number of counts the check is run for. *)
Definition checked : nat := Z.to_nat 100000.

(** A hook with [iter_interval=10], one iteration in its first epoch,
    and none in its second. *)
Definition ex_hook : t := __init__ (Some 10%Z).
Definition ex_after_iteration : t := (at_iteration_end 1 0.5 "train" ex_hook).1.
Definition ex_after_epoch_1 : t := (at_epoch_end 1 "train" ex_after_iteration).1.

End LossHook.

(** * jack/core/tensorflow.py and jack/util/hooks.py: LossHook as a hook of train *)

Module TFReaderLossHook.
Import TFReader.
Local Open Scope float_scope.



End TFReaderLossHook.

(** * jack/util/hooks.py: XQAEvalHook.apply_metrics *)

Module XQAEvalHook.
Local Open Scope float_scope.

(** A span is a row [[start, end]] of token positions. The bounds are
    the integers the arrays hold, and their differences are exact
    (token positions are far from the range of the array type). *)
Definition span : Type := Z * Z.

(** The three arrays [apply_metrics] reads from [tensors]. *)
Record tensors : Type := Tensors {
  correct_spans : list span;          (* FlatPorts.Target.answer_span *)
  predicted_spans : list span;        (* FlatPorts.Prediction.answer_span *)
  correct2prediction : list Z         (* FlatPorts.Input.answer2question *)
}.

Record metrics : Type := Metrics { f1 : float; exact : float }.

(** [a / b] on Python floats. *)
Definition div (a b : float) : res float :=
  if PrimFloat.eqb b 0 then Raise ZeroDivisionError else Ret (a / b).

(** The quantities of the [elif f1 < 1.0] branch, one definition per
    assignment. *)
Definition total (c : span) : float := float_of_int (c.2 - c.1 + 1).
Definition missed_from_start (p c : span) : float := float_of_int (p.1 - c.1).
Definition missed_from_end (p c : span) : float := float_of_int (c.2 - p.2).
Definition tp (p c : span) : float :=
  total c - Py.min (total c) (Py.max 0 (missed_from_start p c) + Py.max 0 (missed_from_end p c)).
Definition fp (p c : span) : float :=
  Py.max 0 (- missed_from_start p c) + Py.max 0 (- missed_from_end p c).
Definition recall (p c : span) : res float := div (tp p c) (total c).
Definition precision (p c : span) : res float := div (tp p c) (tp p c + fp p c + 1e-10).
Definition span_f1 (p c : span) : res float :=
  recall ← recall p c;
  precision ← precision p c;
  div (2 * precision * recall) (precision + recall + 1e-10).

(** One turn of the [while] loop on the gold span [c]. *)
Definition compare_spans (p c : span) (m : metrics) : res metrics :=
  if bool_decide (p.1 = c.1) && bool_decide (p.2 = c.2) then
    Ret (Metrics 1 1)
  else if PrimFloat.ltb (f1 m) 1 then
    f ← span_f1 p c; Ret (Metrics (Py.max (f1 m) f) (exact m))
  else Ret m.

(** [while k < len(correct_spans) and correct2prediction[k] == i: ...; k += 1]
    where [remaining] is [correct_spans[k:]]. Returns [k] and the
    [f1], [exact] of the predicted span. *)
Fixpoint while_gold (c2p : list Z) (i : nat) (p : span) (remaining : list span)
    (k : nat) (m : metrics) : res (nat * metrics) :=
  match remaining with
  | [] => Ret (k, m)
  | c :: remaining =>
      q ← index c2p k;
      if bool_decide (q = Z.of_nat i) then
        m ← compare_spans p c m;
        while_gold c2p i p remaining (S k) m
      else Ret (k, m)
  end.

(** [for i in range(len(predicted_spans)): ...] where [ps] is
    [predicted_spans[i:]]. *)
Fixpoint for_predicted (t : tensors) (ps : list span) (i k : nat) (acc : metrics)
    : res metrics :=
  match ps with
  | [] => Ret acc
  | p :: ps =>
      '(k, m) ← while_gold (correct2prediction t) i p (drop k (correct_spans t)) k (Metrics 0 0);
      for_predicted t ps (S i) k (Metrics (f1 acc + f1 m) (exact acc + exact m))
  end.

Definition apply_metrics (t : tensors) : res metrics :=
  for_predicted t (predicted_spans t) 0 0 (Metrics 0 0).

End XQAEvalHook.

(** * jack/util/hooks.py: KBPEvalHook.at_test_time *)

Module KBPEvalHook.
Local Open Scope float_scope.

(** What [self.reader.model_module(batch, [...])] returns for one
    batch, port by port. *)
Record predictions : Type := Predictions {
  questions : list (list Z);             (* Ports.Input.question *)
  correct_answers : list Z;              (* Ports.Target.target_index *)
  logits : list (list float);            (* Ports.Prediction.logits *)
  candidate_ids : list (list Z)          (* Ports.Input.atomic_candidates *)
}.

(** Dictionaries that are iterated: keys in the order of their first
    insertion. *)
Definition odict (V : Type) : Type := list (Z * V).

Fixpoint setitem {V} (d : odict V) (k : Z) (v : V) : odict V :=
  match d with
  | [] => [(k, v)]
  | (k', v') :: d => if decide (k' = k) then (k, v) :: d else (k', v') :: setitem d k v
  end.

Fixpoint lookup {V} (d : odict V) (k : Z) : option V :=
  match d with
  | [] => None
  | (k', v) :: d => if decide (k' = k) then Some v else lookup d k
  end.

Definition odict_getitem {V} (d : odict V) (k : Z) : res V :=
  match lookup d k with Some v => Ret v | None => Raise KeyError end.

(** [s.add(a)] on a set kept as a list without repetition. *)
Definition set_add (s : list Z) (a : Z) : list Z :=
  if decide (a ∈ s) then s else s ++ [a].

(** An array without NaN. *)
Definition no_nan (a : list float) : Prop := Forall (λ x, PrimFloat.is_nan x = false) a.

(** What the documentation of [scipy.stats.rankdata] gives for
    [method="min"]: the rank of an element is one more than the number
    of elements strictly smaller than it, so that equal elements share
    the smallest rank of their group. *)
Definition min_ranks (a : list float) : list Z :=
  map (λ x, 1 + Z.of_nat (length (filter (λ y, PrimFloat.ltb y x = true) a)))%Z a.

(** A Python number that is the integer [0] or a float: [0] is what
    [x / n if n else 0] leaves where [n] is [0]. *)
Inductive number : Type :=
| Int (n : Z)
| Float (x : float).

(** The dictionaries filled from the batches. *)
Record collected : Type := Collected {
  q_cand_scores : odict (list float);
  q_cand_ids : odict (list Z);
  q_answers : odict (list Z)
}.

(** [for j in range(len_np_or_list(questions)): ...] from index [j]
    on; [n] counts the turns left. *)
Fixpoint collect_rows (p : predictions) (j n : nat) (c : collected) : res collected :=
  match n with
  | O => Ret c
  | S n =>
      row ← index (questions p) j;
      q ← index row 0;
      scores ← index (logits p) j;
      ids ← index (candidate_ids p) j;
      let answers := default [] (lookup (q_answers c) q) in
      a ← index (correct_answers p) j;
      collect_rows p (S j) n
        (Collected (setitem (q_cand_scores c) q scores)
                   (setitem (q_cand_ids c) q ids)
                   (setitem (q_answers c) q (set_add answers a)))
  end.

(** [for i, batch in enumerate(self._batches): ...] *)
Fixpoint collect (batches : list predictions) (c : collected) : res collected :=
  match batches with
  | [] => Ret c
  | p :: batches =>
      c ← collect_rows p 0 (length (questions p)) c;
      collect batches c
  end.

(** [for k, c in enumerate(q_cand_ids[q]): ... qa_scores.append(q_cand_scores[q][k])]
    for every [q] of [q_cand_ids]. *)
Definition qa_scores (c : collected) : res (list float) :=
  rows ← mapM (λ '(q, ids),
                 scores ← odict_getitem (q_cand_scores c) q;
                 mapM (λ k, index scores k) (seq 0 (length ids)))
              (q_cand_ids c);
  mret (concat rows).

(** The ranks of the gold answers of one question:
    [for a in q_answers[q]: for c, cand in enumerate(q_cand_ids[q]):
       if a == cand and cand_ranks[c] <= 100: ans_ranks.append(cand_ranks[c])] *)
Definition ans_ranks_of (cand_ranks : list Z) (ids : list Z) (answers : list Z)
    : res (list Z) :=
  rows ← mapM (λ a,
                 hits ← mapM (λ '(c, cand),
                                if decide (a = cand) then
                                  r ← index cand_ranks c;
                                  mret (if decide (r ≤ 100)%Z then [r] else [])
                                else mret [])
                             (imap (λ c cand, (c, cand)) ids);
                 mret (concat hits))
              answers;
  mret (concat rows).

(** [for r in sorted(ans_ranks): p = answers/r; av_p = av_p+p; answers += 1]
    where [rs] is what is left of [sorted(ans_ranks)]. *)
Fixpoint precision_sum (rs : list Z) (answers : Z) (av_p : float) : float :=
  match rs with
  | [] => av_p
  | r :: rs =>
      let p := float_of_int answers / float_of_int r in
      precision_sum rs (answers + 1)%Z (av_p + p)
  end.

(** The running totals of the loop over the questions. ([mean_ap] and
    [wmap] start as the integer [0], which adds like [0.0].) *)
Record totals : Type := Totals {
  mean_ap : float;
  wmap : float;
  qd : Z;
  md : Z
}.

(** The two values [at_test_time] reports to the log and to the
    summary writer. *)
Record report : Type := Report {
  mean_average_precision : number;
  weighted_mean_average_precision : number
}.

(** [with open(self._write_metrics_to, 'a') as f:
       f.write("{0} {1} {2:.5}\n".format(datetime.now(), name, np.round(value, 5)))]
    under [if self._write_metrics_to is not None]: a line is added to
    the file (here the name and the value it is made from), unless the
    value is an integer, for which the format [.5] raises. *)
Definition write_metric (write_metrics_to : bool) (name : string) (value : number)
    (written : list (string * float)) : list (string * float) * res unit :=
  if write_metrics_to then
    match value with
    | Float x => (written ++ [(name, x)], Ret ())
    | Int _ => (written, Raise ValueError)
    end
  else (written, Ret ()).

Section at_test_time.
(** [scipy.stats.rankdata(a, method="min")], of a library outside the
    repository: the ranks it returns, as integers. What it does with an
    array that holds a NaN depends on the version of the library, and
    nothing is assumed of it there; on the other arrays it is
    [min_ranks], which is what the properties below take from it. *)
Variable rankdata_min : list float → list Z.
Definition rankdata_documented : Prop := ∀ a, no_nan a → rankdata_min a = min_ranks a.

(** [self.reader.shared_resources.vocab.get_sym(q)], of
    jack/util/vocab.py: the symbol of an id, or an exception. *)
Variable get_sym : Z → res string.

(** [rankdata(- scores, method="min")] *)
Definition rank_descending (scores : list float) : list Z :=
  rankdata_min (map PrimFloat.opp scores).

(** The body of [for q in q_answers], also giving the ranks of the
    candidates, the ranks of the gold answers, and the average
    precision of the question. *)
Definition question_step (c : collected) (q : Z) (answers : list Z) (t : totals)
    : res (list Z * list Z * float * totals) :=
  scores ← odict_getitem (q_cand_scores c) q;
  let cand_ranks := rank_descending scores in
  ids ← odict_getitem (q_cand_ids c) q;
  ans_ranks ← ans_ranks_of cand_ranks ids answers;
  let av_p := precision_sum (merge_sort Z.le ans_ranks) 1 0 in
  let n := Z.of_nat (length ans_ranks) in
  if decide (0 < n)%Z then
    let av_p' := av_p / float_of_int n in
    _ ← get_sym q;                     (* for the line that is logged *)
    mret (cand_ranks, ans_ranks, av_p',
          Totals (mean_ap t + av_p') (wmap t + av_p) (qd t + 1)%Z (md t + n)%Z)
  else
    mret (cand_ranks, ans_ranks, av_p, Totals (mean_ap t + av_p) (wmap t) (qd t) (md t)).

Fixpoint question_loop (c : collected) (qs : odict (list Z)) (t : totals) : res totals :=
  match qs with
  | [] => Ret t
  | (q, answers) :: qs =>
      '(_, _, _, t) ← question_step c q answers t;
      question_loop c qs t
  end.

(** The loops of [at_test_time], up to the two values. *)
Definition evaluate (batches : list predictions) : res report :=
  c ← collect batches (Collected [] [] []);
  qa_scores ← qa_scores c;
  let qa_ranks := rank_descending qa_scores in   (* filed in [qa_rank], never read *)
  t ← question_loop c (q_answers c) (Totals 0 0 0 0);
  let q_answers_len := Z.of_nat (length (q_answers c)) in
  let mean_ap := if decide (q_answers_len = 0)%Z then Int 0
                 else Float (mean_ap t / float_of_int q_answers_len) in
  let wmap := if decide (md t = 0)%Z then Int 0
              else Float (wmap t / float_of_int (md t)) in
  mret (Report mean_ap wmap).

(** [predictions] are the results of the model module on the batches
    of the hook's dataset, in order; [info] is [self._info], and
    [write_metrics_to] says whether [self._write_metrics_to] is set. The
    result is what was added to that file, and the two values or the
    exception that ended the call. What is logged and what goes to the
    summary writer is left out. *)
Definition at_test_time (info : string) (write_metrics_to : bool)
    (batches : list predictions) : list (string * float) * res report :=
  match evaluate batches with
  | Raise e => ([], Raise e)
  | Ret r =>
      match write_metric write_metrics_to (info +:+ "_Mean Average Precision")
                         (mean_average_precision r) [] with
      | (written, Raise e) => (written, Raise e)
      | (written, Ret _) =>
          match write_metric write_metrics_to
                             (info +:+ "_Weighted Mean Average Precision")
                             (weighted_mean_average_precision r) written with
          | (written, Raise e) => (written, Raise e)
          | (written, Ret _) => (written, Ret r)
          end
      end
  end.

End at_test_time.

(** A vocabulary that knows every id. *)
Definition ex_get_sym (q : Z) : res string := Ret "sym".

(** One question (symbol 7) with three candidates scored 0.9, 0.5 and
    0.1, the second of them the gold answer. *)
Definition ex_scores : list float := [0.9; 0.5; 0.1].
Definition ex_tied_scores : list float := [0.5; 0.9; 0.5; 0.1].
Definition ex_batch : predictions :=
  Predictions [[7%Z]] [11%Z] [ex_scores] [[10%Z; 11%Z; 12%Z]].


(** No gold answer among the candidates. *)
Definition ex_no_hit : predictions :=
  Predictions [[7%Z]] [99%Z] [ex_scores] [[10%Z; 11%Z; 12%Z]].

End KBPEvalHook.

(** * The mean average precision, in the words of the specification *)

Module MeanAveragePrecision.
Import KBPEvalHook.
Local Open Scope float_scope.

(** Candidates ranked by descending score, ties sharing the best rank
    of their group: the rank of a candidate is one more than the number
    of candidates with a strictly higher score. *)
Definition descending_ranks (scores : list float) : list Z :=
  map (λ s, 1 + Z.of_nat (length (filter (λ s', PrimFloat.ltb s s' = true) scores)))%Z
      scores.

(** The ranks of the gold answers that are among the candidates and
    ranked 100 or better. *)
Definition found_ranks (ranks ids answers : list Z) : list Z :=
  a ← answers;
  filter (λ r, r ≤ 100)%Z
         (omap (λ '(c, cand), if decide (a = cand) then ranks !! c else None)
               (imap (λ c cand, (c, cand)) ids)).

(** The precision at the [j]-th found gold answer, in increasing order
    of the ranks, is [j] over its rank; the average precision is the
    mean of these, and 0 where no gold answer is found. *)
Definition precisions (sorted_ranks : list Z) : list float :=
  imap (λ j r, float_of_int (Z.of_nat j + 1) / float_of_int r) sorted_ranks.
Definition total (xs : list float) : float := fold_left PrimFloat.add xs 0.
Definition average_precision (ranks : list Z) : float :=
  match ranks with
  | [] => 0
  | _ => total (precisions (merge_sort Z.le ranks)) / float_of_int (Z.of_nat (length ranks))
  end.



End MeanAveragePrecision.

(** * jack/core/tensorflow.py: TFModelModule.setup *)

Module TFModelModuleSetup.
Import TFModelModule.

(** The graph, as far as the dictionaries of [setup] see it: the tensor
    objects made so far. A new tensor is the next number. *)
Definition graph : Type := positive.

(** [d[k] = v] on a dictionary kept in the order of insertion, and
    [k in d]. *)
Fixpoint odict_set (d : list (port * tensor)) (k : port) (v : tensor)
    : list (port * tensor) :=
  match d with
  | [] => [(k, v)]
  | (k', v') :: d => if decide (k' = k) then (k, v) :: d else (k', v') :: odict_set d k v
  end.

Definition odict_has (d : list (port * tensor)) (k : port) : bool :=
  bool_decide (k ∈ d.*1).

(** [d.update(pairs)] on a dictionary whose order is not looked at. *)
Definition update (d : gmap port tensor) (pairs : list (port * tensor)) : gmap port tensor :=
  fold_left (λ d kv, <[kv.1 := kv.2]> d) pairs d.

(** [p.create_placeholder()]: a new tensor of the graph. *)
Definition create_placeholder (g : graph) : tensor * graph := (g, Pos.succ g).

Section setup.
(** The two abstract methods: they add to the graph and return the
    tensors for [output_ports] and for [training_output_ports]. The
    second is handed [self._tensors.get(p, None)] for each training input
    port. *)
Variable create_output : graph → list tensor → list tensor * graph.
Variable create_training_output : graph → list (option tensor) → list tensor * graph.

(** [{d: d.create_placeholder() for d in self.input_ports}] *)
Fixpoint input_placeholders (ports : list port) (d : list (port * tensor)) (g : graph)
    : list (port * tensor) * graph :=
  match ports with
  | [] => (d, g)
  | p :: ports =>
      let '(ph, g) := create_placeholder g in
      input_placeholders ports (odict_set d p ph) g
  end.

(** [self._placeholders.update((p, p.create_placeholder())
       for p in self.training_input_ports
       if p not in self._placeholders and p not in self._tensors)]:
    the condition is looked at as the pairs are taken in, on the
    dictionary as it is by then. *)
Fixpoint training_placeholders (ports : list port) (tensors : gmap port tensor)
    (d : list (port * tensor)) (g : graph) : list (port * tensor) * graph :=
  match ports with
  | [] => (d, g)
  | p :: ports =>
      if negb (odict_has d p) && bool_decide (tensors !! p = None) then
        let '(ph, g) := create_placeholder g in
        training_placeholders ports tensors (odict_set d p ph) g
      else training_placeholders ports tensors d g
  end.

(** [setup(is_training)], as far as [_tensors] and [_placeholders] go.
    Both branches on ["name" in self.shared_resources.config] build the
    same dictionaries, inside and outside of a variable scope. The lists
    of variables and the saver that [setup] sets last are the
    backend's. *)
Definition setup (input_ports training_input_ports : list port) (is_training : bool)
    (self : t) (g : graph) : t * graph :=
  let '(placeholders, g) := input_placeholders input_ports [] g in
  let tensors : gmap port tensor := update ∅ placeholders in
  let '(output_tensors, g) :=
    create_output g (omap (λ p, tensors !! p) input_ports) in
  let tensors := update tensors (zip (output_ports self) output_tensors) in
  if is_training then
    let '(placeholders, g) :=
      training_placeholders training_input_ports tensors placeholders g in
    let tensors := update tensors placeholders in
    let input_target_tensors := map (λ p, tensors !! p) training_input_ports in
    let '(training_output_tensors, g) := create_training_output g input_target_tensors in
    let tensors := update tensors (zip (training_output_ports self) training_output_tensors) in
    (Module_ (output_ports self) (training_output_ports self) (Some tensors)
             (Some placeholders), g)
  else
    (Module_ (output_ports self) (training_output_ports self) (Some tensors)
             (Some placeholders), g).

End setup.

(** A model with the input ports 5 and 6, the output ports 1 and 5
    (port 5 is handed on), and the training output port 2 (the loss),
    whose training reads the ports 1 and 8. [create_output] makes two new
    tensors, [create_training_output] one; the first tensor of the graph
    is 100. The session of the example gives every tensor its number. *)
Definition ex_create_output (g : graph) (inputs : list tensor) : list tensor * graph :=
  ([g; Pos.succ g], Pos.succ (Pos.succ g)).
Definition ex_create_training_output (g : graph) (inputs : list (option tensor))
    : list tensor * graph :=
  ([g], Pos.succ g).
Definition ex_unset : t := Module_ [1%positive; 5%positive] [2%positive] None None.
Definition ex_setup (is_training : bool) : t :=
  (setup ex_create_output ex_create_training_output
         [5%positive; 6%positive] [1%positive; 8%positive] is_training ex_unset
         100%positive).1.
Definition ex_session (feed_dict : gmap tensor Z) (x : tensor) : res Z := Ret (Z.pos x).

End TFModelModuleSetup.

(** * jack/util/hooks.py: LossHook, the states of a run *)

Module LossHookRuns.
Import LossHook.
Local Open Scope float_scope.

(** The hook after an iteration for [set_name]: the four entries of
    the set name and the history. *)
Definition after (self : t) (set_name : string) (a : float) (i : Z) (e : float) (n : Z)
    (history : list (string * float * Z * Z)) : t :=
  Hook (_iter_interval self)
       (<[set_name := a]> (_acc_loss self)) (<[set_name := i]> (_iter self))
       (<[set_name := e]> (_epoch_loss self)) (<[set_name := n]> (_iter_epoch self))
       history.

(** After [k] iterations for [set_name] from a new hook with the
    interval [iv]: nothing yet, or entries with [k] in [_iter]. *)
Definition tracked (iv : Z) (set_name : string) (k : nat) (self : t) : Prop :=
  _iter_interval self = Some iv
  ∧ ((k = 0%nat ∧ _acc_loss self !! set_name = None)
     ∨ (is_Some (_acc_loss self !! set_name)
        ∧ _iter self !! set_name = Some (Z.of_nat k)
        ∧ is_Some (_epoch_loss self !! set_name)
        ∧ is_Some (_iter_epoch self !! set_name))).

(** What one iteration does to a tracked hook. *)
Definition stepped (iv : Z) (set_name : string) (k : nat) (epoch : Z) (self : t)
    (r : t * res float) : Prop :=
  tracked iv set_name (S k) r.1
  ∧ (iv = 0%Z → r.2 = Raise ZeroDivisionError ∧ scores r.1 = scores self)
  ∧ (iv ≠ 0%Z →
     returns r.2
     ∧ if decide (Z.of_nat (S k) mod iv = 0)%Z
       then ∃ x, scores r.1 = scores self ++ [(set_name, x, Z.of_nat (S k), epoch)]
       else scores r.1 = scores self).

End LossHookRuns.

(** * jack/util/hooks.py: TraceHook.add_to_history *)

Module TraceHook.
Local Open Scope float_scope.

(** [self.scores[metric][set_name]]: the list of the values, the list
    of the iterations and the list of the epochs. *)
Abbreviation history := (list float * list Z * list Z)%type.
Abbreviation scores := (gmap string (gmap string history)).

(** [self.scores[metric][set_name]], with the empty lists where there
    is no such entry. *)
Definition entry (s : scores) (metric set_name : string) : history :=
  default ([], [], []) (s !! metric ≫= (.!! set_name)).

(** The body of [for metric in score_dict]: the two tests make the
    entry where it is missing, the three [append] extend it. *)
Definition add_metric (metric : string) (value : float) (iter_value epoch : Z)
    (set_name : string) (s : scores) : scores :=
  let s := match s !! metric with Some _ => s | None => <[metric := ∅]> s end in
  let by_set := default ∅ (s !! metric) in
  let by_set := match by_set !! set_name with
                | Some _ => by_set
                | None => <[set_name := ([], [], [])]> by_set
                end in
  let '(values, iters, epochs) := default ([], [], []) (by_set !! set_name) in
  <[metric := <[set_name := (values ++ [value], iters ++ [iter_value], epochs ++ [epoch])]>
                by_set]> s.

(** [add_to_history(score_dict, iter_value, epoch, set_name)], where
    [score_dict] lists the items of the dictionary in the order of the
    iteration. *)
Definition add_to_history (score_dict : list (string * float)) (iter_value epoch : Z)
    (set_name : string) (s : scores) : scores :=
  fold_left (λ s kv, add_metric kv.1 kv.2 iter_value epoch set_name s) score_dict s.

(** The three lists of every entry have one length. *)
Definition aligned (s : scores) : Prop :=
  ∀ metric set_name by_set h,
    s !! metric = Some by_set → by_set !! set_name = Some h →
    length h.1.1 = length h.1.2 ∧ length h.1.2 = length h.2.

(** One metric, two evaluations on the development set and one on the
    training set. *)
Definition ex_scores : scores :=
  add_to_history [("f1", 0.5)] 20 2 "dev"
    (add_to_history [("f1", 0.25); ("exact", 0)] 10 1 "train"
       (add_to_history [("f1", 0.125)] 10 1 "dev" ∅)).

End TraceHook.

(** * jack/util/hooks.py: EvalHook *)

Module EvalHook.
Import TFReader.
Local Open Scope float_scope.

(** The metrics of the batches, [defaultdict(lambda: list())], and the
    combined metrics: dictionaries that are iterated, keys in the order
    of their first insertion. *)
Definition accumulated : Type := list (string * list float).
Definition combined : Type := list (string * float).

(** [metrics[k].append(v)] on the [defaultdict] *)
Fixpoint append_to (metrics : accumulated) (k : string) (v : float) : accumulated :=
  match metrics with
  | [] => [(k, [v])]
  | (k', vs) :: metrics =>
      if decide (k' = k) then (k', vs ++ [v]) :: metrics
      else (k', vs) :: append_to metrics k v
  end.

(** [sum(vs)]: the additions from the left, from [0] (the plain
    additions of the interpreters of the time of the code, before the
    compensated summation of Python 3.12). *)
Definition sum (vs : list float) : float := fold_left PrimFloat.add vs 0.

(** The dictionary with the keys [ks], in this order, and the value
    [f k] for the key [k]. *)
Definition table {A} (ks : list string) (f : string → A) : list (string * A) :=
  map (λ k, (k, f k)) ks.

Section hook.
(** The examples of the dataset, the batches, the state the side
    effect keeps, and the variables of the model of the reader. *)
Context {Instance Batch State Model : Type}.

(** [self.reader.input_module.batch_generator(dataset, batch_size, is_eval=True)]:
    an object that can be iterated again and again, or a generator. *)
Variable batch_generator : list Instance → batches Batch.

(** [self.apply_metrics(self.reader.model_module(batch, self._ports))]:
    the metrics of one batch, Python floats by name, as the model
    module computes them with the variables the session holds at the
    time of the call. *)
Variable evaluate : Model → Batch → res (gmap string float).

Record t : Type := Hook {
  _total : Z;
  _dataset : list Instance;
  _batches : option (batches Batch);
  _epoch_interval : option Z;
  _iter_interval : option Z;
  _iter : Z;
  _metrics : list string;
  _side_effect : option (combined → option State → res (option State));
  _side_effect_state : option State;
  scores : TraceHook.scores
}.

(** [possible_metrics] is what a subclass gives; [epoch_interval] is
    [1] where the caller gives none. *)
Definition __init__ (possible_metrics : list string) (dataset : list Instance)
    (iter_interval epoch_interval : option Z) (metrics : option (list string))
    (side_effect : option (combined → option State → res (option State))) : t :=
  Hook (Z.of_nat (length dataset)) dataset None epoch_interval iter_interval 0%Z
       (or_list metrics possible_metrics) side_effect None ∅.

Definition with_batches (self : t) (b : batches Batch) : t :=
  Hook (_total self) (_dataset self) (Some b) (_epoch_interval self) (_iter_interval self)
       (_iter self) (_metrics self) (_side_effect self) (_side_effect_state self)
       (scores self).
Definition with_iter (self : t) (i : Z) : t :=
  Hook (_total self) (_dataset self) (_batches self) (_epoch_interval self)
       (_iter_interval self) i (_metrics self) (_side_effect self)
       (_side_effect_state self) (scores self).
Definition with_scores (self : t) (s : TraceHook.scores) : t :=
  Hook (_total self) (_dataset self) (_batches self) (_epoch_interval self)
       (_iter_interval self) (_iter self) (_metrics self) (_side_effect self)
       (_side_effect_state self) s.
Definition with_side_effect_state (self : t) (st : option State) : t :=
  Hook (_total self) (_dataset self) (_batches self) (_epoch_interval self)
       (_iter_interval self) (_iter self) (_metrics self) (_side_effect self) st
       (scores self).

(** [for k in self._metrics: metrics[k].append(m[k])] *)
Fixpoint append_metrics (m : gmap string float) (ks : list string) (metrics : accumulated)
    : res accumulated :=
  match ks with
  | [] => Ret metrics
  | k :: ks => v ← getitem m k; append_metrics m ks (append_to metrics k v)
  end.

(** [for i, batch in enumerate(self._batches): ...] on the batches that
    are left: the batches not reached, and the metrics or the exception
    that ended the loop. The evaluation does not change the variables:
    [model] is what the session holds throughout. *)
Fixpoint batch_loop (model : Model) (ks : list string) (items : list Batch)
    (metrics : accumulated) : list Batch * res accumulated :=
  match items with
  | [] => ([], Ret metrics)
  | batch :: items =>
      match m ← evaluate model batch; append_metrics m ks metrics with
      | Ret metrics => batch_loop model ks items metrics
      | Raise e => (items, Raise e)
      end
  end.

(** [{k: sum(vs) / self._total for k, vs in accumulated_metrics.items()}] *)
Definition combine_metrics (total : Z) (metrics : accumulated) : res combined :=
  mapM (λ '(k, vs),
          if decide (total = 0%Z) then Raise ZeroDivisionError
          else Ret (k, sum vs / float_of_int total))
       metrics.

(** [self._batches] after
    [if self._batches is None: self._batches = ...batch_generator(...)] *)
Definition batches_of (self : t) : batches Batch :=
  match _batches self with
  | None => batch_generator (_dataset self)
  | Some b => b
  end.

(** [__call__(epoch)], with the variables the session holds. What is
    printed, what goes to the summary writer and to the file of
    [write_metrics_to] is left out. *)
Definition __call__ (model : Model) (epoch : Z) (self : t) : t * res unit :=
  let b := batches_of self in
  let '(rest, metrics) := batch_loop model (_metrics self) (iterate b).1 [] in
  let self := with_batches self
                (match b with Restartable _ => b | Generator _ => Generator rest end) in
  match metrics ≫= combine_metrics (_total self) with
  | Raise e => (self, Raise e)
  | Ret metrics =>
      let self :=
        with_scores self
          (TraceHook.add_to_history metrics (_iter self) epoch "train" (scores self)) in
      match _side_effect self with
      | None => (self, Ret ())
      | Some side_effect =>
          match side_effect metrics (_side_effect_state self) with
          | Ret st => (with_side_effect_state self st, Ret ())
          | Raise e => (self, Raise e)
          end
      end
  end.

(** [if interval is not None and n % interval == 0: self.__call__(epoch)] *)
Definition call_when_due (model : Model) (interval : option Z) (n epoch : Z) (self : t)
  : t * res unit :=
  match interval with
  | None => (self, Ret ())
  | Some interval =>
      if decide (interval = 0%Z) then (self, Raise ZeroDivisionError)
      else if decide (n mod interval = 0)%Z then __call__ model epoch self
      else (self, Ret ())
  end.

Definition at_epoch_end (model : Model) (epoch : Z) (self : t) : t * res unit :=
  call_when_due model (_epoch_interval self) epoch epoch self.

Definition at_test_time (model : Model) (epoch : Z) (self : t) : t * res unit :=
  __call__ model epoch self.

Definition at_iteration_end (model : Model) (epoch : Z) (loss : float) (self : t)
  : t * res unit :=
  let self := with_iter self (_iter self + 1)%Z in
  call_when_due model (_iter_interval self) (_iter self) epoch self.

(** The iterations of one epoch, one call of [at_iteration_end] for
    each step, up to the first that raises; a step is what the session
    holds after its update, and the loss it reported. *)
Fixpoint iterations (epoch : Z) (steps : list (Model * float)) (self : t) : t * res unit :=
  match steps with
  | [] => (self, Ret ())
  | (model, loss) :: steps =>
      match at_iteration_end model epoch loss self with
      | (self, Ret _) => iterations epoch steps self
      | (self, Raise e) => (self, Raise e)
      end
  end.

(** Evaluations one after the other, with the variables and at the
    epochs given, whatever each returns or raises. *)
Definition evaluations (epochs : list (Model * Z)) (self : t) : t :=
  fold_left (λ self me, (__call__ me.1 me.2 self).1) epochs self.

(** The values of the metric [k] over the batches, and what an
    evaluation files for it. *)
Definition values_of (model : Model) (k : string) (items : list Batch) : list float :=
  omap (λ batch, match evaluate model batch with Ret m => m !! k | Raise _ => None end)
       items.
Definition score_of (model : Model) (total : Z) (k : string) (items : list Batch) : float :=
  sum (values_of model k items) / float_of_int total.

(** The iterations, among the first [n], at which a hook with the
    interval [interval] evaluates: the multiples of the interval. *)
Definition schedule (interval : Z) (n : nat) : list Z :=
  map (λ i, interval * Z.of_nat i)%Z (seq 1 (Z.to_nat (Z.of_nat n / interval))).

(** What the evaluations at the iterations [its] file for the metric
    [k], each with the variables of its step. *)
Definition scores_at (steps : list (Model * float)) (total : Z) (k : string)
    (items : list Batch) (its : list Z) : list float :=
  omap (λ it, (λ step : Model * float, score_of step.1 total k items)
                <$> steps !! pred (Z.to_nat it)) its.

(** Every batch is evaluated, to metrics that hold those the hook
    asks for. *)
Definition evaluable (model : Model) (ks : list string) (items : list Batch) : Prop :=
  Forall (λ batch, ∃ m, evaluate model batch = Ret m ∧ Forall (λ k, is_Some (m !! k)) ks)
         items.

End hook.

Arguments t : clear implicits.

(** A hook for the metric "f1" on a dataset of three examples in two
    batches; a batch is the list of the f1 values its examples would get
    from a model that is right, and the variables are one factor on
    them. *)
Definition ex_evaluate (model : float) (batch : list float) : res (gmap string float) :=
  Ret {[ "f1" := model * sum batch ]}.
Definition ex_batches (dataset : list float) : batches (list float) :=
  Restartable [take 2 dataset; drop 2 dataset].
Definition ex_generator (dataset : list float) : batches (list float) :=
  Generator [take 2 dataset; drop 2 dataset].
Definition ex_dataset : list float := [1; 0.5; 0].
Definition ex_hook (iter_interval : option Z) : t float (list float) unit :=
  __init__ ["f1"] ex_dataset iter_interval (Some 1%Z) None None.
Definition ex_steps : list (float * float) :=
  [(1, 0.5); (1, 0.5); (2, 0.25); (2, 0.25); (4, 0.125)].

End EvalHook.

(** * jack/util/hooks.py: KBPEvalHook.at_test_time, the shape of the batches *)

Module KBPEvalHookShapes.
Import KBPEvalHook.

(** The four arrays of a batch have a row for every question, every
    row of [questions] has a first symbol, a row of [logits] has a
    score for every candidate of the row, and no score is a NaN. *)
Definition well_shaped (p : predictions) : Prop :=
  length (correct_answers p) = length (questions p)
  ∧ length (logits p) = length (questions p)
  ∧ length (candidate_ids p) = length (questions p)
  ∧ Forall (λ row, row ≠ []) (questions p)
  ∧ Forall2 (λ scores ids, (length ids ≤ length scores)%nat) (logits p) (candidate_ids p)
  ∧ Forall no_nan (logits p).

(** The three dictionaries go together: a question with gold answers
    has candidates, and a question with candidates has a score, not a
    NaN, for each of them. *)
Definition consistent (c : collected) : Prop :=
  NoDup (q_cand_ids c).*1
  ∧ (∀ q ids, lookup (q_cand_ids c) q = Some ids →
       ∃ scores, lookup (q_cand_scores c) q = Some scores
                 ∧ (length ids ≤ length scores)%nat)
  ∧ (∀ q, is_Some (lookup (q_answers c) q) → is_Some (lookup (q_cand_ids c) q))
  ∧ (∀ q scores, lookup (q_cand_scores c) q = Some scores → no_nan scores).

(** Two rows for the question 7, with different candidates and gold
    answers. *)
Definition ex_two_rows : predictions :=
  Predictions [[7%Z]; [7%Z]] [11%Z; 13%Z] [[0.9; 0.5; 0.1]%float; [0.2; 0.8]%float]
              [[10%Z; 11%Z; 12%Z]; [13%Z; 14%Z]].

End KBPEvalHookShapes.

(** * Properties *)

(** ** The result type *)

Lemma bind_Ret_inv {A C} (m : res A) (g : A → res C) (c : C) :
  m ≫= g = Ret c → ∃ a, m = Ret a ∧ g a = Ret c.
Proof. destruct m as [a|e]; simpl; [eauto | discriminate]. Qed.

Section res_lemmas.
Context {A B : Type}.
Implicit Types (f : A → res B) (l : list A) (k : list B).

Lemma mapM_Ret_Forall2 f l k :
  mapM f l = Ret k → Forall2 (λ x y, f x = Ret y) l k.
Proof.
  revert k. induction l as [|x l IH]; intros k Hk; simpl in Hk.
  - injection Hk as <-. constructor.
  - apply bind_Ret_inv in Hk as (y & Hy & Hk).
    apply bind_Ret_inv in Hk as (k' & Hk' & Hk).
    injection Hk as <-. constructor; auto.
Qed.

Lemma Forall2_mapM_Ret f l k :
  Forall2 (λ x y, f x = Ret y) l k → mapM f l = Ret k.
Proof.
  induction 1 as [|x y l k Hxy _ IH]; simpl; [done|].
  by rewrite Hxy; simpl; rewrite IH.
Qed.

Lemma mapM_returns f l :
  Forall (λ x, returns (f x)) l → returns (mapM f l).
Proof.
  induction 1 as [|x l [y Hy] _ [k Hk]]; simpl.
  - by exists [].
  - exists (y :: k). by rewrite Hy; simpl; rewrite Hk.
Qed.
End res_lemmas.

(** ** [dict] *)

Section dict_lemmas.
Context `{Countable K} {V : Type}.
Implicit Types (d : gmap K V) (ks : list K) (vs : list V).

Let ins := λ d (kv : K * V), <[kv.1 := kv.2]> d.

Lemma fold_insert_notin ks vs d p :
  p ∉ ks → fold_left ins (zip ks vs) d !! p = d !! p.
Proof.
  revert vs d. induction ks as [|k ks IH]; intros [|v vs] d Hp; simpl; try done.
  apply not_elem_of_cons in Hp as [Hne Hp].
  rewrite IH; [|done]. unfold ins; simpl. by rewrite lookup_insert_ne.
Qed.

(** A key that is zipped with a value is in the dictionary with the
    value of its last occurrence; when the values are a function of
    the keys, with that value. *)
Lemma fold_insert_in {E} (f : K → E + V) ks vs d p :
  Forall2 (λ k v, f k = inr v) ks vs → p ∈ ks →
  ∃ v, f p = inr v ∧ fold_left ins (zip ks vs) d !! p = Some v.
Proof.
  intros HF. revert d. induction HF as [|k v ks vs Hkv _ IH]; intros d Hp.
  - by apply elem_of_nil in Hp.
  - simpl. destruct (decide (p ∈ ks)) as [Hin|Hnin]; [by apply IH|].
    apply elem_of_cons in Hp as [->|?]; [|done].
    exists v. split; [done|].
    rewrite fold_insert_notin; [|done]. unfold ins; simpl. by rewrite lookup_insert_eq.
Qed.

Lemma dict_zip_notin ks vs p : p ∉ ks → dict (zip ks vs) !! p = None.
Proof. intros. unfold dict. by rewrite (fold_insert_notin ks vs ∅ p). Qed.
End dict_lemmas.

(** ** TensorPort *)

Module TensorPortProofs.
Import TensorPort.

(** C8, as stated, fails: two port objects with the same name (here
    two ports built with the arguments of [Ports.loss]) are not equal,
    and a dictionary keeps them as two keys. *)
Lemma same_name_ports_differ :
  getattr_name two_loss_ports 1%positive = Ret "loss"
  ∧ getattr_name two_loss_ports 2%positive = Ret "loss"
  ∧ __eq__ 1%positive 2%positive = false
  ∧ ({[ __hash__ 1%positive := 0 ]} : gmap positive Z) !! __hash__ 2%positive = None.
Proof. by vm_compute. Qed.

(** C8, amended: the order of two ports is the order of their names,
    [p > q] exactly when [p.name > q.name]; equality is the identity
    of the objects, [p == q] exactly when [p] and [q] are the same
    object (which then has one name). *)
Theorem order_by_name_equality_by_identity (h : heap) (p q : ref) (op oq : obj) :
  h !! p = Some op → h !! q = Some oq →
  __gt__ h p q = Ret (str_gt (name op) (name oq))
  ∧ (__eq__ p q = true ↔ p = q)
  ∧ (__eq__ p q = true → name op = name oq).
Proof.
  intros Hp Hq. unfold __gt__, getattr_name, __eq__. rewrite Hp, Hq. simpl.
  split; [done|]. rewrite bool_decide_eq_true. split; [done|].
  intros ->. congruence.
Qed.

Lemma order_by_name_equality_by_identity_witness :
  two_loss_ports !! 1%positive = Some loss_obj
  ∧ two_loss_ports !! 2%positive = Some loss_obj
  ∧ __gt__ two_loss_ports 1%positive 2%positive = Ret (str_gt (name loss_obj) (name loss_obj))
  ∧ (__eq__ 1%positive 2%positive = true ↔ 1%positive = 2%positive)
  ∧ (__eq__ 1%positive 2%positive = true → name loss_obj = name loss_obj).
Proof.
  split; [reflexivity|]. split; [reflexivity|].
  apply (order_by_name_equality_by_identity two_loss_ports 1%positive 2%positive
           loss_obj loss_obj);
    reflexivity.
Defined.

End TensorPortProofs.

(** ** TFModelModule.__call__ *)

Module TFModelModuleProofs.
Import TFModelModule.

Section call.
Context {ndarray : Type}.
Variable session_eval : gmap tensor ndarray → tensor → res ndarray.
Implicit Types (self : t) (batch ret : gmap port ndarray) (p : port).

Lemma is_computed_false self p :
  p ∉ output_ports self → p ∉ training_output_ports self → is_computed self p = false.
Proof.
  intros ? ?. unfold is_computed.
  by rewrite !bool_decide_eq_false_2.
Qed.

Lemma is_computed_output self p : p ∈ output_ports self → is_computed self p = true.
Proof. intros ?. unfold is_computed. by rewrite bool_decide_eq_true_2. Qed.

Lemma or_list_cons {A} (l y : list A) (x : A) : x ∈ l → or_list (Some l) y = l.
Proof. destruct l; [by intros ?%elem_of_nil | done]. Qed.

(** *** The closing loop *)

Lemma pass_through_keeps batch goal_ports ret p v :
  ret !! p = Some v → pass_through batch goal_ports ret !! p = Some v.
Proof.
  revert ret. induction goal_ports as [|g goal_ports IH]; intros ret Hp; simpl; [done|].
  apply IH. destruct (ret !! g) eqn:Hg; [done|].
  destruct (batch !! g); [|done].
  rewrite lookup_insert_ne; [done|]. intros ->. congruence.
Qed.

Lemma pass_through_outside batch goal_ports ret p :
  batch !! p = None → pass_through batch goal_ports ret !! p = ret !! p.
Proof.
  intros Hb. revert ret. induction goal_ports as [|g goal_ports IH]; intros ret; simpl; [done|].
  rewrite IH. destruct (ret !! g) eqn:Hg; [done|].
  destruct (batch !! g) eqn:Hbg; [|done].
  rewrite lookup_insert_ne; [done|]. intros ->. congruence.
Qed.

Lemma pass_through_copies batch goal_ports ret p v :
  p ∈ goal_ports → ret !! p = None → batch !! p = Some v →
  pass_through batch goal_ports ret !! p = Some v.
Proof.
  intros Hin. revert ret.
  induction goal_ports as [|g goal_ports IH]; intros ret Hr Hb; simpl.
  { by apply elem_of_nil in Hin. }
  destruct (decide (p = g)) as [<-|Hne].
  - rewrite Hr, Hb. apply pass_through_keeps. by rewrite lookup_insert_eq.
  - apply elem_of_cons in Hin as [?|Hin]; [done|].
    apply IH; [done| |done].
    destruct (ret !! g); [done|]. destruct (batch !! g); [|done].
    by rewrite lookup_insert_ne.
Qed.

(** *** What a call that returns has done *)

Lemma call_Ret_inv self batch goal_ports ret :
  __call__ session_eval self batch goal_ports = Ret ret →
  let goals := or_list goal_ports (output_ports self) in
  ∃ feed_dict goal_tensors outputs,
    convert_to_feed_dict self batch = Ret feed_dict
    ∧ Forall2 (λ p x, tensors_getitem self p = Ret x) (computed self goals) goal_tensors
    ∧ Forall2 (λ x v, session_eval feed_dict x = Ret v) goal_tensors outputs
    ∧ ret = pass_through batch goals (dict (zip (computed self goals) outputs)).
Proof.
  intros Hc goals. unfold __call__ in Hc. fold goals in Hc.
  apply bind_Ret_inv in Hc as (feed_dict & Hfeed & Hc).
  apply bind_Ret_inv in Hc as (goal_tensors & Hts & Hc).
  apply bind_Ret_inv in Hc as (outputs & Hout & Hc).
  injection Hc as <-.
  exists feed_dict, goal_tensors, outputs.
  split; [done|]. split; [by apply mapM_Ret_Forall2|].
  split; [by apply mapM_Ret_Forall2 | done].
Qed.

Lemma Forall2_value_of self feed_dict ps xs vs :
  Forall2 (λ p x, tensors_getitem self p = Ret x) ps xs →
  Forall2 (λ x v, session_eval feed_dict x = Ret v) xs vs →
  Forall2 (λ p v, value_of session_eval self feed_dict p = inr v) ps vs.
Proof.
  intros H1. revert vs. induction H1 as [|p x ps xs Hpx _ IH]; intros vs H2.
  - apply Forall2_nil_inv_l in H2 as ->. constructor.
  - apply Forall2_cons_inv_l in H2 as (v & vs' & Hxv & H2 & ->).
    constructor; [|by apply IH]. unfold value_of. by rewrite Hpx, Hxv.
Qed.

(** A call returns when the placeholders are there and every
    requested port that is an output or a training output has a
    tensor that the session evaluates. Other goal ports ask for
    nothing. *)
Lemma call_returns self batch goal_ports feed_dict :
  convert_to_feed_dict self batch = Ret feed_dict →
  (∀ p, p ∈ or_list goal_ports (output_ports self) → is_computed self p = true →
        ∃ x v, tensors_getitem self p = Ret x ∧ session_eval feed_dict x = Ret v) →
  returns (__call__ session_eval self batch goal_ports).
Proof.
  intros Hfeed Hall. unfold __call__. rewrite Hfeed. simpl.
  set (goals := or_list goal_ports (output_ports self)) in *.
  assert (∃ xs vs,
             Forall2 (λ p x, tensors_getitem self p = Ret x) (computed self goals) xs
             ∧ Forall2 (λ x v, session_eval feed_dict x = Ret v) xs vs)
    as (xs & vs & Hxs & Hvs).
  { assert (Forall (λ p, ∃ x v, tensors_getitem self p = Ret x
                                ∧ session_eval feed_dict x = Ret v) (computed self goals))
      as HF.
    { apply Forall_forall. intros p [Hc Hin]%list_elem_of_filter.
      apply Hall; [done|]. by destruct (is_computed self p). }
    induction HF as [|p ps (x & v & Hx & Hv) _ (xs & vs & ? & ?)].
    - exists [], []. split; constructor.
    - exists (x :: xs), (v :: vs). split; by constructor. }
  fold (computed self goals).
  rewrite (Forall2_mapM_Ret _ _ _ Hxs). simpl.
  unfold session_run. rewrite (Forall2_mapM_Ret _ _ _ Hvs). simpl.
  by eexists.
Qed.

(** *** C4 *)

(** C4: a goal port that the batch holds and that is neither an
    output port nor a training output port is returned with the very
    array the batch holds for it. *)
Theorem batch_port_passed_through self batch (goal_ports : list port) p
    (v : ndarray) ret :
  p ∈ goal_ports →
  p ∉ output_ports self → p ∉ training_output_ports self →
  batch !! p = Some v →
  __call__ session_eval self batch (Some goal_ports) = Ret ret →
  ret !! p = Some v.
Proof.
  intros Hin Ho Ht Hb Hc.
  apply call_Ret_inv in Hc as (feed_dict & xs & vs & _ & _ & _ & ->).
  rewrite (or_list_cons _ _ p Hin).
  apply pass_through_copies; [done| |done].
  apply dict_zip_notin. intros [Hc _]%list_elem_of_filter.
  by rewrite is_computed_false in Hc.
Qed.

(** *** C1 *)

(** C1, amended: a goal port that is neither an output port, nor a
    training output port, nor in the batch is left out of the result
    of every call that returns, and asks for nothing: the call
    returns whenever the placeholders are set up and the session
    evaluates the tensors of the requested (training) output
    ports. *)
Theorem unknown_goal_port_omitted self batch (goal_ports : option (list port)) p :
  p ∉ output_ports self → p ∉ training_output_ports self → batch !! p = None →
  (∀ ret, __call__ session_eval self batch goal_ports = Ret ret → ret !! p = None)
  ∧ (∀ feed_dict,
       convert_to_feed_dict self batch = Ret feed_dict →
       (∀ q, q ∈ or_list goal_ports (output_ports self) → q ≠ p →
             is_computed self q = true →
             ∃ x v, tensors_getitem self q = Ret x ∧ session_eval feed_dict x = Ret v) →
       returns (__call__ session_eval self batch goal_ports)).
Proof.
  intros Ho Ht Hb. split.
  - intros ret Hc.
    apply call_Ret_inv in Hc as (feed_dict & xs & vs & _ & _ & _ & ->).
    rewrite pass_through_outside; [|done].
    apply dict_zip_notin. intros [Hc _]%list_elem_of_filter.
    by rewrite is_computed_false in Hc.
  - intros feed_dict Hfeed Hall. apply (call_returns _ _ _ feed_dict); [done|].
    intros q Hq Hcq. apply Hall; [done| |done].
    intros ->. by rewrite is_computed_false in Hcq.
Qed.

(** *** C9 *)

(** C9: with [goal_ports] empty or [None] the call is the call for
    the output ports of the module: it returns when the placeholders
    are set up and the session evaluates the tensors of the output
    ports, and what it returns holds, for every output port, the
    value the session computed for the tensor of the port; so the
    result is empty only if the module has no output port. *)
Theorem empty_goals_are_output_ports self batch (goal_ports : option (list port)) :
  goal_ports = None ∨ goal_ports = Some [] →
  __call__ session_eval self batch goal_ports
    = __call__ session_eval self batch (Some (output_ports self))
  ∧ (∀ feed_dict,
       convert_to_feed_dict self batch = Ret feed_dict →
       (∀ p, p ∈ output_ports self →
             ∃ x v, tensors_getitem self p = Ret x ∧ session_eval feed_dict x = Ret v) →
       returns (__call__ session_eval self batch goal_ports))
  ∧ (∀ ret, __call__ session_eval self batch goal_ports = Ret ret →
       (∀ p, p ∈ output_ports self →
             ∃ feed_dict x v,
               convert_to_feed_dict self batch = Ret feed_dict
               ∧ tensors_getitem self p = Ret x
               ∧ session_eval feed_dict x = Ret v
               ∧ ret !! p = Some v)
       ∧ (output_ports self ≠ [] → ret ≠ ∅)).
Proof.
  intros Hg.
  assert (or_list goal_ports (output_ports self) = output_ports self) as Hor.
  { by destruct Hg as [-> | ->]. }
  assert (or_list (Some (output_ports self)) (output_ports self) = output_ports self)
    as Hor'.
  { by destruct (output_ports self). }
  split; [|split].
  - unfold __call__. by rewrite Hor, Hor'.
  - intros feed_dict Hfeed Hall. apply (call_returns _ _ _ feed_dict); [done|].
    rewrite Hor. intros p Hp _. by apply Hall.
  - intros ret Hc.
    apply call_Ret_inv in Hc as (feed_dict & xs & vs & Hfeed & Hxs & Hvs & ->).
    rewrite Hor in *.
    assert (∀ p, p ∈ output_ports self →
              ∃ x v, tensors_getitem self p = Ret x ∧ session_eval feed_dict x = Ret v
                     ∧ pass_through batch (output_ports self)
                         (dict (zip (computed self (output_ports self)) vs)) !! p = Some v)
      as Hall.
    { intros p Hp.
      pose proof (Forall2_value_of _ _ _ _ _ Hxs Hvs) as HF.
      destruct (fold_insert_in (value_of session_eval self feed_dict) _ _ ∅ p HF) as (v & Hv & Hl).
      { apply list_elem_of_filter. split; [|done].
        by rewrite is_computed_output. }
      unfold value_of in Hv.
      destruct (tensors_getitem self p) as [x|]; [|done].
      destruct (session_eval feed_dict x) as [v'|] eqn:Hx; [|done].
      injection Hv as ->. exists x, v. split; [done|]. split; [done|].
      by apply pass_through_keeps. }
    split.
    + intros p Hp. destruct (Hall p Hp) as (x & v & ? & ? & ?).
      by exists feed_dict, x, v.
    + intros Hne Hempty. destruct (output_ports self) as [|p ps] eqn:Hout; [done|].
      destruct (Hall p) as (x & v & _ & _ & Hl); [left|].
      rewrite Hempty in Hl. by rewrite lookup_empty in Hl.
Qed.

End call.

(** *** The example module *)

Lemma ex_unknown_port :
  (9%positive ∉ output_ports ex_module)
  ∧ (9%positive ∉ training_output_ports ex_module)
  ∧ ex_batch !! 9%positive = None.
Proof.
  simpl. split; [by intros ?%list_elem_of_singleton|].
  split; [by intros ?%list_elem_of_singleton | reflexivity].
Qed.

Lemma ex_batch_only_port :
  (7%positive ∉ output_ports ex_module) ∧ (7%positive ∉ training_output_ports ex_module).
Proof. simpl. split; by intros ?%list_elem_of_singleton. Qed.

(** C1, as stated, fails: port 9 is no output port, no training
    output port and not in the batch; the call for the goal ports 1
    and 9 raises nothing and returns a mapping that holds port 1
    only. *)
Lemma unknown_goal_port_not_signalled :
  (9%positive ∉ output_ports ex_module)
  ∧ (9%positive ∉ training_output_ports ex_module)
  ∧ ex_batch !! 9%positive = None
  ∧ __call__ ex_eval ex_module ex_batch (Some [1%positive; 9%positive])
    = Ret {[ 1%positive := 61 ]}
  ∧ ¬ raises (__call__ ex_eval ex_module ex_batch (Some [1%positive; 9%positive]))
  ∧ ({[ 1%positive := 61 ]} : gmap port Z) !! 9%positive = None.
Proof.
  destruct ex_unknown_port as (H1 & H2 & H3).
  split; [exact H1|]. split; [exact H2|]. split; [exact H3|].
  split; [by vm_compute|]. split; [|reflexivity].
  intros [e He]. vm_compute in He. discriminate.
Qed.

Lemma unknown_goal_port_omitted_witness :
  (9%positive ∉ output_ports ex_module)
  ∧ (9%positive ∉ training_output_ports ex_module)
  ∧ ex_batch !! 9%positive = None
  ∧ (∀ ret, __call__ ex_eval ex_module ex_batch (Some [1%positive; 9%positive]) = Ret ret →
            ret !! 9%positive = None)
  ∧ (∀ feed_dict,
       convert_to_feed_dict ex_module ex_batch = Ret feed_dict →
       (∀ q, q ∈ or_list (Some [1%positive; 9%positive]) (output_ports ex_module) →
             q ≠ 9%positive → is_computed ex_module q = true →
             ∃ x v, tensors_getitem ex_module q = Ret x ∧ ex_eval feed_dict x = Ret v) →
       returns (__call__ ex_eval ex_module ex_batch (Some [1%positive; 9%positive]))).
Proof.
  destruct ex_unknown_port as (H1 & H2 & H3).
  split; [exact H1|]. split; [exact H2|]. split; [exact H3|].
  exact (unknown_goal_port_omitted ex_eval ex_module ex_batch
           (Some [1%positive; 9%positive]) 9%positive H1 H2 H3).
Defined.

Lemma batch_port_passed_through_witness :
  (7%positive ∈ [1%positive; 7%positive])
  ∧ (7%positive ∉ output_ports ex_module)
  ∧ (7%positive ∉ training_output_ports ex_module)
  ∧ ex_batch !! 7%positive = Some 77
  ∧ __call__ ex_eval ex_module ex_batch (Some [1%positive; 7%positive])
    = Ret {[ 1%positive := 61; 7%positive := 77 ]}
  ∧ ({[ 1%positive := 61; 7%positive := 77 ]} : gmap port Z) !! 7%positive = Some 77.
Proof.
  destruct ex_batch_only_port as (H1 & H2).
  assert (7%positive ∈ [1%positive; 7%positive]) as Hin by (do 2 constructor).
  assert (__call__ ex_eval ex_module ex_batch (Some [1%positive; 7%positive])
          = Ret {[ 1%positive := 61; 7%positive := 77 ]}) as Hc by (by vm_compute).
  split; [exact Hin|]. split; [exact H1|]. split; [exact H2|].
  split; [reflexivity|]. split; [exact Hc|].
  exact (batch_port_passed_through ex_eval ex_module ex_batch
           [1%positive; 7%positive] 7%positive 77 _ Hin H1 H2 eq_refl Hc).
Defined.

Lemma empty_goals_are_output_ports_witness :
  ((Some [] : option (list port)) = None ∨ (Some [] : option (list port)) = Some [])
  ∧ __call__ ex_eval ex_module ex_batch (Some [])
    = __call__ ex_eval ex_module ex_batch (Some (output_ports ex_module))
  ∧ (∀ feed_dict,
       convert_to_feed_dict ex_module ex_batch = Ret feed_dict →
       (∀ p, p ∈ output_ports ex_module →
             ∃ x v, tensors_getitem ex_module p = Ret x ∧ ex_eval feed_dict x = Ret v) →
       returns (__call__ ex_eval ex_module ex_batch (Some [])))
  ∧ (∀ ret, __call__ ex_eval ex_module ex_batch (Some []) = Ret ret →
       (∀ p, p ∈ output_ports ex_module →
             ∃ feed_dict x v,
               convert_to_feed_dict ex_module ex_batch = Ret feed_dict
               ∧ tensors_getitem ex_module p = Ret x
               ∧ ex_eval feed_dict x = Ret v
               ∧ ret !! p = Some v)
       ∧ (output_ports ex_module ≠ [] → ret ≠ ∅)).
Proof.
  split; [right; reflexivity|].
  exact (empty_goals_are_output_ports ex_eval ex_module ex_batch (Some [])
           (or_intror eq_refl)).
Defined.

(** The empty goal list on the example: the value of output port 1. *)
Example ex_empty_goals :
  __call__ ex_eval ex_module ex_batch (Some []) = Ret {[ 1%positive := 61 ]}
  ∧ __call__ ex_eval ex_module ex_batch None = Ret {[ 1%positive := 61 ]}.
Proof. split; by vm_compute. Qed.

(** Before [setup] every call raises: [self.placeholders] is [None]. *)
Example ex_call_before_setup :
  __call__ ex_eval (Module_ [1%positive] [] None None) ex_batch None = Raise AttributeError.
Proof. reflexivity. Qed.

End TFModelModuleProofs.

(** ** SharedResources: store and load *)

Module SharedResourcesProofs.
Import SharedResources.

Lemma length_append (a b : string) :
  String.length (a +:+ b) = (String.length a + String.length b)%nat.
Proof. induction a as [|c a IH]; simpl; [done | by rewrite IH]. Qed.

(** The vocabulary is stored beside the pickled attributes, never over
    them. *)
Lemma vocab_path_ne (path : string) : path +:+ "_vocab" ≠ path.
Proof.
  intros Heq. apply (f_equal String.length) in Heq.
  rewrite length_append in Heq. simpl in Heq. lia.
Qed.

Lemma store_files (self : t) (path : string) (fs : files) (v : Vocab) :
  vocab self = Some (VVocab v) →
  store self path fs
  = (<[path +:+ "_vocab" := VocabFile v]>
       (<[path := Pickled (filter (λ kv, kv.1 ≠ "vocab") (__dict__ self))]> fs), Ret ()).
Proof. unfold store, vocab, Vocab_store. by intros ->. Qed.

(** What [load] leaves in the object when both files are there. *)
Lemma load_both (self : t) (path : string) (fs : files) attrs (v : Vocab) :
  fs !! path = Some (Pickled attrs) →
  fs !! (path +:+ "_vocab") = Some (VocabFile v) →
  load self path fs = (Obj (<["vocab" := VVocab v]> (attrs ∪ __dict__ self)), Ret ()).
Proof. unfold load, Vocab_load. by intros -> ->. Qed.

(** C5: [store(path)] followed by [load(path)] on a new object gives
    back the vocabulary (every token has the id it had, every id the
    token it had) and the configuration. *)
Theorem store_load_roundtrip (self : t) (path : string) (fs : files)
    (v : Vocab) (c : value) :
  vocab self = Some (VVocab v) →
  config self = Some c →
  ∃ fs' self' v',
    store self path fs = (fs', Ret ())
    ∧ load (__init__ None None) path fs' = (self', Ret ())
    ∧ vocab self' = Some (VVocab v')
    ∧ (∀ token, get_id v' token = get_id v token)
    ∧ (∀ i, get_sym v' i = get_sym v i)
    ∧ config self' = Some c.
Proof.
  intros Hv Hc.
  eexists _, _, v. split; [by apply store_files|].
  split.
  { apply load_both.
    - rewrite lookup_insert_ne; [|apply vocab_path_ne]. by rewrite lookup_insert_eq.
    - by rewrite lookup_insert_eq. }
  unfold vocab, config; simpl.
  split; [by rewrite lookup_insert_eq|]. split; [done|]. split; [done|].
  rewrite lookup_insert_ne; [|done].
  apply lookup_union_Some_l, map_lookup_filter_Some. by split.
Qed.

Lemma store_load_roundtrip_witness :
  vocab ex_resources = Some (VVocab ex_vocab)
  ∧ config ex_resources = Some (VDict ex_config)
  ∧ ∃ fs' self' v',
      store ex_resources "model/shared_resources" ∅ = (fs', Ret ())
      ∧ load (__init__ None None) "model/shared_resources" fs' = (self', Ret ())
      ∧ vocab self' = Some (VVocab v')
      ∧ (∀ token, get_id v' token = get_id ex_vocab token)
      ∧ (∀ i, get_sym v' i = get_sym ex_vocab i)
      ∧ config self' = Some (VDict ex_config).
Proof.
  assert (vocab ex_resources = Some (VVocab ex_vocab)) as Hv by (by vm_compute).
  assert (config ex_resources = Some (VDict ex_config)) as Hc by (by vm_compute).
  split; [exact Hv|]. split; [exact Hc|].
  exact (store_load_roundtrip ex_resources "model/shared_resources" ∅
           ex_vocab (VDict ex_config) Hv Hc).
Defined.

Lemma init_dict_lookup (k : string) :
  k ≠ "config" → k ≠ "vocab" → __dict__ (__init__ None None) !! k = None.
Proof.
  intros ? ?. unfold __init__; cbn [__dict__].
  rewrite lookup_insert_ne; [|done]. by rewrite lookup_singleton_ne.
Qed.

(** The whole attribute dictionary comes back when the object has a
    [config] attribute, as every object built by [__init__] has. *)
Lemma store_load_dict (self : t) (path : string) (fs : files) (v : Vocab) :
  vocab self = Some (VVocab v) → is_Some (config self) →
  (load (__init__ None None) path (store self path fs).1).1 = self.
Proof.
  intros Hv [c Hc]. rewrite (store_files _ _ _ v Hv); simpl.
  erewrite load_both; cycle 1.
  { rewrite lookup_insert_ne; [|apply vocab_path_ne]. by rewrite lookup_insert_eq. }
  { by rewrite lookup_insert_eq. }
  destruct self as [d]. unfold vocab, config in *. cbn [fst __dict__] in *. f_equal.
  apply map_eq. intros k.
  destruct (decide (k = "vocab")) as [->|Hk].
  { by rewrite lookup_insert_eq. }
  rewrite lookup_insert_ne; [|done].
  destruct (d !! k) as [x|] eqn:Hd.
  - apply lookup_union_Some_l, map_lookup_filter_Some. by split.
  - rewrite lookup_union_r; [|by apply map_lookup_filter_None; left].
    destruct (decide (k = "config")) as [->|Hk']; [congruence|].
    by apply init_dict_lookup.
Qed.

(** C6: [load] goes through when there is no file at [path]: the
    attributes are left as they are, so a new object keeps the empty
    configuration of [__init__], and only the vocabulary is replaced;
    it raises when there is no file at [path + "_vocab"]. *)
Theorem load_config_optional_vocab_mandatory (self : t) (path : string) (fs : files) :
  (fs !! path = None →
   ∀ v, fs !! (path +:+ "_vocab") = Some (VocabFile v) →
        load self path fs = (Obj (<["vocab" := VVocab v]> (__dict__ self)), Ret ())
        ∧ (self = __init__ None None →
           config (load self path fs).1 = Some (VDict ∅)
           ∧ vocab (load self path fs).1 = Some (VVocab v)))
  ∧ (fs !! (path +:+ "_vocab") = None → raises (load self path fs).2).
Proof.
  split.
  - intros Hp v Hv.
    assert (load self path fs = (Obj (<["vocab" := VVocab v]> (__dict__ self)), Ret ()))
      as Hl.
    { unfold load, Vocab_load. by rewrite Hp, Hv. }
    split; [done|]. intros ->. rewrite Hl. by vm_compute.
  - intros Hv. unfold load, Vocab_load. rewrite Hv.
    destruct (fs !! path) as [[attrs|w]|]; simpl; by eexists.
Qed.

Lemma load_config_optional_vocab_mandatory_witness :
  let fs : files := {[ "model/shared_resources_vocab" := VocabFile ex_vocab ]} in
  (fs !! "model/shared_resources" = None →
   ∀ v, fs !! ("model/shared_resources" +:+ "_vocab") = Some (VocabFile v) →
        load (__init__ None None) "model/shared_resources" fs
        = (Obj (<["vocab" := VVocab v]> (__dict__ (__init__ None None))), Ret ())
        ∧ (__init__ None None = __init__ None None →
           config (load (__init__ None None) "model/shared_resources" fs).1 = Some (VDict ∅)
           ∧ vocab (load (__init__ None None) "model/shared_resources" fs).1
             = Some (VVocab v)))
  ∧ (fs !! ("model/shared_resources" +:+ "_vocab") = None →
     raises (load (__init__ None None) "model/shared_resources" fs).2).
Proof.
  exact (load_config_optional_vocab_mandatory (__init__ None None)
           "model/shared_resources"
           {[ "model/shared_resources_vocab" := VocabFile ex_vocab ]}).
Defined.

(** The two cases of C6 on concrete file systems. *)
Example ex_load_without_config :
  load (__init__ None None) "model/shared_resources"
       {[ "model/shared_resources_vocab" := VocabFile ex_vocab ]}
  = (Obj {[ "config" := VDict ∅; "vocab" := VVocab ex_vocab ]}, Ret ()).
Proof. by vm_compute. Qed.

Example ex_load_without_vocab :
  (load (__init__ None None) "model/shared_resources"
        {[ "model/shared_resources" := Pickled {[ "config" := VDict ex_config ]} ]}).2
  = Raise FileNotFoundError.
Proof. by vm_compute. Qed.

End SharedResourcesProofs.

(** ** TFReader.train: the calls made on the hooks *)

Module TFReaderProofs.
Import TFReader.

Section calls.
Context {Batch Model Loss Hook : Type}.
Variable session_run : Model → Batch → Model * res Loss.
Variable hook_at_iteration_end : Model → Hook → Z → Loss → string → Hook * res unit.
Variable hook_at_epoch_end : Model → Hook → Z → Hook * res unit.
Implicit Types (hooks : list Hook) (trace : list (call Loss)) (k : nat).
Implicit Types (st : state Model Loss Hook).

Abbreviation iteration_hooks := (TFReader.iteration_hooks hook_at_iteration_end).
Abbreviation epoch_hooks := (TFReader.epoch_hooks (Loss := Loss) hook_at_epoch_end).
Abbreviation batch_loop := (TFReader.batch_loop session_run hook_at_iteration_end).
Abbreviation epoch_loop :=
  (TFReader.epoch_loop session_run hook_at_iteration_end hook_at_epoch_end).
Abbreviation train :=
  (TFReader.train session_run hook_at_iteration_end hook_at_epoch_end).
Abbreviation updates := (TFReader.updates (Loss := Loss) session_run).
Abbreviation nothing_raises :=
  (TFReader.nothing_raises session_run hook_at_iteration_end hook_at_epoch_end).

(** *** Counting over one round of the hooks *)

Lemma iteration_calls_app k trace1 trace2 :
  iteration_calls k (trace1 ++ trace2)
  = (iteration_calls k trace1 + iteration_calls k trace2)%nat.
Proof. unfold iteration_calls. by rewrite filter_app, length_app. Qed.

Lemma epoch_calls_app k trace1 trace2 :
  epoch_calls k (trace1 ++ trace2) = (epoch_calls k trace1 + epoch_calls k trace2)%nat.
Proof. unfold epoch_calls. by rewrite filter_app, length_app. Qed.

Lemma round_from_iteration n k len (i : Z) (loss : Loss) :
  iteration_calls k (map (λ j, at_iteration_end j i loss "train") (seq n len))
  = once n k len
  ∧ epoch_calls k (map (λ j, at_iteration_end j i loss "train") (seq n len)) = 0%nat.
Proof.
  revert n. induction len as [|len IH]; intros n; simpl.
  { split; [|done]. unfold once. case_decide; [lia | done]. }
  destruct (IH (S n)) as [IH1 IH2].
  unfold iteration_calls, epoch_calls in *. split.
  - rewrite filter_cons. cbn [is_iteration_call is_epoch_call].
    destruct (decide (n = k)) as [->|Hne].
    + rewrite bool_decide_eq_true_2 by done. rewrite decide_True by done.
      cbn [length]. rewrite IH1.
      unfold once. rewrite decide_False by lia. by rewrite decide_True by lia.
    + rewrite bool_decide_eq_false_2 by done. rewrite decide_False by (by intros []).
      rewrite IH1. unfold once. repeat case_decide; lia.
  - rewrite filter_cons. cbn [is_iteration_call is_epoch_call].
    rewrite decide_False by (by intros []). by rewrite IH2.
Qed.

Lemma round_from_epoch n k len (i : Z) :
  epoch_calls k (map (λ j, @at_epoch_end Loss j i) (seq n len)) = once n k len
  ∧ iteration_calls k (map (λ j, @at_epoch_end Loss j i) (seq n len)) = 0%nat.
Proof.
  revert n. induction len as [|len IH]; intros n; simpl.
  { split; [|done]. unfold once. case_decide; [lia | done]. }
  destruct (IH (S n)) as [IH1 IH2].
  unfold iteration_calls, epoch_calls in *. split.
  - rewrite filter_cons. cbn [is_iteration_call is_epoch_call].
    destruct (decide (n = k)) as [->|Hne].
    + rewrite bool_decide_eq_true_2 by done. rewrite decide_True by done.
      cbn [length]. rewrite IH1.
      unfold once. rewrite decide_False by lia. by rewrite decide_True by lia.
    + rewrite bool_decide_eq_false_2 by done. rewrite decide_False by (by intros []).
      rewrite IH1. unfold once. repeat case_decide; lia.
  - rewrite filter_cons. cbn [is_iteration_call is_epoch_call].
    rewrite decide_False by (by intros []). by rewrite IH2.
Qed.

Lemma iteration_round_calls k n i (loss : Loss) :
  iteration_calls k (iteration_round n i loss) = once 0 k n
  ∧ epoch_calls k (iteration_round n i loss) = 0%nat.
Proof. apply (round_from_iteration 0). Qed.

Lemma epoch_round_calls k n i :
  epoch_calls k (@epoch_round Loss n i) = once 0 k n
  ∧ iteration_calls k (@epoch_round Loss n i) = 0%nat.
Proof. apply (round_from_epoch 0). Qed.



(** *** A round over the hooks *)

(** A round that no exception ends has called every hook, in the
    order of the list. *)
Lemma for_hooks_Ret (method : Hook → Hook * res unit) (event : nat → call Loss) k
    hooks hooks' (made : list (call Loss)) :
  for_hooks method event k hooks = (hooks', made, Ret ()) →
  made = map event (seq k (length hooks)) ∧ length hooks' = length hooks.
Proof.
  revert k hooks' made. induction hooks as [|hook hooks IH]; intros k hooks' made Hr.
  { simpl in Hr. by injection Hr as <- <-. }
  cbn [for_hooks] in Hr. destruct (method hook) as [hook1 [[]|e]]; [|done].
  destruct (for_hooks method event (S k) hooks) as [[hooks1 made1] r] eqn:Hrest.
  injection Hr as <- <- ->.
  destruct (IH (S k) hooks1 made1 Hrest) as [-> Hlen].
  simpl. by rewrite Hlen.
Qed.

Lemma for_hooks_returns (method : Hook → Hook * res unit) (event : nat → call Loss) k
    hooks :
  (∀ hook, returns (method hook).2) →
  ∃ hooks', for_hooks method event k hooks
            = (hooks', map event (seq k (length hooks)), Ret ()).
Proof.
  intros Hm. revert k. induction hooks as [|hook hooks IH]; intros k.
  { by exists []. }
  cbn [for_hooks]. destruct (Hm hook) as [[] Hhook].
  destruct (method hook) as [hook1 r]. simpl in Hhook. subst r.
  destruct (IH (S k)) as [hooks1 ->]. by eexists.
Qed.

Lemma iteration_hooks_Ret (model : Model) hooks i (loss : Loss) hooks' made :
  iteration_hooks model hooks i loss = (hooks', made, Ret ()) →
  made = iteration_round (length hooks) i loss ∧ length hooks' = length hooks.
Proof. apply for_hooks_Ret. Qed.

Lemma epoch_hooks_Ret (model : Model) hooks i hooks' made :
  epoch_hooks model hooks i = (hooks', made, Ret ()) →
  made = epoch_round (length hooks) i ∧ length hooks' = length hooks.
Proof. apply for_hooks_Ret. Qed.

(** *** The loops that no exception ends *)

Lemma batch_loop_cons_Ret i (batch : Batch) items st st' :
  batch_loop i (batch :: items) st = (st', Ret ()) →
  ∃ model loss hooks',
    session_run (variables st) batch = (model, Ret loss)
    ∧ length hooks' = length (hooks_of st)
    ∧ batch_loop i items
        (State model hooks'
               (calls st ++ iteration_round (length (hooks_of st)) i loss))
      = (st', Ret ()).
Proof.
  cbn [TFReader.batch_loop]. intros Hl.
  destruct (session_run (variables st) batch) as [model [loss|e]]; [|done].
  destruct (iteration_hooks model (hooks_of st) i loss) as [[hooks' made] [[]|e]] eqn:Hh;
    [|done].
  apply iteration_hooks_Ret in Hh as [-> Hlen].
  by exists model, loss, hooks'.
Qed.

Lemma epoch_loop_cons_Ret i epochs (b : batches Batch) st st' :
  epoch_loop (i :: epochs) b st = (st', Ret ()) →
  ∃ st1 hooks',
    batch_loop i (iterate b).1 st = (st1, Ret ())
    ∧ length hooks' = length (hooks_of st1)
    ∧ epoch_loop epochs (iterate b).2
        (State (variables st1) hooks'
               (calls st1 ++ epoch_round (length (hooks_of st1)) i))
      = (st', Ret ()).
Proof.
  cbn [TFReader.epoch_loop]. intros Hl.
  destruct (iterate b) as [items b']. cbn [fst snd].
  destruct (batch_loop i items st) as [st1 [[]|e]]; [|done].
  destruct (epoch_hooks (variables st1) (hooks_of st1) i) as [[hooks' made] [[]|e]] eqn:Hh;
    [|done].
  apply epoch_hooks_Ret in Hh as [-> Hlen].
  by exists st1, hooks'.
Qed.

Lemma batch_loop_Ret k i (items : list Batch) st st' :
  batch_loop i items st = (st', Ret ()) →
  length (hooks_of st') = length (hooks_of st)
  ∧ iteration_calls k (calls st')
    = (iteration_calls k (calls st) + length items * once 0 k (length (hooks_of st)))%nat
  ∧ epoch_calls k (calls st') = epoch_calls k (calls st)
  ∧ updates items (variables st) = Some (variables st').
Proof.
  revert st. induction items as [|batch items IH]; intros st Hl.
  { simpl in Hl. injection Hl as <-. simpl. repeat split; lia. }
  apply batch_loop_cons_Ret in Hl as (model & loss & hooks' & Hs & Hlen & Hl).
  apply IH in Hl as (H1 & H2 & H3 & H4). cbn [hooks_of calls variables] in *.
  rewrite H1, H2, H3, Hlen. simpl. rewrite Hs.
  rewrite iteration_calls_app, epoch_calls_app.
  destruct (iteration_round_calls k (length (hooks_of st)) i loss) as [-> ->].
  repeat split; [lia|lia|done].
Qed.



Lemma epoch_loop_Ret_used_up k (epochs : list Z) st st' :
  epoch_loop epochs (Generator []) st = (st', Ret ()) →
  variables st' = variables st
  ∧ iteration_calls k (calls st') = iteration_calls k (calls st)
  ∧ epoch_calls k (calls st')
    = (epoch_calls k (calls st) + length epochs * once 0 k (length (hooks_of st)))%nat.
Proof.
  revert st. induction epochs as [|i epochs IH]; intros st Hl.
  { simpl in Hl. injection Hl as <-. split; [done|]. split; [done|]. simpl. lia. }
  apply epoch_loop_cons_Ret in Hl as (st1 & hooks' & Hb & Hlen & Hl).
  cbn [iterate fst snd TFReader.batch_loop] in Hb, Hl. injection Hb as <-.
  apply IH in Hl as (E1 & E2 & E3). cbn [hooks_of calls variables] in *.
  rewrite E1, E2, E3, Hlen.
  rewrite iteration_calls_app, epoch_calls_app.
  destruct (epoch_round_calls k (length (hooks_of st)) i) as [-> ->].
  split; [done|]. split; simpl; lia.
Qed.


(** *** Runs in which nothing raises *)

Lemma batch_loop_returns i (items : list Batch) st :
  nothing_raises → ∃ st', batch_loop i items st = (st', Ret ()).
Proof.
  intros (Hs & Hi & He). revert st.
  induction items as [|batch items IH]; intros st; [by eexists|].
  cbn [TFReader.batch_loop].
  destruct (Hs (variables st) batch) as [loss Hloss].
  destruct (session_run (variables st) batch) as [model r]. simpl in Hloss. subst r.
  destruct (for_hooks_returns
              (λ hook, hook_at_iteration_end model hook i loss "train")
              (λ k, at_iteration_end k i loss "train") 0 (hooks_of st)) as [hooks' Hh].
  { intros hook. apply Hi. }
  unfold TFReader.iteration_hooks. rewrite Hh. apply IH.
Qed.

Lemma epoch_loop_returns (epochs : list Z) (b : batches Batch) st :
  nothing_raises → ∃ st', epoch_loop epochs b st = (st', Ret ()).
Proof.
  intros Hn. pose proof Hn as (Hs & Hi & He). revert b st.
  induction epochs as [|i epochs IH]; intros b st; [by eexists|].
  cbn [TFReader.epoch_loop]. destruct (iterate b) as [items b'].
  destruct (batch_loop_returns i items st Hn) as [st1 ->].
  destruct (for_hooks_returns
              (λ hook, hook_at_epoch_end (variables st1) hook i)
              (λ k, @at_epoch_end Loss k i) 0 (hooks_of st1)) as [hooks' Hh].
  { intros hook. apply He. }
  unfold TFReader.epoch_hooks. rewrite Hh. apply IH.
Qed.

Lemma train_returns hooks (b : batches Batch) (max_epochs : Z) (model : Model) :
  nothing_raises → ∃ st, train hooks b max_epochs model = (st, Ret ()).
Proof. intros Hn. by apply epoch_loop_returns. Qed.

(** *** C7 *)


End calls.

End TFReaderProofs.

Module TFReaderExample.
Import TFReader TFReaderLossHook.
Local Open Scope float_scope.

Lemma ex_nothing_raises : nothing_raises ex_run ex_at_iteration_end ex_at_epoch_end.
Proof. split; [|split]; intros; by eexists. Qed.



End TFReaderExample.

(** ** LossHook *)

Module LossHookProofs.
Import LossHook.
Local Open Scope float_scope.

Lemma counted_init (iter_interval : Z) (set_name : string) :
  counted set_name 0 (__init__ (Some iter_interval)).
Proof.
  split; [by eexists|]. unfold __init__; simpl.
  destruct (decide (set_name = "train")) as [->|Hne].
  - right. rewrite !lookup_singleton_eq. eauto.
  - left. by rewrite lookup_singleton_ne.
Qed.

(** The entries of a set name after [init_set]. *)
Lemma counted_init_set (set_name : string) (k : nat) (self : t) :
  counted set_name k self →
  ∃ self', init_set set_name self = (self', Ret ())
    ∧ _iter_interval self' = _iter_interval self
    ∧ is_Some (_acc_loss self' !! set_name)
    ∧ is_Some (_iter self' !! set_name)
    ∧ _epoch_loss self' !! set_name = Some (epoch_loss_after k)
    ∧ _iter_epoch self' !! set_name = Some (Z.of_nat k).
Proof.
  intros [Hi [[-> Hnone] | (Ha & Hit & He & Hn)]]; unfold init_set.
  - rewrite Hnone. eexists. split; [done|]. simpl.
    rewrite !lookup_insert_eq. eauto.
  - destruct Ha as [a Ha]. rewrite Ha. eexists. split; [done|]. eauto 10.
Qed.

(** *** The rules of the logic of the methods *)

Lemma triple_bind {A B} (P : t → Prop) (R : A → t → Prop) (m : M A) (f : A → M B)
    (Qn : B → t → Prop) (Qe : t → Prop) :
  triple P m R Qe → (∀ a, triple (R a) (f a) Qn Qe) → triple P (bind m f) Qn Qe.
Proof.
  intros Hm Hf self HP. unfold bind. specialize (Hm self HP).
  destruct (m self) as [self' [a|e]]; [|done]. by apply Hf.
Qed.

Lemma triple_weaken {A} (P P' : t → Prop) (m : M A) (Qn Qn' : A → t → Prop)
    (Qe Qe' : t → Prop) :
  triple P m Qn Qe → (∀ s, P' s → P s) → (∀ a s, Qn a s → Qn' a s) → (∀ s, Qe s → Qe' s) →
  triple P' m Qn' Qe'.
Proof.
  intros Hm HP Hn He self HP'. specialize (Hm self (HP _ HP')).
  destruct (m self) as [self' [a|e]]; auto.
Qed.

Lemma keeps_bind {A B} (P : t → Prop) (m : M A) (f : A → M B) :
  keeps P m → (∀ a, keeps P (f a)) → keeps P (bind m f).
Proof. intros Hm Hf. apply (triple_bind P (λ _, P)); [done|]. intros a. apply Hf. Qed.

Lemma keeps_ret {A} (P : t → Prop) (a : A) : keeps P (ret a).
Proof. by intros self HP. Qed.

Lemma keeps_raise {A} (P : t → Prop) (e : exn) : keeps P (@raise A e).
Proof. by intros self HP. Qed.

Lemma keeps_get {V} (P : t → Prop) (attr : t → gmap string V) (set_name : string) :
  keeps P (get attr set_name).
Proof. intros self HP. unfold get. by destruct (getitem _ _). Qed.

Lemma keeps_int_mod (P : t → Prop) (a b : Z) : keeps P (int_mod a b).
Proof. unfold int_mod. case_decide; [apply keeps_raise | apply keeps_ret]. Qed.

(** *** The counters of a set name *)

Lemma init_set_entries (set_name : string) (k : nat) :
  triple (counted set_name k) (init_set set_name)
         (λ _, entries set_name (epoch_loss_after k) (Z.of_nat k)) (λ _, False).
Proof.
  intros self Hc. pose proof Hc as [Hiv _].
  destruct (counted_init_set _ _ _ Hc) as (s1 & -> & Hiv1 & ? & ? & ? & ?).
  unfold entries. by rewrite Hiv1.
Qed.

Lemma get_iter_epoch_entries (set_name : string) (e : float) (n : Z) :
  triple (entries set_name e n) (get _iter_epoch set_name)
         (λ v self, v = n ∧ entries set_name e n self) (λ _, False).
Proof.
  intros self He. pose proof He as (? & ? & ? & ? & Hn).
  unfold get, getitem. by rewrite Hn.
Qed.

Lemma get_epoch_loss_entries (set_name : string) (e : float) (n : Z) :
  triple (entries set_name e n) (get _epoch_loss set_name)
         (λ v self, v = e ∧ entries set_name e n self) (λ _, False).
Proof.
  intros self He. pose proof He as (? & ? & ? & Hl & ?).
  unfold get, getitem. by rewrite Hl.
Qed.

Lemma set_iter_epoch_entries (set_name : string) (e : float) (n v : Z) :
  triple (entries set_name e n) (set_iter_epoch set_name v)
         (λ _, entries set_name e v) (λ _, False).
Proof.
  intros self (? & ? & ? & ? & ?). unfold set_iter_epoch, entries; simpl.
  by rewrite lookup_insert_eq.
Qed.

Lemma set_epoch_loss_entries (set_name : string) (e v : float) (n : Z) :
  triple (entries set_name e n) (set_epoch_loss set_name v)
         (λ _, entries set_name v n) (λ _, False).
Proof.
  intros self (? & ? & ? & ? & ?). unfold set_epoch_loss, entries; simpl.
  by rewrite lookup_insert_eq.
Qed.

Lemma triple_pure {A} (φ : Prop) (P : t → Prop) (m : M A) (Qn : A → t → Prop)
    (Qe : t → Prop) :
  (φ → triple P m Qn Qe) → triple (λ self, φ ∧ P self) m Qn Qe.
Proof. intros Hm self [Hφ HP]. by apply Hm. Qed.

Lemma keeps_set_iter (set_name : string) (e : float) (n v : Z) :
  keeps (entries set_name e n) (set_iter set_name v).
Proof.
  intros self (? & ? & ? & ? & ?). unfold set_iter, entries; simpl.
  by rewrite lookup_insert_eq.
Qed.

Lemma keeps_set_acc_loss (set_name : string) (e : float) (n : Z) (v : float) :
  keeps (entries set_name e n) (set_acc_loss set_name v).
Proof.
  intros self (? & ? & ? & ? & ?). unfold set_acc_loss, entries; simpl.
  by rewrite lookup_insert_eq.
Qed.

Lemma keeps_add_to_history (set_name : string) (e : float) (n : Z)
    (loss : float) (iter_value epoch : Z) :
  keeps (entries set_name e n) (add_to_history loss iter_value epoch set_name).
Proof. by intros self (? & ? & ? & ? & ?). Qed.

(** The steps of a method are taken one after the other. *)
Ltac keeps_steps :=
  repeat first
    [ apply keeps_bind; [|intros ?]
    | apply keeps_get | apply keeps_ret | apply keeps_raise | apply keeps_int_mod
    | apply keeps_set_iter | apply keeps_set_acc_loss | apply keeps_add_to_history
    | case_decide | case_match ].

(** One call of [at_iteration_end], whatever the loss and whatever it
    returns or raises, counts one iteration. *)
Lemma counted_iteration (set_name : string) (k : nat) (epoch : Z) (loss : float) (self : t) :
  counted set_name k self →
  counted set_name (S k) (at_iteration_end epoch loss set_name self).1.
Proof.
  intros Hc. pose proof Hc as [[iv Hiv] _].
  unfold at_iteration_end. rewrite Hiv.
  set (Q := entries set_name (epoch_loss_after k + 1) (Z.of_nat k + 1)%Z).
  match goal with |- context [ (?m self).1 ] => assert (triple (counted set_name k) m (λ _, Q) Q) as Hm end.
  { apply (triple_bind _ (λ _, entries set_name (epoch_loss_after k) (Z.of_nat k))).
    { eapply triple_weaken; [apply init_set_entries|done|done|done]. }
    intros ?. eapply triple_bind.
    { eapply triple_weaken; [apply get_iter_epoch_entries|done|done|done]. }
    intros n. apply triple_pure. intros ->.
    apply (triple_bind _ (λ _, entries set_name (epoch_loss_after k) (Z.of_nat k + 1)%Z)).
    { eapply triple_weaken; [apply set_iter_epoch_entries|done|done|done]. }
    intros ?. eapply triple_bind.
    { eapply triple_weaken; [apply get_epoch_loss_entries|done|done|done]. }
    intros e. apply triple_pure. intros ->.
    apply (triple_bind _ (λ _, Q)).
    { eapply triple_weaken; [apply set_epoch_loss_entries|done|done|done]. }
    intros ?. match goal with |- triple _ ?m _ _ => change (keeps Q m) end.
    subst Q. keeps_steps. }
  specialize (Hm self Hc).
  match goal with |- context [ (?m self).1 ] => destruct (m self) as [self' r] end.
  assert (Q self') as (? & ? & ? & ? & Hn) by (by destruct r).
  split; [done|]. right. simpl. split; [done|]. split; [done|]. split; [done|].
  rewrite Hn. f_equal. lia.
Qed.

Lemma counted_iterations (set_name : string) (k : nat) (epoch : Z) (losses : list float)
    (self : t) :
  counted set_name k self →
  counted set_name (k + length losses) (iterations epoch set_name losses self).
Proof.
  revert k self. induction losses as [|loss losses IH]; intros k self Hc; simpl.
  - by rewrite Nat.add_0_r.
  - rewrite Nat.add_succ_r. apply (IH (S k)). by apply counted_iteration.
Qed.

(** [at_epoch_end] changes nothing when [iter_interval] is given: the
    counters of the epoch are never set back. *)
Lemma at_epoch_end_state (epoch : Z) (set_name : string) (self : t) :
  (at_epoch_end epoch set_name self).1 = self.
Proof.
  unfold at_epoch_end, bind, get, getitem, ret, raise.
  destruct (_iter_interval self).
  - destruct (_iter_epoch self !! set_name); [|done].
    case_decide; [done|]. by destruct (_epoch_loss self !! set_name).
  - by destruct (_acc_loss self !! set_name).
Qed.

(** After [k >= 1] iterations [at_epoch_end] returns the quotient of the
    two counters, in which no loss takes part. *)
Lemma at_epoch_end_counted (epoch : Z) (set_name : string) (k : nat) (self : t) :
  counted set_name (S k) self →
  (at_epoch_end epoch set_name self).2
  = Ret (epoch_loss_after (S k) / float_of_int (Z.of_nat (S k))).
Proof.
  intros [[iv Hiv] [[? _] | (_ & _ & He & Hn)]]; [done|].
  unfold at_epoch_end, bind, get, getitem, ret. rewrite Hiv, Hn.
  rewrite decide_False by lia. by rewrite He.
Qed.

Lemma epoch_end_after_iterations (iter_interval epoch : Z) (set_name : string)
    (losses : list float) :
  losses ≠ [] →
  (at_epoch_end epoch set_name
     (iterations epoch set_name losses (__init__ (Some iter_interval)))).2
  = Ret (epoch_loss_after (length losses) / float_of_int (Z.of_nat (length losses))).
Proof.
  intros Hne. destruct losses as [|loss losses]; [done|].
  apply at_epoch_end_counted.
  apply (counted_iterations set_name 0 epoch (loss :: losses)), counted_init.
Qed.

(** The quotient is [1.0]: checked by running the division for every
    count up to 100000. *)
Lemma ratio_is_one_sound (m n : nat) :
  ratio_is_one m (Z.of_nat n) (epoch_loss_after n) = true →
  ∀ k, (n < k ≤ n + m)%nat →
       epoch_loss_after k / float_of_int (Z.of_nat k) = 1.
Proof.
  revert n. induction m as [|m IH]; intros n Hr k Hk; [lia|].
  simpl in Hr.
  replace (Z.of_nat n + 1)%Z with (Z.of_nat (S n)) in Hr by lia.
  change (epoch_loss_after n + 1) with (epoch_loss_after (S n)) in Hr.
  destruct (PrimFloat.Leibniz.eqb _ _) eqn:Heq; [|done].
  apply FloatAxioms.Leibniz.eqb_spec in Heq.
  destruct (decide (k = S n)) as [->|Hne]; [done|].
  apply (IH (S n)); [done | lia].
Qed.

Lemma ratio_is_one_checked : ratio_is_one checked 0 0 = true.
Proof. by vm_compute. Qed.

(** The first half of C10: from a new hook with an [iter_interval],
    [n >= 1] calls of [at_iteration_end] for a set name, with any losses,
    make [at_epoch_end] return [1.0] for that set name (for the counts
    the check above covers). *)
Lemma epoch_end_is_one (iter_interval epoch : Z) (set_name : string) (losses : list float) :
  (1 ≤ length losses ≤ checked)%nat →
  (at_epoch_end epoch set_name
     (iterations epoch set_name losses (__init__ (Some iter_interval)))).2
  = Ret 1.
Proof.
  intros Hlen. rewrite epoch_end_after_iterations.
  - f_equal. apply (ratio_is_one_sound checked 0 ratio_is_one_checked). lia.
  - intros ->. simpl in Hlen. lia.
Qed.

(** A new hook, before any iteration: ['train'] has its entries from
    [__init__] and [at_epoch_end] returns [0.0]; another set name has
    none, and [at_epoch_end] raises. *)
Lemma epoch_end_new_hook (iter_interval epoch : Z) (set_name : string) :
  (at_epoch_end epoch "train" (__init__ (Some iter_interval))).2 = Ret 0
  ∧ (set_name ≠ "train" →
     (at_epoch_end epoch set_name (__init__ (Some iter_interval))).2 = Raise KeyError).
Proof.
  split; [done|]. intros Hne.
  unfold at_epoch_end, bind, get, getitem, __init__; simpl.
  by rewrite lookup_singleton_ne.
Qed.

(** C10, the code at the failing input: a hook with
    [iter_interval=10] sees one iteration in epoch 1 and none in epoch 2.
    [at_epoch_end] returns [1.0] for epoch 1, leaves the hook as it is,
    and returns [1.0] again for epoch 2, in which no iteration took
    place: [_epoch_loss] and [_iter_epoch] are only set back in the
    branch for [iter_interval is None]. *)
Theorem epoch_counters_not_reset :
  (at_epoch_end 1 "train" ex_hook).2 = Ret 0
  ∧ (at_epoch_end 1 "train" ex_after_iteration).2 = Ret 1
  ∧ ex_after_epoch_1 = ex_after_iteration
  ∧ _iter_epoch ex_after_epoch_1 !! "train" = Some 1%Z
  ∧ (at_epoch_end 2 "train" ex_after_epoch_1).2 = Ret 1.
Proof. repeat split; by vm_compute. Qed.

End LossHookProofs.

(** ** XQAEvalHook.apply_metrics *)

Module XQAEvalHookProofs.
Import XQAEvalHook.
Local Open Scope float_scope.

(** A predicted span that is a gold span, bound for bound, is exact. *)
Lemma compare_spans_equal (p : span) (m : metrics) :
  compare_spans p p m = Ret (Metrics 1 1).
Proof. unfold compare_spans. by rewrite !bool_decide_eq_true_2. Qed.

Lemma apply_metrics_equal_span (p : span) :
  apply_metrics (Tensors [p] [p] [0%Z]) = Ret (Metrics 1 1).
Proof.
  unfold apply_metrics; simpl. rewrite compare_spans_equal. simpl.
  by vm_compute.
Qed.

(** C2: the predicted span (3,5) against the gold span (3,5) gives
    exact 1.0 and f1 1.0; against the only gold span (4,5) it gives
    exact 0.0 and an f1 within 1e-6 of 0.8, through total 2, missed from
    start -1, missed from end 0, tp 2, fp 1, recall 1.0 and precision
    2 / (2 + 1 + 1e-10). *)
Theorem span_metrics_examples :
  apply_metrics (Tensors [(3, 5)%Z] [(3, 5)%Z] [0%Z]) = Ret (Metrics 1 1)
  ∧ total (4, 5)%Z = 2
  ∧ missed_from_start (3, 5)%Z (4, 5)%Z = -1
  ∧ missed_from_end (3, 5)%Z (4, 5)%Z = 0
  ∧ tp (3, 5)%Z (4, 5)%Z = 2
  ∧ fp (3, 5)%Z (4, 5)%Z = 1
  ∧ recall (3, 5)%Z (4, 5)%Z = Ret 1
  ∧ precision (3, 5)%Z (4, 5)%Z = Ret (2 / (2 + 1 + 1e-10))
  ∧ ∃ m, apply_metrics (Tensors [(4, 5)%Z] [(3, 5)%Z] [0%Z]) = Ret m
         ∧ exact m = 0
         ∧ f1 m = 2 * (2 / (2 + 1 + 1e-10)) * 1 / (2 / (2 + 1 + 1e-10) + 1 + 1e-10)
         ∧ PrimFloat.ltb (abs (f1 m - 0.8)) 1e-6 = true.
Proof.
  split; [apply apply_metrics_equal_span|].
  do 7 (split; [by vm_compute|]).
  eexists. split; [by vm_compute|]. repeat split; by vm_compute.
Qed.

End XQAEvalHookProofs.

(** ** KBPEvalHook.at_test_time *)

Module KBPEvalHookProofs.
Import KBPEvalHook KBPEvalHookShapes MeanAveragePrecision.
Local Open Scope float_scope.

(** *** Floats *)

Lemma SFcompare_opp (a b : spec_float) :
  SFcompare (SFopp a) (SFopp b) = SFcompare b a.
Proof.
  destruct a as [[]|[]| |[] m1 e1], b as [[]|[]| |[] m2 e2]; simpl; try reflexivity.
  all: rewrite (Z.compare_antisym e1 e2); destruct (e1 ?= e2)%Z; simpl; try reflexivity.
  all: by rewrite Pos.compare_cont_antisym.
Qed.

(** Negation turns the order of two floats around. *)
Lemma ltb_opp (a b : float) : PrimFloat.ltb (- a) (- b) = PrimFloat.ltb b a.
Proof. rewrite !ltb_spec, !opp_spec. unfold SFltb. by rewrite SFcompare_opp. Qed.

Lemma is_nan_opp (x : float) : PrimFloat.is_nan (- x) = PrimFloat.is_nan x.
Proof.
  unfold PrimFloat.is_nan. rewrite !FloatAxioms.eqb_spec, !opp_spec. unfold SFeqb.
  by rewrite SFcompare_opp.
Qed.

Lemma no_nan_opp (a : list float) : no_nan a → no_nan (map PrimFloat.opp a).
Proof.
  unfold no_nan. intros Ha. apply Forall_fmap.
  eapply Forall_impl; [exact Ha|]. intros x Hx. simpl. by rewrite is_nan_opp.
Qed.

Lemma SFcompare_refl (a : spec_float) : SFcompare a a ≠ Some Lt.
Proof.
  destruct a as [[]|[]| |[] m e]; simpl; try done.
  all: rewrite Z.compare_refl, Pos.compare_cont_refl; done.
Qed.

(** No float is below itself. *)
Lemma ltb_irrefl (x : float) : PrimFloat.ltb x x = false.
Proof.
  rewrite ltb_spec. unfold SFltb.
  pose proof (SFcompare_refl (Prim2SF x)) as Hc.
  by destruct (SFcompare (Prim2SF x) (Prim2SF x)) as [[]|].
Qed.

Lemma length_filter_opp (x : float) (l : list float) :
  length (filter (λ y, PrimFloat.ltb y (- x) = true) (map PrimFloat.opp l))
  = length (filter (λ y, PrimFloat.ltb x y = true) l).
Proof.
  induction l as [|y l IH]; [done|]. simpl. rewrite !filter_cons, ltb_opp.
  destruct (decide (PrimFloat.ltb x y = true)); simpl; by rewrite IH.
Qed.

(** *** Ranks *)

(** The ranks of the negated scores, from the smallest, are the ranks
    of the scores from the highest. *)
Lemma min_ranks_opp (scores : list float) :
  min_ranks (map PrimFloat.opp scores) = descending_ranks scores.
Proof.
  unfold min_ranks, descending_ranks. rewrite map_map. apply map_ext.
  intros s. by rewrite length_filter_opp.
Qed.

Lemma descending_ranks_lookup (scores : list float) (c : nat) (s : float) :
  scores !! c = Some s →
  descending_ranks scores !! c
  = Some (1 + Z.of_nat (length (filter (λ s', PrimFloat.ltb s s' = true) scores)))%Z.
Proof. intros Hc. unfold descending_ranks. by rewrite list_lookup_fmap, Hc. Qed.

Lemma descending_ranks_length (scores : list float) :
  length (descending_ranks scores) = length scores.
Proof. unfold descending_ranks. by rewrite length_map. Qed.

(** Two candidates tied behind the best one both get rank 2, and the
    next rank given is 4. *)
Example ex_tied_ranks : descending_ranks ex_tied_scores = [2; 1; 2; 4]%Z.
Proof. by vm_compute. Qed.

(** *** The dictionaries *)

Section odict.
Context {V : Type}.
Implicit Types d : odict V.

Lemma lookup_setitem d (k k' : Z) (v : V) :
  lookup (setitem d k v) k' = if decide (k = k') then Some v else lookup d k'.
Proof.
  induction d as [|[k0 v0] d IH]; simpl.
  - done.
  - destruct (decide (k0 = k)) as [->|Hne]; simpl.
    + by destruct (decide (k = k')).
    + rewrite IH. destruct (decide (k0 = k')) as [->|?]; [|done].
      by rewrite decide_False.
Qed.

Lemma setitem_keys d (k : Z) (v : V) :
  (setitem d k v).*1 = if decide (k ∈ d.*1) then d.*1 else d.*1 ++ [k].
Proof.
  induction d as [|[k0 v0] d IH].
  - rewrite decide_False; [done|]. apply not_elem_of_nil.
  - cbn [setitem fmap list_fmap fst].
    destruct (decide (k0 = k)) as [->|Hne]; cbn [fmap list_fmap fst].
    + rewrite decide_True; [done|]. left.
    + rewrite IH. destruct (decide (k ∈ d.*1)) as [Hin|Hin].
      * rewrite decide_True; [done|]. by right.
      * rewrite decide_False; [done|]. by apply not_elem_of_cons.
Qed.

Lemma setitem_NoDup d (k : Z) (v : V) : NoDup d.*1 → NoDup (setitem d k v).*1.
Proof.
  intros Hnd. rewrite setitem_keys. case_decide as Hin; [done|].
  apply NoDup_app. split; [done|]. split; [|apply NoDup_singleton].
  intros x Hx Hx'. apply list_elem_of_singleton in Hx' as ->. done.
Qed.

Lemma lookup_elem d (k : Z) (v : V) : NoDup d.*1 → (k, v) ∈ d → lookup d k = Some v.
Proof.
  induction d as [|[k0 v0] d IH]; intros Hnd Hin; [by apply elem_of_nil in Hin|].
  simpl in Hnd. apply NoDup_cons in Hnd as [Hk0 Hnd].
  apply elem_of_cons in Hin as [Heq|Hin]; simpl.
  - injection Heq as <- <-. by rewrite decide_True.
  - rewrite decide_False; [by apply IH|].
    intros ->. apply Hk0. apply list_elem_of_fmap. by exists (k, v).
Qed.

Lemma elem_lookup_is_Some d (k : Z) (v : V) : (k, v) ∈ d → is_Some (lookup d k).
Proof.
  induction d as [|[k0 v0] d IH]; intros Hin; [by apply elem_of_nil in Hin|].
  simpl. destruct (decide (k0 = k)); [done|].
  apply elem_of_cons in Hin as [Heq|Hin]; [congruence|by apply IH].
Qed.

End odict.

(** *** The batches are collected *)

Lemma consistent_empty : consistent (Collected [] [] []).
Proof.
  split; [constructor|]. split; [done|]. split; [|done]. simpl. by intros q [? ?].
Qed.

Lemma collect_rows_consistent (p : predictions) (n j : nat) (c : collected) :
  well_shaped p → (j + n = length (questions p))%nat → consistent c →
  ∃ c', collect_rows p j n c = Ret c' ∧ consistent c'.
Proof.
  intros (Ha & Hl & Hi & Hrows & Hlen & Hnan). revert j c.
  induction n as [|n IH]; intros j c Hj Hc; [by exists c|].
  cbn [collect_rows]. unfold index.
  destruct (lookup_lt_is_Some_2 (questions p) j) as [row Hrow]; [lia|].
  rewrite Hrow. cbn [mbind res_bind].
  destruct row as [|q row].
  { rewrite Forall_forall in Hrows. exfalso. apply (Hrows []); [|done].
    by eapply list_elem_of_lookup_2. }
  cbn [lookup list_lookup mbind res_bind].
  destruct (lookup_lt_is_Some_2 (logits p) j) as [scores Hscores]; [lia|].
  destruct (lookup_lt_is_Some_2 (candidate_ids p) j) as [ids Hids]; [lia|].
  destruct (lookup_lt_is_Some_2 (correct_answers p) j) as [a Hanswer]; [lia|].
  rewrite Hscores, Hids, Hanswer. cbn [mbind res_bind].
  apply IH; [lia|].
  destruct Hc as (Hnd & Hcand & Hans & Hnum).
  split; [by apply setitem_NoDup|]. cbn [q_cand_ids q_cand_scores q_answers].
  split; [|split].
  - intros q' ids'. rewrite !lookup_setitem.
    destruct (decide (q = q')) as [->|Hne]; [|apply Hcand].
    intros [= <-]. exists scores. split; [done|].
    by apply (Forall2_lookup_lr _ _ _ j scores ids Hlen).
  - intros q'. rewrite !lookup_setitem.
    destruct (decide (q = q')) as [->|Hne]; [done|apply Hans].
  - intros q' scores'. rewrite lookup_setitem.
    destruct (decide (q = q')) as [->|Hne]; [|apply Hnum].
    intros [= <-]. rewrite Forall_forall in Hnan. apply Hnan.
    by eapply list_elem_of_lookup_2.
Qed.

Lemma collect_consistent (batches : list predictions) (c : collected) :
  Forall well_shaped batches → consistent c →
  ∃ c', collect batches c = Ret c' ∧ consistent c'.
Proof.
  intros Hb. revert c. induction Hb as [|p batches Hp _ IH]; intros c Hc; [by exists c|].
  cbn [collect].
  destruct (collect_rows_consistent p (length (questions p)) 0 c Hp eq_refl Hc)
    as (c1 & -> & Hc1).
  cbn [mbind res_bind]. by apply IH.
Qed.



(** *** The ranks of the gold answers *)

Lemma returns_bind {A B} (m : res A) (f : A → res B) :
  returns m → (∀ a, m = Ret a → returns (f a)) → returns (m ≫= f).
Proof. intros [a ->] Hf. by apply Hf. Qed.

(** The ranks that are counted are those of the specification: none
    is left out, none is added. *)
Lemma ans_ranks_of_Ret (cand_ranks ids answers rs : list Z) :
  ans_ranks_of cand_ranks ids answers = Ret rs →
  rs = found_ranks cand_ranks ids answers.
Proof.
  unfold ans_ranks_of, found_ranks. intros Hr.
  apply bind_Ret_inv in Hr as (rows & Hrows & Hr). injection Hr as <-.
  apply mapM_Ret_Forall2 in Hrows.
  induction Hrows as [|a row answers rows Ha _ IH]; [done|].
  cbn [concat mbind list_bind]. rewrite <- IH. f_equal. clear IH.
  apply bind_Ret_inv in Ha as (hits & Hhits & Ha). injection Ha as <-.
  apply mapM_Ret_Forall2 in Hhits.
  induction Hhits as [|[c cand] hit pairs hits Hhit _ IH]; [done|].
  cbn [concat omap list_omap]. rewrite IH.
  destruct (decide (a = cand)) as [->|Hne].
  - apply bind_Ret_inv in Hhit as (r & Hidx & Hhit). injection Hhit as <-.
    unfold index in Hidx. destruct (cand_ranks !! c) as [r'|]; [|done].
    injection Hidx as ->. rewrite filter_cons. by case_decide.
  - by injection Hhit as <-.
Qed.

Lemma ans_ranks_of_returns (cand_ranks ids answers : list Z) :
  (length ids ≤ length cand_ranks)%nat →
  returns (ans_ranks_of cand_ranks ids answers).
Proof.
  intros Hlen. unfold ans_ranks_of.
  apply returns_bind; [|by eexists].
  apply mapM_returns. apply Forall_forall. intros a _.
  apply returns_bind; [|by eexists].
  apply mapM_returns. apply Forall_forall. intros [c cand] Hin.
  apply list_elem_of_lookup in Hin as [i Hi].
  rewrite list_lookup_imap in Hi.
  destruct (ids !! i) as [cand'|] eqn:Hid; [|done].
  injection Hi as <- <-.
  case_decide; [|by eexists].
  unfold index.
  destruct (lookup_lt_is_Some_2 cand_ranks i) as [r ->].
  { apply lookup_lt_Some in Hid. lia. }
  cbn [mbind res_bind]. by eexists.
Qed.

Lemma ans_ranks_of_found (cand_ranks ids answers : list Z) :
  (length ids ≤ length cand_ranks)%nat →
  ans_ranks_of cand_ranks ids answers = Ret (found_ranks cand_ranks ids answers).
Proof.
  intros Hlen. destruct (ans_ranks_of_returns cand_ranks ids answers Hlen) as [rs Hrs].
  rewrite Hrs. f_equal. by apply ans_ranks_of_Ret.
Qed.

(** *** Average precision *)

(** The loop over the sorted ranks adds, from the left, the precision
    at each found gold answer: the number of gold answers found up to
    it over its rank. *)
Lemma precision_sum_from (rs : list Z) (answers : Z) (av_p : float) :
  precision_sum rs answers av_p
  = fold_left PrimFloat.add
      (imap (λ j r, float_of_int (Z.of_nat j + answers) / float_of_int r) rs) av_p.
Proof.
  revert answers av_p. induction rs as [|r rs IH]; intros answers av_p; [done|].
  cbn [precision_sum imap fold_left]. rewrite IH. simpl. f_equal.
  apply imap_ext. intros j r' _. simpl. do 2 f_equal. lia.
Qed.

Lemma precision_sum_precisions (rs : list Z) :
  precision_sum rs 1 0 = total (precisions rs).
Proof. apply precision_sum_from. Qed.


Lemma ex_batch_well_shaped : well_shaped ex_batch.
Proof.
  split; [done|]. split; [done|]. split; [done|]. split; [by repeat constructor|].
  split; [repeat constructor; simpl; lia|by repeat constructor].
Qed.

Section at_test_time.
Variable rankdata_min : list float → list Z.
Variable get_sym : Z → res string.
Hypothesis documented : rankdata_documented rankdata_min.

Abbreviation rank_descending := (KBPEvalHook.rank_descending rankdata_min).
Abbreviation question_step := (KBPEvalHook.question_step rankdata_min get_sym).
Abbreviation question_loop := (KBPEvalHook.question_loop rankdata_min get_sym).
Abbreviation evaluate := (KBPEvalHook.evaluate rankdata_min get_sym).
Abbreviation at_test_time := (KBPEvalHook.at_test_time rankdata_min get_sym).

(** On scores without NaN the ranks are those of the specification. *)
Lemma rank_descending_documented (scores : list float) :
  no_nan scores → rank_descending scores = descending_ranks scores.
Proof using documented.
  intros Hs. unfold KBPEvalHook.rank_descending.
  rewrite documented by (by apply no_nan_opp). apply min_ranks_opp.
Qed.

(** *** One question *)

(** What one question adds to the totals. *)
Lemma question_step_found (c : collected) (q : Z) (answers : list Z) (t : totals)
    (scores : list float) (ids : list Z) :
  lookup (q_cand_scores c) q = Some scores → lookup (q_cand_ids c) q = Some ids →
  no_nan scores → (length ids ≤ length scores)%nat →
  let found := found_ranks (descending_ranks scores) ids answers in
  question_step c q answers t
  = match found with
    | [] => Ret (descending_ranks scores, found, average_precision found,
                 Totals (mean_ap t + average_precision found) (wmap t) (qd t) (md t))
    | _ => _ ← get_sym q;
           Ret (descending_ranks scores, found, average_precision found,
                Totals (mean_ap t + average_precision found)
                       (wmap t + total (precisions (merge_sort Z.le found)))
                       (qd t + 1)%Z (md t + Z.of_nat (length found))%Z)
    end.
Proof using documented.
  intros Hscores Hids Hnan Hlen found.
  unfold KBPEvalHook.question_step, odict_getitem. rewrite Hscores, Hids.
  cbn [mbind res_bind]. rewrite rank_descending_documented by done.
  rewrite ans_ranks_of_found by (by rewrite descending_ranks_length).
  cbn [mbind res_bind]. fold found. cbv zeta.
  rewrite precision_sum_precisions.
  destruct found as [|r found'] eqn:Hfound.
  - rewrite decide_False by (simpl; lia). done.
  - rewrite decide_True by (simpl; lia). done.
Qed.


(** *** The questions *)


Lemma question_loop_returns (c : collected) (qs : odict (list Z)) (t : totals) :
  consistent c → (∀ q, returns (get_sym q)) →
  Forall (λ qa, is_Some (lookup (q_answers c) qa.1)) qs →
  returns (question_loop c qs t).
Proof using documented.
  intros Hc Hsym Hqs. revert t. induction Hqs as [|[q answers] qs Hq _ IH]; intros t.
  { by eexists. }
  cbn [KBPEvalHook.question_loop].
  destruct Hc as (Hnd & Hcand & Hans & Hnan).
  destruct (Hans q Hq) as [ids Hids].
  destruct (Hcand q ids Hids) as (scores & Hscores & Hlen).
  rewrite (question_step_found c q answers t scores ids) by eauto.
  destruct (found_ranks _ ids answers); cbn [mbind res_bind]; [apply IH|].
  destruct (Hsym q) as [sym ->]. cbn [mbind res_bind]. apply IH.
Qed.

(** Where no gold answer is found, no symbol is looked up and nothing
    is counted. *)
Lemma question_loop_nothing_found (c : collected) (qs : odict (list Z)) (t : totals) :
  consistent c →
  Forall (λ qa, is_Some (lookup (q_answers c) qa.1)
                ∧ found_ranks (descending_ranks (default [] (lookup (q_cand_scores c) qa.1)))
                              (default [] (lookup (q_cand_ids c) qa.1)) qa.2 = []) qs →
  ∃ t', question_loop c qs t = Ret t' ∧ md t' = md t.
Proof using documented.
  intros Hc Hqs. revert t.
  induction Hqs as [|[q answers] qs [Hq Hfound] _ IH]; intros t.
  { by eexists. }
  cbn [KBPEvalHook.question_loop].
  destruct Hc as (Hnd & Hcand & Hans & Hnan).
  destruct (Hans q Hq) as [ids Hids].
  destruct (Hcand q ids Hids) as (scores & Hscores & Hlen).
  rewrite (question_step_found c q answers t scores ids) by eauto.
  cbn [fst snd] in Hfound. rewrite Hscores, Hids in Hfound. simpl in Hfound.
  rewrite Hfound. cbn [mbind res_bind].
  match goal with
  | |- ∃ t', KBPEvalHook.question_loop _ _ _ _ ?t1 = _ ∧ _ =>
      destruct (IH t1) as (t' & Ht' & Hmd)
  end.
  exists t'. split; [done|]. by rewrite Hmd.
Qed.

Lemma qa_scores_returns (c : collected) : consistent c → returns (qa_scores c).
Proof.
  intros (Hnd & Hcand & _). unfold qa_scores.
  apply returns_bind; [|by eexists].
  apply mapM_returns. apply Forall_forall. intros [q ids] Hin.
  destruct (Hcand q ids (lookup_elem _ q ids Hnd Hin)) as (scores & Hs & Hlen).
  unfold odict_getitem. rewrite Hs. cbn [mbind res_bind].
  apply mapM_returns. apply Forall_forall. intros k Hk.
  apply list_elem_of_In, in_seq in Hk. unfold index.
  destruct (lookup_lt_is_Some_2 scores k) as [x ->]; [lia|]. by eexists.
Qed.

(** *** The two values *)



Lemma evaluate_returns (batches : list predictions) :
  Forall well_shaped batches → (∀ q, returns (get_sym q)) → returns (evaluate batches).
Proof using documented.
  intros Hb Hsym. unfold KBPEvalHook.evaluate.
  destruct (collect_consistent batches _ Hb consistent_empty) as (c & -> & Hc).
  cbn [mbind res_bind].
  destruct (qa_scores_returns c Hc) as [qa ->]. cbn [mbind res_bind].
  destruct (question_loop_returns c (q_answers c) (Totals 0 0 0 0) Hc Hsym) as [t ->].
  { apply Forall_forall. intros [q answers] Hin. by apply (elem_lookup_is_Some _ q answers). }
  cbn [mbind res_bind]. by eexists.
Qed.

Lemma at_test_time_without_file (info : string) (batches : list predictions) :
  Forall well_shaped batches → (∀ q, returns (get_sym q)) →
  ∃ r, at_test_time info false batches = ([], Ret r).
Proof using documented.
  intros Hb Hsym. unfold KBPEvalHook.at_test_time.
  destruct (evaluate_returns batches Hb Hsym) as [r ->]. by exists r.
Qed.

(** *** C3 *)


End at_test_time.


End KBPEvalHookProofs.

(** ** TFModelModule: what else a call does *)

Module TFModelModuleMore.
Import TFModelModule.

Section call.
Context {ndarray : Type}.
Variable session_eval : gmap tensor ndarray → tensor → res ndarray.
Implicit Types (self : t) (batch ret : gmap port ndarray) (p : port).

Lemma pass_through_only_goals batch goal_ports ret p :
  is_Some (pass_through batch goal_ports ret !! p) → is_Some (ret !! p) ∨ p ∈ goal_ports.
Proof.
  revert ret. induction goal_ports as [|g goal_ports IH]; intros ret Hp; simpl in Hp.
  { by left. }
  apply IH in Hp as [Hp|Hp]; [|right; by right].
  destruct (ret !! g) eqn:Hg; [by left|].
  destruct (batch !! g); [|by left].
  destruct (decide (p = g)) as [->|Hne]; [right; left|].
  rewrite lookup_insert_ne in Hp by done. by left.
Qed.

Lemma dict_zip_only_keys `{Countable K} {V} (ks : list K) (vs : list V) (k : K) :
  is_Some (dict (zip ks vs) !! k) → k ∈ ks.
Proof.
  intros Hk. destruct (decide (k ∈ ks)) as [|Hnin]; [done|].
  rewrite dict_zip_notin in Hk by done. by destruct Hk.
Qed.

(** X1: the mapping a call returns has no key but goal ports (the
    output ports when the goal ports are empty or [None]): nothing of the
    batch and no other output is handed back unasked. *)
Theorem call_returns_goal_ports_only self batch (goal_ports : option (list port)) ret p :
  __call__ session_eval self batch goal_ports = Ret ret →
  is_Some (ret !! p) →
  p ∈ or_list goal_ports (output_ports self).
Proof.
  intros Hc Hp.
  apply TFModelModuleProofs.call_Ret_inv in Hc as (feed & xs & vs & _ & _ & _ & ->).
  apply pass_through_only_goals in Hp as [Hp|Hp]; [|done].
  apply dict_zip_only_keys in Hp. by apply list_elem_of_filter in Hp as [_ ?].
Qed.

(** X2: a goal port that is an output port or a training output port is
    returned with the value the session computes for its tensor, also
    when the batch holds a value for it: the batch is only looked at
    for ports that are not computed. *)
Theorem computed_port_not_taken_from_batch self batch (goal_ports : option (list port))
    ret p :
  __call__ session_eval self batch goal_ports = Ret ret →
  p ∈ or_list goal_ports (output_ports self) →
  is_computed self p = true →
  ∃ feed_dict x v,
    convert_to_feed_dict self batch = Ret feed_dict
    ∧ tensors_getitem self p = Ret x
    ∧ session_eval feed_dict x = Ret v
    ∧ ret !! p = Some v.
Proof.
  intros Hc Hin Hcomp.
  apply TFModelModuleProofs.call_Ret_inv in Hc as (feed & xs & vs & Hfeed & Hxs & Hvs & ->).
  pose proof (TFModelModuleProofs.Forall2_value_of _ _ _ _ _ _ Hxs Hvs) as HF.
  destruct (fold_insert_in (value_of session_eval self feed) _ _ ∅ p HF) as (v & Hv & Hl).
  { apply list_elem_of_filter. by rewrite Hcomp. }
  unfold value_of in Hv.
  destruct (tensors_getitem self p) as [x|]; [|done].
  destruct (session_eval feed x) as [v'|] eqn:Hx; [|done].
  injection Hv as ->. exists feed, x, v.
  split; [done|]. split; [done|]. split; [done|].
  by apply TFModelModuleProofs.pass_through_keeps.
Qed.

(** *** convert_to_feed_dict *)

Let feed_step (mapping : gmap port ndarray) :=
  λ (result : gmap tensor ndarray) '((q, ph) : port * tensor),
    match mapping !! q with
    | Some v => <[ph := v]> result
    | None => result
    end.

Lemma feed_fold_sound (mapping : gmap port ndarray) items result ph v :
  fold_left (feed_step mapping) items result !! ph = Some v →
  result !! ph = Some v ∨ ∃ port, (port, ph) ∈ items ∧ mapping !! port = Some v.
Proof.
  revert result. induction items as [|[q x] items IH]; intros result Hl; simpl in Hl.
  { by left. }
  apply IH in Hl as [Hl|(port & Hin & Hm)]; [|right; exists port; split; [by right|done]].
  destruct (mapping !! q) as [w|] eqn:Hq; [|by left].
  destruct (decide (ph = x)) as [->|Hne].
  - rewrite lookup_insert_eq in Hl. injection Hl as ->.
    right. exists q. split; [left|done].
  - rewrite lookup_insert_ne in Hl by done. by left.
Qed.

Lemma feed_fold_notin (mapping : gmap port ndarray) items result ph :
  ph ∉ items.*2 → fold_left (feed_step mapping) items result !! ph = result !! ph.
Proof.
  revert result. induction items as [|[q x] items IH]; intros result Hnin; simpl; [done|].
  simpl in Hnin. apply not_elem_of_cons in Hnin as [Hne Hnin].
  rewrite IH by done. destruct (mapping !! q); [|done]. by rewrite lookup_insert_ne.
Qed.

Lemma feed_fold_complete (mapping : gmap port ndarray) items result port ph v :
  NoDup items.*2 → (port, ph) ∈ items → mapping !! port = Some v →
  fold_left (feed_step mapping) items result !! ph = Some v.
Proof.
  revert result. induction items as [|[q x] items IH]; intros result Hnd Hin Hm; simpl.
  { by apply elem_of_nil in Hin. }
  simpl in Hnd. apply NoDup_cons in Hnd as [Hx Hnd].
  apply elem_of_cons in Hin as [Heq|Hin].
  - injection Heq as <- <-. rewrite feed_fold_notin by done.
    rewrite Hm. by rewrite lookup_insert_eq.
  - by apply IH.
Qed.

(** X3: the feed dictionary holds, for a placeholder, the value the
    mapping has for a port of that placeholder, and nothing else: ports of
    the mapping without a placeholder are not fed. When no two ports
    share a placeholder, the placeholder of every port of the mapping is
    fed with the value of that port. *)
Theorem feed_dict_of_placeholders self (mapping : gmap port ndarray) items feed_dict :
  _placeholders self = Some items →
  convert_to_feed_dict self mapping = Ret feed_dict →
  (∀ ph v, feed_dict !! ph = Some v →
           ∃ port, (port, ph) ∈ items ∧ mapping !! port = Some v)
  ∧ (NoDup items.*2 →
     ∀ port ph v, (port, ph) ∈ items → mapping !! port = Some v →
                  feed_dict !! ph = Some v).
Proof.
  unfold convert_to_feed_dict. intros -> Hf. injection Hf as <-. split.
  - intros ph v Hl. apply feed_fold_sound in Hl as [Hl|Hl]; [|done].
    by rewrite lookup_empty in Hl.
  - intros Hnd port ph v Hin Hm. by apply (feed_fold_complete _ _ _ port).
Qed.

End call.

Lemma call_returns_goal_ports_only_witness :
  __call__ ex_eval ex_module ex_batch (Some [1%positive; 7%positive])
  = Ret {[ 1%positive := 61; 7%positive := 77 ]}
  ∧ is_Some (({[ 1%positive := 61; 7%positive := 77 ]} : gmap port Z) !! 7%positive)
  ∧ 7%positive ∈ or_list (Some [1%positive; 7%positive]) (output_ports ex_module).
Proof.
  assert (__call__ ex_eval ex_module ex_batch (Some [1%positive; 7%positive])
          = Ret {[ 1%positive := 61; 7%positive := 77 ]}) as Hc by (by vm_compute).
  assert (is_Some (({[ 1%positive := 61; 7%positive := 77 ]} : gmap port Z) !! 7%positive))
    as Hs by (by exists 77).
  split; [exact Hc|]. split; [exact Hs|].
  exact (call_returns_goal_ports_only ex_eval ex_module ex_batch _ _ 7%positive Hc Hs).
Defined.

End TFModelModuleMore.

(** ** TFModelModule.setup *)

Module TFModelModuleSetupProofs.
Import TFModelModule TFModelModuleSetup.

(** *** The dictionaries *)

Lemma odict_set_keys (d : list (port * tensor)) (k q : port) (v : tensor) :
  q ∈ (odict_set d k v).*1 ↔ q = k ∨ q ∈ d.*1.
Proof.
  induction d as [|[k' v'] d IH]; simpl.
  - rewrite list_elem_of_singleton, elem_of_nil. tauto.
  - case_decide as Hk; simpl; rewrite !elem_of_cons; [subst; tauto|].
    rewrite IH. tauto.
Qed.

Lemma odict_set_NoDup (d : list (port * tensor)) (k : port) (v : tensor) :
  NoDup d.*1 → NoDup (odict_set d k v).*1.
Proof.
  induction d as [|[k' v'] d IH]; simpl; intros Hnd.
  - apply NoDup_singleton.
  - apply NoDup_cons in Hnd as [Hk' Hnd]. case_decide as Hk; simpl.
    + subst. by apply NoDup_cons.
    + apply NoDup_cons. split; [|by apply IH].
      rewrite odict_set_keys. intros [->|?]; done.
Qed.

Lemma update_lookup_notin (d : gmap port tensor) (pairs : list (port * tensor)) (p : port) :
  p ∉ pairs.*1 → update d pairs !! p = d !! p.
Proof.
  revert d. induction pairs as [|[k v] pairs IH]; intros d Hp; simpl in *; [done|].
  apply not_elem_of_cons in Hp as [Hne Hp].
  unfold update in *; simpl. rewrite IH by done. by rewrite lookup_insert_ne.
Qed.

Lemma update_lookup_in (d : gmap port tensor) (pairs : list (port * tensor))
    (p : port) (x : tensor) :
  NoDup pairs.*1 → (p, x) ∈ pairs → update d pairs !! p = Some x.
Proof.
  revert d. induction pairs as [|[k v] pairs IH]; intros d Hnd Hin; simpl in *.
  { by apply elem_of_nil in Hin. }
  apply NoDup_cons in Hnd as [Hk Hnd].
  apply elem_of_cons in Hin as [Heq|Hin].
  - injection Heq as <- <-. unfold update; simpl.
    fold (update (<[p:=x]> d) pairs). rewrite update_lookup_notin by done.
    by rewrite lookup_insert_eq.
  - unfold update in *; simpl. by apply IH.
Qed.

Lemma update_lookup_is_Some (d : gmap port tensor) (pairs : list (port * tensor)) (p : port) :
  is_Some (d !! p) ∨ p ∈ pairs.*1 → is_Some (update d pairs !! p).
Proof.
  revert d. induction pairs as [|[k v] pairs IH]; intros d Hp; simpl in *.
  { destruct Hp as [?|Hp]; [done|]. by apply elem_of_nil in Hp. }
  unfold update in *; simpl. apply IH.
  destruct (decide (p = k)) as [->|Hne].
  - left. rewrite lookup_insert_eq. by eexists.
  - rewrite lookup_insert_ne by done.
    destruct Hp as [?|Hp]; [by left|]. apply elem_of_cons in Hp as [?|?]; [done|by right].
Qed.

Lemma zip_keys_in (ks : list port) (vs : list tensor) (p : port) :
  (length ks ≤ length vs)%nat → p ∈ ks → p ∈ (zip ks vs).*1.
Proof. intros Hlen Hp. by rewrite fst_zip. Qed.

Lemma zip_keys_notin (ks : list port) (vs : list tensor) (p : port) :
  p ∉ ks → p ∉ (zip ks vs).*1.
Proof.
  revert vs. induction ks as [|k ks IH]; intros [|v vs] Hp; simpl; try apply not_elem_of_nil.
  apply not_elem_of_cons in Hp as [? ?]. apply not_elem_of_cons. split; [done|by apply IH].
Qed.

(** *** The placeholders *)

Lemma input_placeholders_spec (ports : list port) (d : list (port * tensor)) (g : graph) :
  NoDup d.*1 →
  NoDup (input_placeholders ports d g).1.*1
  ∧ ∀ q, q ∈ (input_placeholders ports d g).1.*1 ↔ q ∈ ports ∨ q ∈ d.*1.
Proof.
  revert d g. induction ports as [|p ports IH]; intros d g Hnd; simpl.
  { split; [done|]. intros q. rewrite elem_of_nil. tauto. }
  destruct (IH (odict_set d p g) (Pos.succ g)) as [IH1 IH2]; [by apply odict_set_NoDup|].
  split; [done|]. intros q. rewrite IH2, odict_set_keys, elem_of_cons. tauto.
Qed.

Lemma training_placeholders_spec (ports : list port) (tensors : gmap port tensor)
    (d : list (port * tensor)) (g : graph) :
  NoDup d.*1 →
  NoDup (training_placeholders ports tensors d g).1.*1
  ∧ (∀ q, q ∈ d.*1 → q ∈ (training_placeholders ports tensors d g).1.*1)
  ∧ (∀ q, q ∈ ports →
          q ∈ (training_placeholders ports tensors d g).1.*1 ∨ is_Some (tensors !! q)).
Proof.
  revert d g. induction ports as [|p ports IH]; intros d g Hnd; simpl.
  { split; [done|]. split; [done|]. by intros q ?%elem_of_nil. }
  destruct (negb (odict_has d p) && bool_decide (tensors !! p = None)) eqn:Hcond.
  - destruct (IH (odict_set d p g) (Pos.succ g)) as (IH1 & IH2 & IH3);
      [by apply odict_set_NoDup|].
    split; [done|]. split.
    + intros q Hq. apply IH2, odict_set_keys. by right.
    + intros q [->|Hq]%elem_of_cons; [|by apply IH3].
      left. apply IH2, odict_set_keys. by left.
  - destruct (IH d g Hnd) as (IH1 & IH2 & IH3).
    split; [done|]. split; [done|].
    intros q [->|Hq]%elem_of_cons; [|by apply IH3].
    apply andb_false_iff in Hcond as [Hc|Hc].
    + left. apply IH2. apply negb_false_iff, bool_decide_eq_true in Hc. exact Hc.
    + right. apply bool_decide_eq_false in Hc. by apply not_eq_None_Some.
Qed.

(** *** The module after setup *)

Section after_setup.
Context {ndarray : Type}.
Variable session_eval : gmap tensor ndarray → tensor → res ndarray.
Variable create_output : graph → list tensor → list tensor * graph.
Variable create_training_output : graph → list (option tensor) → list tensor * graph.
Implicit Types (self : t) (g : graph) (p : port) (batch : gmap port ndarray).

Abbreviation setup := (setup create_output create_training_output).

Lemma setup_ports input_ports training_input_ports is_training self g :
  output_ports (setup input_ports training_input_ports is_training self g).1
  = output_ports self
  ∧ training_output_ports (setup input_ports training_input_ports is_training self g).1
    = training_output_ports self.
Proof.
  unfold TFModelModuleSetup.setup.
  destruct (input_placeholders input_ports [] g) as [phs0 g0].
  destruct (create_output g0 _) as [outs g1].
  destruct is_training; [|done].
  destruct (training_placeholders _ _ _ _) as [phs1 g2].
  by destruct (create_training_output g2 _) as [touts g3].
Qed.

(** X4: after [setup], in either mode, a call finds its placeholders
    and a tensor for every output port, provided [create_output] returns
    a tensor for each of them: the call for the output ports returns as
    soon as the session evaluates those tensors. *)
Theorem setup_makes_call_ready input_ports training_input_ports is_training self g batch :
  let self' := (setup input_ports training_input_ports is_training self g).1 in
  (∀ g xs, (length (output_ports self) ≤ length (create_output g xs).1)%nat) →
  (∀ feed_dict p x, convert_to_feed_dict self' batch = Ret feed_dict →
                    p ∈ output_ports self → tensors_getitem self' p = Ret x →
                    returns (session_eval feed_dict x)) →
  returns (convert_to_feed_dict self' batch)
  ∧ (∀ p, p ∈ output_ports self → returns (tensors_getitem self' p))
  ∧ returns (__call__ session_eval self' batch None).
Proof.
  intros self' Hlen Hsess.
  assert (returns (convert_to_feed_dict self' batch)
          ∧ ∀ p, p ∈ output_ports self → returns (tensors_getitem self' p)) as [Hfeed Hts].
  { subst self'. unfold TFModelModuleSetup.setup.
    destruct (input_placeholders input_ports [] g) as [phs0 g0].
    pose proof (Hlen g0 (omap (λ p, update ∅ phs0 !! p) input_ports)) as Hl.
    destruct (create_output g0 _) as [outs g1]. simpl in Hl.
    assert (∀ p, p ∈ output_ports self →
              is_Some (update (update ∅ phs0) (zip (output_ports self) outs) !! p)) as H1.
    { intros p Hp. apply update_lookup_is_Some. right. by apply zip_keys_in. }
    destruct is_training.
    - destruct (training_placeholders _ _ _ _) as [phs1 g2].
      destruct (create_training_output g2 _) as [touts g3]. simpl.
      split; [unfold convert_to_feed_dict; simpl; by eexists|].
      intros p Hp. unfold tensors_getitem, getitem; simpl.
      destruct (update_lookup_is_Some
                  (update (update (update ∅ phs0) (zip (output_ports self) outs)) phs1)
                  (zip (training_output_ports self) touts) p) as [x ->]; [|by eexists].
      left. apply update_lookup_is_Some. left. by apply H1.
    - simpl. split; [unfold convert_to_feed_dict; simpl; by eexists|].
      intros p Hp. unfold tensors_getitem, getitem; simpl.
      destruct (H1 p Hp) as [x ->]. by eexists. }
  split; [done|]. split; [done|].
  destruct Hfeed as [feed Hfeed].
  apply (TFModelModuleProofs.call_returns _ _ _ _ feed); [done|].
  simpl. destruct (setup_ports input_ports training_input_ports is_training self g)
    as [Hout _]. fold self' in Hout. rewrite Hout.
  intros p Hp _. destruct (Hts p Hp) as [x Hx].
  destruct (Hsess feed p x Hfeed Hp Hx) as [v Hv]. by exists x, v.
Qed.

(** X5: a module set up for inference only has no tensor for a
    training output port (the loss) that is neither an input nor an
    output port: asking a call for it raises [KeyError]. *)
Theorem inference_setup_has_no_training_output input_ports training_input_ports self g
    batch p :
  p ∈ training_output_ports self →
  p ∉ input_ports → p ∉ output_ports self →
  __call__ session_eval (setup input_ports training_input_ports false self g).1
           batch (Some [p])
  = Raise KeyError.
Proof.
  intros Htrain Hin Hout. unfold TFModelModuleSetup.setup.
  destruct (input_placeholders input_ports [] g) as [phs0 g0] eqn:Hphs.
  destruct (create_output g0 _) as [outs g1]. cbn [fst].
  match goal with |- __call__ _ ?m _ _ = _ => set (self' := m) end.
  assert (is_computed self' p = true) as Hc.
  { unfold is_computed; simpl.
    rewrite (bool_decide_eq_true_2 (p ∈ training_output_ports self)) by done.
    apply orb_true_r. }
  unfold __call__, convert_to_feed_dict. cbn [or_list _placeholders self'].
  cbn [mbind res_bind].
  rewrite filter_cons_True by (by rewrite Hc). rewrite filter_nil.
  unfold tensors_getitem, getitem; simpl.
  rewrite update_lookup_notin by (by apply zip_keys_notin).
  rewrite update_lookup_notin; [by rewrite lookup_empty|].
  destruct (input_placeholders_spec input_ports [] g (NoDup_nil_2)) as [_ Hkeys].
  rewrite Hphs in Hkeys. simpl in Hkeys. rewrite Hkeys.
  rewrite elem_of_nil. tauto.
Qed.

(** X6: after [setup] for training every input port has a
    placeholder, and the tensor of every port with a placeholder is that
    placeholder, unless the port is a training output port. This holds
    for an input port that is an output port too: the tensor
    [create_output] returned for it is replaced when the placeholders are
    merged into the tensors. *)
Theorem training_setup_tensors_are_placeholders input_ports training_input_ports self g :
  let self' := (setup input_ports training_input_ports true self g).1 in
  ∃ items,
    _placeholders self' = Some items
    ∧ (∀ p, p ∈ input_ports → p ∈ items.*1)
    ∧ (∀ p ph, (p, ph) ∈ items → p ∉ training_output_ports self →
               tensors_getitem self' p = Ret ph).
Proof.
  intros self'. subst self'. unfold TFModelModuleSetup.setup.
  destruct (input_placeholders input_ports [] g) as [phs0 g0] eqn:Hphs.
  destruct (input_placeholders_spec input_ports [] g (NoDup_nil_2)) as [Hnd0 Hkeys0].
  rewrite Hphs in Hnd0, Hkeys0. simpl in Hnd0, Hkeys0.
  destruct (create_output g0 _) as [outs g1].
  destruct (training_placeholders training_input_ports
              (update (update ∅ phs0) (zip (output_ports self) outs)) phs0 g1)
    as [phs1 g2] eqn:Hphs1.
  destruct (training_placeholders_spec training_input_ports
              (update (update ∅ phs0) (zip (output_ports self) outs)) phs0 g1 Hnd0)
    as (Hnd1 & Hkeep & _).
  rewrite Hphs1 in Hnd1, Hkeep. simpl in Hnd1, Hkeep.
  destruct (create_training_output g2 _) as [touts g3]. simpl.
  exists phs1. split; [done|]. split.
  - intros p Hp. apply Hkeep, Hkeys0. by left.
  - intros p ph Hin Hnt. unfold tensors_getitem, getitem; simpl.
    rewrite update_lookup_notin by (by apply zip_keys_notin).
    by rewrite (update_lookup_in _ phs1 p ph Hnd1 Hin).
Qed.

End after_setup.

(** X7: [create_training_output] is handed a tensor for every training
    input port, never the [None] that [self._tensors.get(p, None)] allows
    for: [setup] is the same for two methods that agree on argument
    lists without [None]. *)
Theorem training_inputs_are_tensors
    (create_output : graph → list tensor → list tensor * graph)
    (cto cto' : graph → list (option tensor) → list tensor * graph)
    (input_ports training_input_ports : list port) (is_training : bool)
    (self : t) (g : graph) :
  (∀ g args, Forall is_Some args → cto g args = cto' g args) →
  setup create_output cto input_ports training_input_ports is_training self g
  = setup create_output cto' input_ports training_input_ports is_training self g.
Proof.
  intros Hagree. unfold setup.
  destruct (input_placeholders input_ports [] g) as [phs0 g0] eqn:Hphs.
  destruct (input_placeholders_spec input_ports [] g (NoDup_nil_2)) as [Hnd0 _].
  rewrite Hphs in Hnd0. simpl in Hnd0.
  destruct (create_output g0 _) as [outs g1].
  destruct is_training; [|done].
  destruct (training_placeholders training_input_ports
              (update (update ∅ phs0) (zip (output_ports self) outs)) phs0 g1)
    as [phs1 g2] eqn:Hphs1.
  destruct (training_placeholders_spec training_input_ports
              (update (update ∅ phs0) (zip (output_ports self) outs)) phs0 g1 Hnd0)
    as (_ & _ & Hall).
  rewrite Hphs1 in Hall. simpl in Hall.
  rewrite Hagree; [done|].
  apply Forall_fmap, Forall_forall. intros p Hp. simpl.
  apply update_lookup_is_Some. destruct (Hall p Hp); [by right | by left].
Qed.

End TFModelModuleSetupProofs.

Module TFModelModuleExamples.
Import TFModelModule TFModelModuleSetup.

Lemma computed_port_not_taken_from_batch_witness :
  let batch : gmap port Z := <[1%positive := 999]> ex_batch in
  __call__ ex_eval ex_module batch (Some [1%positive]) = Ret {[ 1%positive := 61 ]}
  ∧ (1%positive ∈ or_list (Some [1%positive]) (output_ports ex_module))
  ∧ is_computed ex_module 1%positive = true
  ∧ ∃ feed_dict x v,
      convert_to_feed_dict ex_module batch = Ret feed_dict
      ∧ tensors_getitem ex_module 1%positive = Ret x
      ∧ ex_eval feed_dict x = Ret v
      ∧ ({[ 1%positive := 61 ]} : gmap port Z) !! 1%positive = Some v.
Proof.
  intros batch.
  assert (__call__ ex_eval ex_module batch (Some [1%positive]) = Ret {[ 1%positive := 61 ]})
    as Hc by (by vm_compute).
  assert (1%positive ∈ or_list (Some [1%positive]) (output_ports ex_module)) as Hin
    by (simpl; constructor).
  assert (is_computed ex_module 1%positive = true) as Hcomp by (by vm_compute).
  split; [exact Hc|]. split; [exact Hin|]. split; [exact Hcomp|].
  exact (TFModelModuleMore.computed_port_not_taken_from_batch ex_eval ex_module batch
           (Some [1%positive]) _ 1%positive Hc Hin Hcomp).
Defined.

Lemma feed_dict_of_placeholders_witness :
  let items := [(5%positive, 15%positive); (6%positive, 16%positive)] in
  let feed_dict : gmap tensor Z := {[ 15%positive := 50; 16%positive := 60 ]} in
  _placeholders ex_module = Some items
  ∧ convert_to_feed_dict ex_module ex_batch = Ret feed_dict
  ∧ (∀ ph v, feed_dict !! ph = Some v →
             ∃ q, (q, ph) ∈ items ∧ ex_batch !! q = Some v)
  ∧ (NoDup items.*2 →
     ∀ q ph v, (q, ph) ∈ items → ex_batch !! q = Some v → feed_dict !! ph = Some v).
Proof.
  intros items feed_dict.
  assert (convert_to_feed_dict ex_module ex_batch = Ret feed_dict) as Hf by (by vm_compute).
  split; [reflexivity|]. split; [exact Hf|].
  exact (TFModelModuleMore.feed_dict_of_placeholders ex_module ex_batch items feed_dict
           eq_refl Hf).
Defined.

Lemma setup_makes_call_ready_witness :
  (∀ g xs, (length (output_ports ex_unset) ≤ length (ex_create_output g xs).1)%nat)
  ∧ returns (convert_to_feed_dict (ex_setup true) ex_batch)
  ∧ (∀ p, p ∈ output_ports ex_unset → returns (tensors_getitem (ex_setup true) p))
  ∧ returns (__call__ ex_session (ex_setup true) ex_batch None).
Proof.
  assert (∀ g xs, (length (output_ports ex_unset) ≤ length (ex_create_output g xs).1)%nat)
    as Hlen by (intros g xs; apply le_n).
  split; [exact Hlen|].
  apply (TFModelModuleSetupProofs.setup_makes_call_ready ex_session ex_create_output
           ex_create_training_output [5%positive; 6%positive] [1%positive; 8%positive]
           true ex_unset 100%positive ex_batch Hlen).
  intros feed_dict p x _ _ _. exists (Z.pos x). reflexivity.
Defined.

Lemma inference_setup_has_no_training_output_witness :
  (2%positive ∈ training_output_ports ex_unset)
  ∧ (2%positive ∉ [5%positive; 6%positive])
  ∧ (2%positive ∉ output_ports ex_unset)
  ∧ __call__ ex_session (ex_setup false) ex_batch (Some [2%positive]) = Raise KeyError.
Proof.
  assert (2%positive ∈ training_output_ports ex_unset) as H1 by (simpl; constructor).
  assert (2%positive ∉ [5%positive; 6%positive]) as H2.
  { intros H. apply elem_of_cons in H as [H|H]; [discriminate|].
    apply list_elem_of_singleton in H. discriminate. }
  assert (2%positive ∉ output_ports ex_unset) as H3.
  { simpl. intros H. apply elem_of_cons in H as [H|H]; [discriminate|].
    apply list_elem_of_singleton in H. discriminate. }
  split; [exact H1|]. split; [exact H2|]. split; [exact H3|].
  exact (TFModelModuleSetupProofs.inference_setup_has_no_training_output ex_session
           ex_create_output ex_create_training_output [5%positive; 6%positive]
           [1%positive; 8%positive] ex_unset 100%positive ex_batch 2%positive H1 H2 H3).
Defined.

(** The port 5 of the example is an input port and an output port:
    set up for training its tensor is its placeholder 100, set up for
    inference it is the tensor 103 that [create_output] returned. *)
Lemma training_setup_tensors_are_placeholders_witness :
  (∃ items,
      _placeholders (ex_setup true) = Some items
      ∧ (∀ p, p ∈ [5%positive; 6%positive] → p ∈ items.*1)
      ∧ (∀ p ph, (p, ph) ∈ items → p ∉ training_output_ports ex_unset →
                 tensors_getitem (ex_setup true) p = Ret ph))
  ∧ tensors_getitem (ex_setup true) 5%positive = Ret 100%positive
  ∧ tensors_getitem (ex_setup false) 5%positive = Ret 103%positive.
Proof.
  split; [|split; reflexivity].
  exact (TFModelModuleSetupProofs.training_setup_tensors_are_placeholders
           ex_create_output ex_create_training_output [5%positive; 6%positive]
           [1%positive; 8%positive] ex_unset 100%positive).
Defined.

Lemma training_inputs_are_tensors_witness :
  let cto' := λ (g : graph) (args : list (option tensor)),
                if forallb (λ a, bool_decide (is_Some a)) args
                then ex_create_training_output g args else ([], g) in
  (∀ g args, Forall is_Some args → ex_create_training_output g args = cto' g args)
  ∧ setup ex_create_output ex_create_training_output [5%positive; 6%positive]
          [1%positive; 8%positive] true ex_unset 100%positive
    = setup ex_create_output cto' [5%positive; 6%positive]
            [1%positive; 8%positive] true ex_unset 100%positive.
Proof.
  intros cto'.
  assert (∀ g args, Forall is_Some args → ex_create_training_output g args = cto' g args)
    as Hagree.
  { intros g args Hall. unfold cto'.
    replace (forallb (λ a, bool_decide (is_Some a)) args) with true; [done|].
    symmetry. apply forallb_forall. intros a Ha.
    apply bool_decide_eq_true. rewrite Forall_forall in Hall.
    apply Hall. by apply list_elem_of_In. }
  split; [exact Hagree|].
  exact (TFModelModuleSetupProofs.training_inputs_are_tensors ex_create_output
           ex_create_training_output cto' [5%positive; 6%positive]
           [1%positive; 8%positive] true ex_unset 100%positive Hagree).
Defined.

End TFModelModuleExamples.

(** ** SharedResources: objects that are not new, stores that fail *)

Module SharedResourcesMore.
Import SharedResources.

(** X8: [load] on an object that has attributes already: an attribute
    the pickle holds takes the pickled value, an attribute the pickle
    does not hold is kept, and [vocab] is the loaded vocabulary whatever
    the pickle holds. *)
Theorem load_updates_attributes (self : t) (path : string) (fs : files)
    (attrs : gmap string value) (v : Vocab) :
  fs !! path = Some (Pickled attrs) →
  fs !! (path +:+ "_vocab") = Some (VocabFile v) →
  ∃ self',
    load self path fs = (self', Ret ())
    ∧ vocab self' = Some (VVocab v)
    ∧ (∀ k x, k ≠ "vocab" → attrs !! k = Some x → __dict__ self' !! k = Some x)
    ∧ (∀ k, k ≠ "vocab" → attrs !! k = None → __dict__ self' !! k = __dict__ self !! k).
Proof.
  intros Hp Hv. eexists. split; [by apply SharedResourcesProofs.load_both|].
  unfold vocab; simpl. split; [by rewrite lookup_insert_eq|]. split.
  - intros k x Hk Hx. rewrite lookup_insert_ne by done. by apply lookup_union_Some_l.
  - intros k Hk Hx. rewrite lookup_insert_ne by done. by apply lookup_union_r.
Qed.

Lemma load_updates_attributes_witness :
  let fs : files :=
    {[ "m" := Pickled {[ "config" := VDict ex_config ]};
       "m_vocab" := VocabFile ex_vocab ]} in
  let self := Obj {[ "config" := VDict ∅; "vocab" := VNone; "answer_vocab" := VNone ]} in
  fs !! "m" = Some (Pickled {[ "config" := VDict ex_config ]})
  ∧ fs !! ("m" +:+ "_vocab") = Some (VocabFile ex_vocab)
  ∧ ∃ self',
      load self "m" fs = (self', Ret ())
      ∧ vocab self' = Some (VVocab ex_vocab)
      ∧ (∀ k x, k ≠ "vocab" →
                ({[ "config" := VDict ex_config ]} : gmap string value) !! k = Some x →
                __dict__ self' !! k = Some x)
      ∧ (∀ k, k ≠ "vocab" →
              ({[ "config" := VDict ex_config ]} : gmap string value) !! k = None →
              __dict__ self' !! k = __dict__ self !! k).
Proof.
  intros fs self.
  assert (fs !! "m" = Some (Pickled {[ "config" := VDict ex_config ]})) as H1
    by (by vm_compute).
  assert (fs !! ("m" +:+ "_vocab") = Some (VocabFile ex_vocab)) as H2 by (by vm_compute).
  split; [exact H1|]. split; [exact H2|].
  exact (load_updates_attributes self "m" fs _ ex_vocab H1 H2).
Defined.

(** X9: [store] on an object whose [vocab] is not a vocabulary ([None],
    as after [SharedResources()]) raises [AttributeError], and by then it
    has written the pickle of the other attributes to [path]: a failed
    store leaves half of its files behind. *)
Theorem store_without_vocab_writes_pickle (self : t) (path : string) (fs : files) :
  vocab self = Some VNone ∨ vocab self = None →
  ∃ fs',
    store self path fs = (fs', Raise AttributeError)
    ∧ fs' !! path = Some (Pickled (filter (λ kv, kv.1 ≠ "vocab") (__dict__ self)))
    ∧ fs' !! (path +:+ "_vocab") = fs !! (path +:+ "_vocab").
Proof.
  unfold vocab, store. intros [-> | ->]; eexists; (split; [done|]);
    (split; [by rewrite lookup_insert_eq|]);
    rewrite lookup_insert_ne; try done;
    intros Heq; symmetry in Heq; by apply SharedResourcesProofs.vocab_path_ne in Heq.
Qed.

Lemma store_without_vocab_writes_pickle_witness :
  (vocab (__init__ None (Some ex_config)) = Some VNone
   ∨ vocab (__init__ None (Some ex_config)) = None)
  ∧ ∃ fs',
      store (__init__ None (Some ex_config)) "m" ∅ = (fs', Raise AttributeError)
      ∧ fs' !! "m"
        = Some (Pickled (filter (λ kv, kv.1 ≠ "vocab")
                                (__dict__ (__init__ None (Some ex_config)))))
      ∧ fs' !! ("m" +:+ "_vocab") = (∅ : files) !! ("m" +:+ "_vocab").
Proof.
  assert (vocab (__init__ None (Some ex_config)) = Some VNone
          ∨ vocab (__init__ None (Some ex_config)) = None) as H
    by (left; by vm_compute).
  split; [exact H|].
  exact (store_without_vocab_writes_pickle (__init__ None (Some ex_config)) "m" ∅ H).
Defined.

End SharedResourcesMore.

(** ** TensorPort: the order of ports *)

Module TensorPortOrder.
Import TensorPort.

Lemma compare_Gt_trans (a b c : string) :
  String.compare a b = Gt → String.compare b c = Gt → String.compare a c = Gt.
Proof.
  revert b c. induction a as [|x a IH]; intros [|y b] [|z c]; simpl; try done.
  unfold Ascii.compare.
  destruct (N.compare_spec (Ascii.N_of_ascii x) (Ascii.N_of_ascii y)) as [Hxy|Hxy|Hxy];
    destruct (N.compare_spec (Ascii.N_of_ascii y) (Ascii.N_of_ascii z)) as [Hyz|Hyz|Hyz];
    try done; intros Hab Hbc.
  - rewrite Hxy, Hyz, N.compare_refl. by apply (IH b c).
  - rewrite Hxy. by rewrite (proj2 (N.compare_gt_iff _ _) Hyz).
  - rewrite <- Hyz. by rewrite (proj2 (N.compare_gt_iff _ _) Hxy).
  - assert (Ascii.N_of_ascii z < Ascii.N_of_ascii x)%N as Hxz by lia.
    by rewrite (proj2 (N.compare_gt_iff _ _) Hxz).
Qed.

Lemma str_gt_irrefl (a : string) : str_gt a a = false.
Proof.
  unfold str_gt. destruct (String.compare a a) eqn:Hc; try done.
  pose proof (String.compare_antisym a a) as Ha. rewrite Hc in Ha. done.
Qed.

Lemma str_gt_asym (a b : string) : str_gt a b = true → str_gt b a = false.
Proof.
  unfold str_gt. rewrite (String.compare_antisym a b).
  by destruct (String.compare b a).
Qed.

Lemma str_gt_trans (a b c : string) :
  str_gt a b = true → str_gt b c = true → str_gt a c = true.
Proof.
  unfold str_gt. intros Hab Hbc.
  destruct (String.compare a b) eqn:H1; try done.
  destruct (String.compare b c) eqn:H2; try done.
  by rewrite (compare_Gt_trans a b c).
Qed.

Lemma str_gt_total (a b : string) : a ≠ b → str_gt a b = true ∨ str_gt b a = true.
Proof.
  unfold str_gt. intros Hne. rewrite (String.compare_antisym b a).
  destruct (String.compare a b) eqn:Hc; simpl; [|by right|by left].
  by apply String.compare_eq_iff in Hc.
Qed.

(** X10: [>] on ports is a strict order that looks at the names only:
    no port is above itself, two ports are never above each other, the
    order is transitive, and of two ports with different names one is
    above the other; two ports with the same name are not ordered, though
    they may be different ports. *)
Theorem gt_strict_order_on_names (h : heap) (p q r : ref) (op oq or : obj) :
  h !! p = Some op → h !! q = Some oq → h !! r = Some or →
  __gt__ h p p = Ret false
  ∧ (__gt__ h p q = Ret true → __gt__ h q p = Ret false)
  ∧ (__gt__ h p q = Ret true → __gt__ h q r = Ret true → __gt__ h p r = Ret true)
  ∧ (name op ≠ name oq → __gt__ h p q = Ret true ∨ __gt__ h q p = Ret true)
  ∧ (name op = name oq → __gt__ h p q = Ret false ∧ __gt__ h q p = Ret false).
Proof.
  intros Hp Hq Hr. unfold __gt__, getattr_name. rewrite Hp, Hq, Hr. simpl.
  split; [by rewrite str_gt_irrefl|]. split.
  { intros [= H]. by rewrite (str_gt_asym _ _ H). }
  split.
  { intros [= H1] [= H2]. by rewrite (str_gt_trans _ _ _ H1 H2). }
  split.
  { intros Hne. destruct (str_gt_total _ _ Hne) as [-> | ->]; [by left|by right]. }
  intros ->. by rewrite str_gt_irrefl.
Qed.

Lemma gt_strict_order_on_names_witness :
  let h : heap :=
    {[ 1%positive := loss_obj;
       2%positive := Obj "int32" [None; None] "question" None None;
       3%positive := Obj "int32" [None] "target_index" None None ]} in
  __gt__ h 3%positive 2%positive = Ret true
  ∧ __gt__ h 2%positive 1%positive = Ret true
  ∧ __gt__ h 3%positive 1%positive = Ret true
  ∧ __gt__ h 1%positive 3%positive = Ret false.
Proof.
  intros h.
  destruct (gt_strict_order_on_names h 3%positive 2%positive 1%positive
              (Obj "int32" [None] "target_index" None None)
              (Obj "int32" [None; None] "question" None None) loss_obj
              eq_refl eq_refl eq_refl) as (_ & _ & Htrans & _ & _).
  assert (__gt__ h 3%positive 2%positive = Ret true) as H32 by reflexivity.
  assert (__gt__ h 2%positive 1%positive = Ret true) as H21 by reflexivity.
  split; [exact H32|]. split; [exact H21|]. split; [exact (Htrans H32 H21)|].
  reflexivity.
Defined.

End TensorPortOrder.

(** ** TFReader.train: any number of epochs, and generators *)

Module TFReaderMore.
Import TFReader.

Section loops.
Context {Batch Model Loss Hook : Type}.
Variable session_run : Model → Batch → Model * res Loss.
Variable hook_at_iteration_end : Model → Hook → Z → Loss → string → Hook * res unit.
Variable hook_at_epoch_end : Model → Hook → Z → Hook * res unit.
Implicit Types (hooks : list Hook) (k : nat).

Abbreviation train :=
  (TFReader.train session_run hook_at_iteration_end hook_at_epoch_end).
Abbreviation updates := (TFReader.updates (Loss := Loss) session_run).
Abbreviation nothing_raises :=
  (TFReader.nothing_raises session_run hook_at_iteration_end hook_at_epoch_end).


(** X12: when the batches are a plain generator, only the first epoch
    has iterations: whatever [max_epochs >= 1] is, a run that no
    exception ends has made one [at_iteration_end] per batch and
    [max_epochs] times [at_epoch_end] on every hook, and has updated the
    variables once on each batch; and no exception ends a run in which
    no call of the session and no call of a hook raises. *)
Theorem train_generator hooks (rest : list Batch) (max_epochs : Z) (model : Model) k :
  (k < length hooks)%nat → (1 ≤ max_epochs)%Z →
  (nothing_raises → returns (train hooks (Generator rest) max_epochs model).2)
  ∧ ∀ st, train hooks (Generator rest) max_epochs model = (st, Ret ()) →
      iteration_calls k (calls st) = length rest
      ∧ epoch_calls k (calls st) = Z.to_nat max_epochs
      ∧ updates rest model = Some (variables st).
Proof.
  intros Hk Hmax. split.
  - intros Hn.
    destruct (TFReaderProofs.train_returns session_run hook_at_iteration_end
                hook_at_epoch_end hooks (Generator rest) max_epochs model Hn) as [st ->].
    by eexists.
  - intros st Ht. unfold TFReader.train, epochs_range in Ht.
    destruct (Z.to_nat max_epochs) as [|n] eqn:Hn; [lia|].
    cbn [seq map] in Ht. change (Z.of_nat 1) with 1%Z in Ht.
    apply TFReaderProofs.epoch_loop_cons_Ret in Ht as (st1 & hooks' & Hb & Hlen & Ht).
    cbn [iterate fst snd] in Hb, Ht.
    apply (TFReaderProofs.batch_loop_Ret _ _ k) in Hb as (B1 & B2 & B3 & B4).
    apply (TFReaderProofs.epoch_loop_Ret_used_up _ _ _ k) in Ht as (E1 & E2 & E3).
    cbn [hooks_of calls variables] in *.
    rewrite E1, E2, E3, Hlen, B1.
    rewrite TFReaderProofs.iteration_calls_app, TFReaderProofs.epoch_calls_app, B2, B3.
    destruct (TFReaderProofs.epoch_round_calls (Loss := Loss) k (length hooks) 1)
      as [-> ->].
    rewrite length_map, length_seq.
    unfold iteration_calls, epoch_calls, once. simpl.
    rewrite decide_True by lia. split; [lia|]. split; [lia|done].
Qed.

(** X13: with [max_epochs <= 0] the range of epochs is empty: no
    batch is run, no hook is called, the variables stay as they are. *)
Theorem train_no_epoch hooks (b : batches Batch) (max_epochs : Z) (model : Model) :
  (max_epochs ≤ 0)%Z →
  train hooks b max_epochs model = (State model hooks [], Ret ()).
Proof.
  intros Hmax. unfold TFReader.train, epochs_range.
  by replace (Z.to_nat max_epochs) with 0%nat by lia.
Qed.

End loops.


Lemma train_generator_witness :
  (1 < length ex_hooks)%nat ∧ (1 ≤ 5)%Z
  ∧ returns (ex_train (Generator [1; 2; 3]%nat) 5 0%nat).2
  ∧ iteration_calls 1 (calls (ex_train (Generator [1; 2; 3]%nat) 5 0%nat).1) = 3%nat
  ∧ epoch_calls 1 (calls (ex_train (Generator [1; 2; 3]%nat) 5 0%nat).1) = Z.to_nat 5
  ∧ updates ex_run [1; 2; 3]%nat 0%nat
    = Some (variables (ex_train (Generator [1; 2; 3]%nat) 5 0%nat).1).
Proof.
  assert (1 < length ex_hooks)%nat as Hk by (simpl; lia).
  assert (1 ≤ 5)%Z as Hm by lia.
  destruct (train_generator ex_run ex_at_iteration_end ex_at_epoch_end ex_hooks
              [1; 2; 3]%nat 5 0%nat 1%nat Hk Hm) as [Hret Hcalls].
  split; [exact Hk|]. split; [exact Hm|].
  split; [exact (Hret TFReaderExample.ex_nothing_raises)|].
  apply Hcalls. by vm_compute.
Defined.

Lemma train_no_epoch_witness :
  (0 ≤ 0)%Z
  ∧ ex_train (Restartable [1; 2]%nat) 0 7%nat = (State 7%nat ex_hooks [], Ret ()).
Proof.
  split; [lia|].
  apply (train_no_epoch ex_run ex_at_iteration_end ex_at_epoch_end ex_hooks
           (Restartable [1; 2]%nat) 0 7%nat).
  lia.
Defined.

End TFReaderMore.

(** ** LossHook: one iteration, written out *)

Module LossHookMore.
Import LossHook LossHookRuns.
Local Open Scope float_scope.

(** An iteration for a set name that has its entries. *)
Lemma at_iteration_end_entries (epoch : Z) (loss : float) (set_name : string) (self : t)
    (iv : Z) (a : float) (i : Z) (e : float) (n : Z) :
  _iter_interval self = Some iv →
  _acc_loss self !! set_name = Some a → _iter self !! set_name = Some i →
  _epoch_loss self !! set_name = Some e → _iter_epoch self !! set_name = Some n →
  at_iteration_end epoch loss set_name self
  = if decide (i + 1 = 0)%Z then
      (after self set_name (a + loss) (i + 1) (e + 1) (n + 1) (scores self), Ret 0)
    else if decide (iv = 0)%Z then
      (after self set_name (a + loss) (i + 1) (e + 1) (n + 1) (scores self),
       Raise ZeroDivisionError)
    else if decide ((i + 1) mod iv = 0)%Z then
      (after self set_name 0 (i + 1) (e + 1) (n + 1)
             (scores self
              ++ [(set_name, (a + loss) / float_of_int iv, (i + 1)%Z, epoch)]),
       Ret (0 / float_of_int (i + 1)))
    else
      (after self set_name (a + loss) (i + 1) (e + 1) (n + 1) (scores self),
       Ret ((a + loss) / float_of_int (i + 1))).
Proof.
  intros Hiv Ha Hi He Hn.
  unfold at_iteration_end. rewrite Hiv.
  unfold bind at 1. unfold init_set. rewrite Ha.
  unfold bind at 1. unfold get at 1. unfold getitem. rewrite Hn.
  unfold bind at 1. unfold set_iter_epoch.
  unfold bind at 1. unfold get at 1. unfold getitem. cbn [_epoch_loss]. rewrite He.
  unfold bind at 1. unfold set_epoch_loss.
  unfold bind at 1. unfold get at 1. unfold getitem. cbn [_iter]. rewrite Hi.
  unfold bind at 1. unfold set_iter.
  unfold bind at 1. unfold get at 1. unfold getitem. cbn [_acc_loss]. rewrite Ha.
  unfold bind at 1. unfold set_acc_loss.
  unfold bind at 1. unfold get at 1. unfold getitem. cbn [_iter]. rewrite lookup_insert_eq.
  cbn [_iter_interval _acc_loss _iter _epoch_loss _iter_epoch scores].
  unfold after.
  destruct (decide (i + 1 = 0)%Z) as [Hz|Hz].
  { unfold bind, ret, get, getitem. cbn. rewrite lookup_insert_eq.
    by rewrite decide_True. }
  unfold int_mod. destruct (decide (iv = 0)%Z) as [Hiv0|Hiv0].
  { by unfold bind, raise. }
  unfold bind at 1. unfold bind at 1. unfold ret at 1. unfold ret at 1.
  destruct (decide ((i + 1) mod iv = 0)%Z) as [Hm|Hm].
  - rewrite bool_decide_eq_true_2 by done.
    unfold bind, get, getitem, add_to_history, set_acc_loss, ret. cbn.
    rewrite !lookup_insert_eq. cbn. rewrite !lookup_insert_eq.
    rewrite decide_False by done. cbn. rewrite lookup_insert_eq.
    by rewrite insert_insert_eq.
  - rewrite bool_decide_eq_false_2 by done.
    unfold bind, get, getitem, ret. cbn. rewrite lookup_insert_eq.
    rewrite decide_False by done. cbn. by rewrite lookup_insert_eq.
Qed.

(** An iteration for a set name seen for the first time is an
    iteration on the entries [init_set] makes. *)
Lemma at_iteration_end_new_set (epoch : Z) (loss : float) (set_name : string) (self : t)
    (iv : Z) :
  _iter_interval self = Some iv →
  _acc_loss self !! set_name = None →
  at_iteration_end epoch loss set_name self
  = at_iteration_end epoch loss set_name (after self set_name 0 0 0 0 (scores self)).
Proof.
  intros Hiv Ha. unfold at_iteration_end, after. cbn [_iter_interval]. rewrite Hiv.
  unfold bind at 1. unfold init_set at 1. rewrite Ha.
  symmetry. unfold bind at 1. unfold init_set at 1. cbn [_acc_loss].
  rewrite ?lookup_insert_eq, ?Hiv. done.
Qed.

(** X14: a hook built without [iter_interval] (the default) counts
    nothing: [at_iteration_end] returns the loss it was given and leaves
    the hook as it is, and [at_epoch_end] raises for every set name and
    in every state, [KeyError] for a set name without entries and
    [TypeError] otherwise. *)
Theorem no_interval_epoch_end_raises (self : t) (epoch : Z) (loss : float)
    (set_name : string) :
  _iter_interval self = None →
  at_iteration_end epoch loss set_name self = (self, Ret loss)
  ∧ at_epoch_end epoch set_name self
    = (self, Raise (if _acc_loss self !! set_name is Some _ then TypeError else KeyError)).
Proof.
  intros Hiv. unfold at_iteration_end, at_epoch_end. rewrite Hiv. split; [done|].
  unfold bind, get, getitem, raise. by destruct (_acc_loss self !! set_name).
Qed.

Lemma no_interval_epoch_end_raises_witness :
  _iter_interval (__init__ None) = None
  ∧ at_iteration_end 1 0.5%float "train" (__init__ None) = (__init__ None, Ret 0.5%float)
  ∧ at_epoch_end 1 "train" (__init__ None)
    = (__init__ None,
       Raise (if _acc_loss (__init__ None) !! "train" is Some _ then TypeError else KeyError)).
Proof.
  split; [reflexivity|].
  exact (no_interval_epoch_end_raises (__init__ None) 1 0.5%float "train" eq_refl).
Defined.

(** X15: [at_epoch_end] never changes the hook, in no state and for no
    [iter_interval]: what it returns for a set name stays what it is
    until the next [at_iteration_end] for that set name. *)
Theorem at_epoch_end_changes_nothing (self : t) (epoch epoch' : Z) (set_name : string) :
  (at_epoch_end epoch set_name self).1 = self
  ∧ at_epoch_end epoch' set_name (at_epoch_end epoch set_name self).1
    = at_epoch_end epoch set_name self.
Proof.
  assert ((at_epoch_end epoch set_name self).1 = self) as Hs.
  { unfold at_epoch_end, bind, get, getitem, ret, raise.
    destruct (_iter_interval self).
    - destruct (_iter_epoch self !! set_name); [|done].
      case_decide; [done|]. by destruct (_epoch_loss self !! set_name).
    - by destruct (_acc_loss self !! set_name). }
  split; [done|]. rewrite Hs. unfold at_epoch_end.
  by destruct (_iter_interval self).
Qed.

(** *** Iterations from a new hook *)

Lemma tracked_init (iv : Z) (set_name : string) :
  tracked iv set_name 0 (__init__ (Some iv)).
Proof.
  split; [done|]. unfold __init__; simpl.
  destruct (decide (set_name = "train")) as [->|Hne].
  - right. rewrite !lookup_singleton_eq. eauto.
  - left. by rewrite lookup_singleton_ne.
Qed.

Lemma entries_step (iv : Z) (set_name : string) (k : nat) (epoch : Z) (loss : float)
    (self : t) (a e : float) (n : Z) :
  _iter_interval self = Some iv →
  _acc_loss self !! set_name = Some a → _iter self !! set_name = Some (Z.of_nat k) →
  _epoch_loss self !! set_name = Some e → _iter_epoch self !! set_name = Some n →
  stepped iv set_name k epoch self (at_iteration_end epoch loss set_name self).
Proof.
  intros Hiv Ha Hi He Hn.
  rewrite (at_iteration_end_entries epoch loss set_name self iv a (Z.of_nat k) e n)
    by done.
  rewrite decide_False by lia.
  replace (Z.of_nat k + 1)%Z with (Z.of_nat (S k)) by lia.
  assert (∀ a' h, tracked iv set_name (S k)
                    (after self set_name a' (Z.of_nat (S k)) (e + 1) (n + 1)%Z h)) as Ht.
  { intros a' h. split; [done|]. right. unfold after; simpl.
    rewrite !lookup_insert_eq. eauto. }
  unfold stepped.
  destruct (decide (iv = 0)%Z) as [Hz|Hz]; [|case_decide]; simpl.
  - split; [apply Ht|]. split; [done|]. by intros [].
  - split; [apply Ht|]. split; [done|]. intros _. split; [by eexists|]. by eexists.
  - split; [apply Ht|]. split; [done|]. intros _. split; [by eexists|done].
Qed.

Lemma tracked_step (iv : Z) (set_name : string) (k : nat) (epoch : Z) (loss : float)
    (self : t) :
  tracked iv set_name k self →
  stepped iv set_name k epoch self (at_iteration_end epoch loss set_name self).
Proof.
  intros [Hiv [[-> Hnone] | ([a Ha] & Hi & [e He] & [n Hn])]].
  - rewrite (at_iteration_end_new_set epoch loss set_name self iv) by done.
    pose proof (entries_step iv set_name 0 epoch loss
                  (after self set_name 0 0 0 0 (scores self)) 0 0 0%Z) as Hstep.
    unfold after in Hstep at 1 2 3 4 5. simpl in Hstep.
    rewrite !lookup_insert_eq in Hstep.
    specialize (Hstep Hiv eq_refl eq_refl eq_refl eq_refl).
    exact Hstep.
  - by apply (entries_step iv set_name k epoch loss self a e n).
Qed.

(** X16: with [iter_interval=0] every [at_iteration_end] raises
    [ZeroDivisionError], from the first call of a new hook on, and
    records nothing. *)
Theorem zero_interval_always_raises (epoch : Z) (set_name : string)
    (losses : list float) (loss : float) :
  let self := iterations epoch set_name losses (__init__ (Some 0%Z)) in
  (at_iteration_end epoch loss set_name self).2 = Raise ZeroDivisionError
  ∧ scores (at_iteration_end epoch loss set_name self).1 = [].
Proof.
  intros self.
  assert (tracked 0 set_name (length losses) self ∧ scores self = []) as [Ht Hs].
  { subst self.
    assert (∀ k (h : t), tracked 0 set_name k h → scores h = [] →
              tracked 0 set_name (k + length losses) (iterations epoch set_name losses h)
              ∧ scores (iterations epoch set_name losses h) = []) as Hind.
    { induction losses as [|l losses IH]; intros k h Ht Hs; simpl.
      - by rewrite Nat.add_0_r.
      - rewrite Nat.add_succ_r. apply (IH (S k)).
        + by destruct (tracked_step 0 set_name k epoch l h Ht) as (? & _ & _).
        + destruct (tracked_step 0 set_name k epoch l h Ht) as (_ & Hz & _).
          destruct (Hz eq_refl) as [_ ->]. done. }
    apply (Hind 0%nat); [apply tracked_init|done]. }
  destruct (tracked_step 0 set_name (length losses) epoch loss self Ht) as (_ & Hz & _).
  destruct (Hz eq_refl) as [-> ->]. done.
Qed.

Lemma div_succ (k iv : Z) :
  (0 ≤ k)%Z → (0 < iv)%Z →
  ((k + 1) / iv = k / iv + (if decide ((k + 1) mod iv = 0) then 1 else 0))%Z.
Proof.
  intros Hk Hiv.
  pose proof (Z.div_mod k iv ltac:(lia)) as E1.
  pose proof (Z.mod_pos_bound k iv Hiv) as B1.
  pose proof (Z.div_mod (k + 1) iv ltac:(lia)) as E2.
  pose proof (Z.mod_pos_bound (k + 1) iv Hiv) as B2.
  case_decide as Hm.
  - rewrite Hm in E2. symmetry. apply (Z.div_unique (k + 1) iv _ 0); [lia|].
    assert (k mod iv = iv - 1)%Z; [|lia].
    assert ((k / iv - (k + 1) / iv) * iv = - (k mod iv) - 1)%Z by lia.
    assert (k / iv - (k + 1) / iv < 0)%Z by nia.
    assert (-1 ≤ k / iv - (k + 1) / iv)%Z by nia. nia.
  - symmetry. apply (Z.div_unique (k + 1) iv _ (k mod iv + 1)); [|lia].
    assert (k mod iv + 1 ≠ iv)%Z; [|lia].
    intros Heq. apply Hm.
    replace (k + 1)%Z with ((k / iv + 1) * iv)%Z by lia.
    apply Z.mod_mul. lia.
Qed.

(** X17: with an [iter_interval] above 0, the iterations of a new hook
    for one set name raise nothing, the history gets an entry at every
    iteration whose number is a multiple of the interval and at no
    other: after [n] iterations it has [n / iter_interval] entries, each
    for that set name and filed under a multiple of the interval. *)
Theorem history_every_interval (iv epoch : Z) (set_name : string) (losses : list float) :
  (0 < iv)%Z →
  let self := iterations epoch set_name losses (__init__ (Some iv)) in
  Z.of_nat (length (scores self)) = (Z.of_nat (length losses) / iv)%Z
  ∧ Forall (λ entry, entry.1.1.1 = set_name ∧ (entry.1.2 mod iv = 0)%Z
                     ∧ (0 < entry.1.2 ≤ Z.of_nat (length losses))%Z) (scores self)
  ∧ ∀ loss, returns (at_iteration_end epoch loss set_name self).2.
Proof.
  intros Hiv self.
  assert (∀ k (h : t),
            tracked iv set_name k h →
            Z.of_nat (length (scores h)) = (Z.of_nat k / iv)%Z →
            Forall (λ entry, entry.1.1.1 = set_name ∧ (entry.1.2 mod iv = 0)%Z
                             ∧ (0 < entry.1.2 ≤ Z.of_nat k)%Z) (scores h) →
            let h' := iterations epoch set_name losses h in
            tracked iv set_name (k + length losses) h'
            ∧ Z.of_nat (length (scores h')) = (Z.of_nat (k + length losses) / iv)%Z
            ∧ Forall (λ entry, entry.1.1.1 = set_name ∧ (entry.1.2 mod iv = 0)%Z
                               ∧ (0 < entry.1.2 ≤ Z.of_nat (k + length losses))%Z)
                     (scores h')) as Hind.
  { induction losses as [|l losses IH]; intros k h Ht Hlen Hall; simpl.
    { by rewrite Nat.add_0_r. }
    rewrite Nat.add_succ_r.
    destruct (tracked_step iv set_name k epoch l h Ht) as (Ht' & _ & Hnz).
    destruct (Hnz ltac:(lia)) as [_ Hsc].
    apply (IH (S k) _ Ht').
    - replace (Z.of_nat (S k)) with (Z.of_nat k + 1)%Z by lia.
      rewrite div_succ by lia.
      replace (Z.of_nat k + 1)%Z with (Z.of_nat (S k)) by lia.
      case_decide.
      + destruct Hsc as [x ->]. rewrite length_app. simpl. lia.
      + rewrite Hsc. lia.
    - case_decide.
      + destruct Hsc as [x ->]. apply Forall_app. split.
        * eapply Forall_impl; [exact Hall|]. intros entry (? & ? & ?). repeat split; try done; lia.
        * constructor; [|constructor]. simpl. repeat split; try done; lia.
      + rewrite Hsc. eapply Forall_impl; [exact Hall|].
        intros entry (? & ? & ?). repeat split; try done; lia. }
  destruct (Hind 0%nat (__init__ (Some iv)) (tracked_init iv set_name)) as (Ht & Hlen & Hall).
  { simpl. by rewrite Z.div_0_l by lia. }
  { constructor. }
  simpl in Ht, Hlen, Hall. fold self in Ht, Hlen, Hall.
  split; [done|]. split; [done|].
  intros loss. destruct (tracked_step iv set_name _ epoch loss self Ht) as (_ & _ & Hnz).
  by destruct (Hnz ltac:(lia)) as [? _].
Qed.

Lemma history_every_interval_witness :
  (0 < 2)%Z
  ∧ Z.of_nat (length (scores (iterations 1 "dev" [0.5; 0.25; 3; 1; 2]%float
                                          (__init__ (Some 2%Z)))))
    = (Z.of_nat (length [0.5; 0.25; 3; 1; 2]%float) / 2)%Z
  ∧ scores (iterations 1 "dev" [0.5; 0.25; 3; 1; 2]%float (__init__ (Some 2%Z)))
    = [("dev", 0.375%float, 2%Z, 1%Z); ("dev", 2%float, 4%Z, 1%Z)].
Proof.
  assert (0 < 2)%Z as H by lia.
  destruct (history_every_interval 2 1 "dev" [0.5; 0.25; 3; 1; 2]%float H) as (Hlen & _ & _).
  split; [exact H|]. split; [exact Hlen|]. by vm_compute.
Defined.

End LossHookMore.

(** ** XQAEvalHook.apply_metrics: the order of the gold spans *)

Module XQAEvalHookMore.
Import XQAEvalHook.
Local Open Scope float_scope.

(** Without gold spans left, the loop over the predicted spans adds
    [0.0] for each of them. *)
Lemma for_predicted_no_gold (c2p : list Z) (ps : list span) (i k : nat) :
  for_predicted (Tensors [] ps c2p) ps i k (Metrics 0 0) = Ret (Metrics 0 0).
Proof.
  generalize (Tensors [] ps c2p) (eq_refl : correct_spans (Tensors [] ps c2p) = []).
  intros t Ht. revert i k.
  induction ps as [|p ps' IH]; intros i k; [done|].
  cbn [for_predicted]. rewrite Ht, drop_nil. cbn [while_gold]. simpl.
  replace (0 + 0) with 0 by (by vm_compute). apply IH.
Qed.

(** X18: a batch without gold spans scores [f1 = 0.0] and
    [exact = 0.0], whatever spans were predicted and whatever
    [answer2question] holds, and so does a batch without predicted
    spans, whatever the gold spans are. *)
Theorem nothing_to_score (spans : list span) (c2p : list Z) :
  apply_metrics (Tensors [] spans c2p) = Ret (Metrics 0 0)
  ∧ apply_metrics (Tensors spans [] c2p) = Ret (Metrics 0 0).
Proof. split; [apply for_predicted_no_gold|done]. Qed.

(** Once a gold span was matched bound for bound, the other gold spans
    of the prediction are passed over: none is compared, none changes
    the two values. *)
Lemma while_gold_exact (c2p : list Z) (i : nat) (p : span) (remaining : list span)
    (k : nat) :
  (k + length remaining ≤ length c2p)%nat →
  ∃ k', while_gold c2p i p remaining k (Metrics 1 1) = Ret (k', Metrics 1 1).
Proof.
  revert k. induction remaining as [|c remaining IH]; intros k Hlen; [by eexists|].
  cbn [while_gold]. unfold index.
  destruct (lookup_lt_is_Some_2 c2p k) as [q ->]; [simpl in Hlen; lia|]. simpl.
  case_bool_decide; [|by eexists].
  assert (compare_spans p c (Metrics 1 1) = Ret (Metrics 1 1)) as ->.
  { unfold compare_spans. by destruct (_ && _). }
  simpl. apply IH. simpl in Hlen. lia.
Qed.

(** X19: a predicted span that equals the first of its gold spans
    scores [f1 = 1.0] and [exact = 1.0] whatever gold spans follow, of
    this or of a later prediction: after the match no other gold span
    is compared, not even one that would raise. *)
Theorem exact_match_first (p : span) (cs : list span) (c2p : list Z) :
  (length cs ≤ length c2p)%nat →
  apply_metrics (Tensors (p :: cs) [p] (0%Z :: c2p)) = Ret (Metrics 1 1).
Proof.
  intros Hlen. unfold apply_metrics. cbn [predicted_spans for_predicted].
  cbn [correct_spans correct2prediction drop while_gold]. unfold index at 1.
  cbn [lookup list_lookup]. simpl.
  unfold compare_spans at 1. rewrite !bool_decide_eq_true_2 by done. simpl.
  destruct (while_gold_exact (0%Z :: c2p) 0 p cs 1) as [k' ->]; [simpl; lia|].
  simpl. by vm_compute.
Qed.

Lemma exact_match_first_witness :
  (length [(7, 6)%Z; (0, 2)%Z] ≤ length [0%Z; 0%Z])%nat
  ∧ apply_metrics (Tensors [(3, 5)%Z; (7, 6)%Z; (0, 2)%Z] [(3, 5)%Z] [0%Z; 0%Z; 0%Z])
    = Ret (Metrics 1 1).
Proof.
  assert (length [(7, 6)%Z; (0, 2)%Z] ≤ length [0%Z; 0%Z])%nat as H by (simpl; lia).
  split; [exact H|].
  exact (exact_match_first (3, 5)%Z [(7, 6)%Z; (0, 2)%Z] [0%Z; 0%Z] H).
Defined.

(** X20: a gold span whose end is the position before its start, met
    first for a prediction it does not equal, ends the evaluation of
    the batch with [ZeroDivisionError] ([recall = tp / total] with
    [total = 0.0]), whatever gold spans and predictions follow it, an
    exact match among them too. *)
Theorem empty_gold_span_raises (p c : span) (cs ps : list span) (c2p : list Z) :
  (c.2 = c.1 - 1)%Z → p ≠ c →
  apply_metrics (Tensors (c :: cs) (p :: ps) (0%Z :: c2p)) = Raise ZeroDivisionError.
Proof.
  intros Hc Hne. unfold apply_metrics. cbn [predicted_spans for_predicted].
  cbn [correct_spans correct2prediction drop while_gold]. unfold index at 1.
  cbn [lookup list_lookup]. simpl.
  assert (compare_spans p c (Metrics 0 0) = Raise ZeroDivisionError) as ->; [|done].
  unfold compare_spans.
  assert (bool_decide (p.1 = c.1) && bool_decide (p.2 = c.2) = false) as ->.
  { destruct p as [p1 p2], c as [c1 c2]; simpl.
    destruct (decide (p1 = c1)) as [->|?]; [|by rewrite bool_decide_eq_false_2].
    destruct (decide (p2 = c2)) as [->|?]; [done|].
    by rewrite (bool_decide_eq_false_2 (p2 = c2)), andb_false_r. }
  cbn [f1]. replace (PrimFloat.ltb 0 1) with true by (by vm_compute).
  unfold span_f1, recall, div, total.
  replace (c.2 - c.1 + 1)%Z with 0%Z by lia.
  replace (PrimFloat.eqb (float_of_int 0) 0) with true by (by vm_compute).
  done.
Qed.

Lemma empty_gold_span_raises_witness :
  (((7, 6)%Z : span).2 = ((7, 6)%Z : span).1 - 1)%Z ∧ ((3, 5)%Z : span) ≠ (7, 6)%Z
  ∧ apply_metrics (Tensors [(7, 6)%Z; (3, 5)%Z] [(3, 5)%Z] [0%Z; 0%Z])
    = Raise ZeroDivisionError.
Proof.
  assert (((7, 6)%Z : span).2 = ((7, 6)%Z : span).1 - 1)%Z as H1 by reflexivity.
  assert (((3, 5)%Z : span) ≠ (7, 6)%Z) as H2 by discriminate.
  split; [exact H1|]. split; [exact H2|].
  exact (empty_gold_span_raises (3, 5)%Z (7, 6)%Z [(3, 5)%Z] [] [0%Z] H1 H2).
Defined.

End XQAEvalHookMore.

(** ** TraceHook.add_to_history *)

Module TraceHookProofs.
Import TraceHook.
Local Open Scope float_scope.

(** One turn of the loop, as one assignment. *)
Lemma add_metric_eq (metric : string) (value : float) (iter_value epoch : Z)
    (set_name : string) (s : scores) :
  add_metric metric value iter_value epoch set_name s
  = <[metric := <[set_name := ((entry s metric set_name).1.1 ++ [value],
                               (entry s metric set_name).1.2 ++ [iter_value],
                               (entry s metric set_name).2 ++ [epoch])]>
                  (default ∅ (s !! metric))]> s.
Proof.
  unfold add_metric, entry.
  destruct (s !! metric) as [by_set|] eqn:Hm; cbv beta iota zeta.
  - rewrite Hm. cbn [from_option id mbind option_bind].
    destruct (by_set !! set_name) as [[[vs its] es]|] eqn:Hs; cbv beta iota zeta.
    + rewrite Hs. done.
    + rewrite lookup_insert_eq. cbn [from_option id fst snd].
      by rewrite insert_insert_eq.
  - rewrite lookup_insert_eq. cbn [from_option id mbind option_bind].
    rewrite lookup_empty. cbv beta iota zeta. rewrite lookup_insert_eq.
    cbn [from_option id fst snd].
    by rewrite !insert_insert_eq.
Qed.

(** The entry of the metric and the set name gets the three values at
    the end of its lists. *)
Lemma add_metric_entry (metric : string) (value : float) (iter_value epoch : Z)
    (set_name : string) (s : scores) :
  add_metric metric value iter_value epoch set_name s !! metric ≫= (.!! set_name)
  = Some ((entry s metric set_name).1.1 ++ [value],
          (entry s metric set_name).1.2 ++ [iter_value],
          (entry s metric set_name).2 ++ [epoch]).
Proof.
  rewrite add_metric_eq, lookup_insert_eq. cbn [mbind option_bind].
  by rewrite lookup_insert_eq.
Qed.

(** No other entry changes. *)
Lemma add_metric_others (metric : string) (value : float) (iter_value epoch : Z)
    (set_name : string) (s : scores) (metric' set_name' : string) :
  metric' ≠ metric ∨ set_name' ≠ set_name →
  add_metric metric value iter_value epoch set_name s !! metric' ≫= (.!! set_name')
  = s !! metric' ≫= (.!! set_name').
Proof.
  intros Hne. rewrite add_metric_eq.
  destruct (decide (metric' = metric)) as [->|Hm'].
  - destruct Hne as [?|Hs']; [done|].
    rewrite lookup_insert_eq. cbn [mbind option_bind].
    rewrite lookup_insert_ne by done.
    destruct (s !! metric) as [by_set|]; [done|]. apply lookup_empty.
  - by rewrite lookup_insert_ne.
Qed.

Lemma add_to_history_others (score_dict : list (string * float)) (iter_value epoch : Z)
    (set_name : string) (s : scores) (metric' set_name' : string) :
  (metric' ∉ score_dict.*1) ∨ set_name' ≠ set_name →
  add_to_history score_dict iter_value epoch set_name s !! metric' ≫= (.!! set_name')
  = s !! metric' ≫= (.!! set_name').
Proof.
  unfold add_to_history. revert s.
  induction score_dict as [|[k v] score_dict IH]; intros s Hne; [done|]. simpl.
  rewrite IH.
  - apply add_metric_others. destruct Hne as [Hk|?]; [left|by right].
    intros ->. apply Hk. simpl. left.
  - destruct Hne as [Hk|?]; [left|by right].
    intros Hin. apply Hk. simpl. by right.
Qed.

Lemma add_to_history_entry (score_dict : list (string * float)) (iter_value epoch : Z)
    (set_name : string) (s : scores) (metric : string) (value : float) :
  NoDup score_dict.*1 → (metric, value) ∈ score_dict →
  add_to_history score_dict iter_value epoch set_name s !! metric ≫= (.!! set_name)
  = Some ((entry s metric set_name).1.1 ++ [value],
          (entry s metric set_name).1.2 ++ [iter_value],
          (entry s metric set_name).2 ++ [epoch]).
Proof.
  unfold add_to_history. revert s.
  induction score_dict as [|[k v] score_dict IH]; intros s Hnd Hin.
  { by apply elem_of_nil in Hin. }
  simpl in Hnd. apply NoDup_cons in Hnd as [Hk Hnd].
  apply elem_of_cons in Hin as [Heq|Hin]; simpl.
  - injection Heq as <- <-.
    fold (add_to_history score_dict iter_value epoch set_name
            (add_metric metric value iter_value epoch set_name s)).
    rewrite add_to_history_others by (by left).
    apply add_metric_entry.
  - rewrite IH by done. unfold entry.
    rewrite add_metric_others; [done|]. left.
    intros <-. apply Hk. apply list_elem_of_fmap. by exists (metric, value).
Qed.

(** X21: [add_to_history] appends the value of every metric of
    [score_dict], with the iteration and the epoch, to the entry of that
    metric and the set name, which starts empty where the metric or the
    set name is new; the entries of the other metrics and of the other
    set names stay as they are. *)
Theorem add_to_history_appends (score_dict : list (string * float)) (iter_value epoch : Z)
    (set_name : string) (s : scores) :
  NoDup score_dict.*1 →
  let s' := add_to_history score_dict iter_value epoch set_name s in
  (∀ metric value, (metric, value) ∈ score_dict →
     entry s' metric set_name
     = ((entry s metric set_name).1.1 ++ [value],
        (entry s metric set_name).1.2 ++ [iter_value],
        (entry s metric set_name).2 ++ [epoch]))
  ∧ (∀ metric set_name', (metric ∉ score_dict.*1) ∨ set_name' ≠ set_name →
       s' !! metric ≫= (.!! set_name') = s !! metric ≫= (.!! set_name')).
Proof.
  intros Hnd s'. split.
  - intros metric value Hin. unfold entry at 1. subst s'.
    by rewrite (add_to_history_entry _ _ _ _ _ metric value).
  - intros metric set_name' Hne. by apply add_to_history_others.
Qed.

Lemma add_to_history_appends_witness :
  NoDup [("f1", 0.25); ("exact", 0)].*1
  ∧ entry ex_scores "f1" "train" = ([0.25], [10%Z], [1%Z])
  ∧ entry ex_scores "f1" "dev" = ([0.125; 0.5], [10%Z; 20%Z], [1%Z; 2%Z]).
Proof.
  assert (NoDup [("f1", 0.25); ("exact", 0)].*1) as H.
  { simpl. apply NoDup_cons. split; [|apply NoDup_singleton].
    intros Hin. by apply list_elem_of_singleton in Hin. }
  split; [exact H|].
  destruct (add_to_history_appends [("f1", 0.25); ("exact", 0)] 10 1 "train"
              (add_to_history [("f1", 0.125)] 10 1 "dev" ∅) H) as [Hentry _].
  split; [|by vm_compute].
  etrans; [apply (Hentry "f1" 0.25); left|by vm_compute].
Defined.

Lemma aligned_lookup (s : scores) :
  aligned s ↔
  ∀ metric set_name h, s !! metric ≫= (.!! set_name) = Some h →
    length h.1.1 = length h.1.2 ∧ length h.1.2 = length h.2.
Proof.
  split.
  - intros Ha metric set_name h Hl.
    destruct (s !! metric) as [by_set|] eqn:Hm; [|done]. simpl in Hl.
    by apply (Ha metric set_name by_set h).
  - intros Ha metric set_name by_set h Hm Hs. apply (Ha metric set_name).
    by rewrite Hm.
Qed.

Lemma add_metric_aligned (metric : string) (value : float) (iter_value epoch : Z)
    (set_name : string) (s : scores) :
  aligned s → aligned (add_metric metric value iter_value epoch set_name s).
Proof.
  rewrite !aligned_lookup. intros Ha metric' set_name' h Hl.
  destruct (decide (metric' = metric ∧ set_name' = set_name)) as [[-> ->]|Hne].
  - rewrite add_metric_entry in Hl. injection Hl as <-. simpl.
    rewrite !length_app. simpl.
    assert (length (entry s metric set_name).1.1 = length (entry s metric set_name).1.2
            ∧ length (entry s metric set_name).1.2 = length (entry s metric set_name).2)
      as [-> ->]; [|done].
    unfold entry. destruct (s !! metric ≫= (.!! set_name)) as [h|] eqn:Hh; [|done].
    simpl. by apply (Ha metric set_name).
  - rewrite add_metric_others in Hl; [by apply (Ha metric' set_name')|].
    destruct (decide (metric' = metric)) as [Hm|Hm]; [right|by left].
    intros Hs. apply Hne. by split.
Qed.

(** X22: in every entry of [scores] the list of the values, the list
    of the iterations and the list of the epochs have one length, and
    [add_to_history] keeps it so, for every [score_dict]. *)
Theorem add_to_history_aligned (score_dict : list (string * float)) (iter_value epoch : Z)
    (set_name : string) (s : scores) :
  aligned s → aligned (add_to_history score_dict iter_value epoch set_name s).
Proof.
  unfold add_to_history. revert s.
  induction score_dict as [|[k v] score_dict IH]; intros s Ha; [done|].
  simpl. apply IH. by apply add_metric_aligned.
Qed.

Lemma add_to_history_aligned_witness :
  aligned (∅ : scores) ∧ aligned (add_to_history [("f1", 0.125)] 10 1 "dev" ∅).
Proof.
  assert (aligned (∅ : scores)) as H.
  { intros metric set_name by_set h Hm. by rewrite lookup_empty in Hm. }
  split; [exact H|].
  exact (add_to_history_aligned [("f1", 0.125)] 10 1 "dev" ∅ H).
Defined.

End TraceHookProofs.

(** ** EvalHook *)

Module EvalHookProofs.
Import TFReader TraceHook EvalHook.
Local Open Scope float_scope.

(** *** The dictionary of the metrics of the batches *)

Lemma table_ext {A} (ks : list string) (f g : string → A) :
  (∀ k, k ∈ ks → f k = g k) → table ks f = table ks g.
Proof.
  intros Hfg. unfold table. apply map_ext_in. intros k Hk.
  rewrite (Hfg k); [done|]. by apply list_elem_of_In.
Qed.

Lemma table_keys {A} (ks : list string) (f : string → A) : (table ks f).*1 = ks.
Proof. unfold table. induction ks as [|k ks IH]; [done|]. simpl. f_equal. exact IH. Qed.

Lemma elem_of_table {A} (ks : list string) (f : string → A) (k : string) :
  k ∈ ks → (k, f k) ∈ table ks f.
Proof. intros Hk. unfold table. apply list_elem_of_fmap. by exists k. Qed.

(** A key that is new comes last. *)
Lemma append_to_table_new (ks : list string) (f : string → list float) (k : string)
    (v : float) :
  k ∉ ks →
  append_to (table ks f) k v
  = table (ks ++ [k]) (λ k', if decide (k' = k) then [v] else f k').
Proof.
  induction ks as [|k0 ks IH]; intros Hk; simpl.
  - by rewrite decide_True.
  - apply not_elem_of_cons in Hk as [Hne Hk].
    rewrite !decide_False by done. by rewrite IH.
Qed.

(** A key that is there keeps its place. *)
Lemma append_to_table_old (ks : list string) (f : string → list float) (k : string)
    (v : float) :
  NoDup ks → k ∈ ks →
  append_to (table ks f) k v
  = table ks (λ k', if decide (k' = k) then f k' ++ [v] else f k').
Proof.
  induction ks as [|k0 ks IH]; intros Hnd Hk; [by apply elem_of_nil in Hk|].
  apply NoDup_cons in Hnd as [Hk0 Hnd]. simpl.
  destruct (decide (k0 = k)) as [->|Hne].
  - f_equal. apply table_ext. intros k' Hk'.
    rewrite decide_False; [done|]. by intros ->.
  - apply elem_of_cons in Hk as [?|Hk]; [done|]. by rewrite IH.
Qed.

(** The metrics of the first batch make the dictionary. *)
Lemma append_metrics_first (m : gmap string float) (pre ks : list string)
    (g : string → list float) :
  NoDup (pre ++ ks) → Forall (λ k, is_Some (m !! k)) ks →
  append_metrics m ks (table pre g)
  = Ret (table (pre ++ ks)
           (λ k, if decide (k ∈ ks) then [default 0 (m !! k)] else g k)).
Proof.
  revert pre g. induction ks as [|k ks IH]; intros pre g Hnd Hm.
  { simpl. by rewrite app_nil_r. }
  apply Forall_cons in Hm as [[v Hv] Hm].
  cbn [append_metrics]. unfold getitem. rewrite Hv. simpl.
  assert ((k ∉ pre) ∧ (k ∉ ks)) as [Hpre Hks].
  { apply NoDup_app in Hnd as (_ & Hdis & Hnd). apply NoDup_cons in Hnd as [? _].
    split; [|done]. intros Hin. apply (Hdis k Hin). left. }
  rewrite append_to_table_new by done.
  rewrite IH; [|by rewrite <- app_assoc|done].
  rewrite <- app_assoc. simpl. f_equal. apply table_ext. intros k' _.
  destruct (decide (k' = k)) as [->|Hne].
  - rewrite decide_False by done. rewrite decide_True by left. by rewrite Hv.
  - destruct (decide (k' ∈ ks)) as [Hin|Hin].
    + rewrite decide_True; [done|]. by right.
    + rewrite decide_False; [done|]. by apply not_elem_of_cons.
Qed.

(** The metrics of a later batch extend it. *)
Lemma append_metrics_table (m : gmap string float) (ks ks' : list string)
    (f : string → list float) :
  NoDup ks → NoDup ks' → ks' ⊆ ks → Forall (λ k, is_Some (m !! k)) ks' →
  append_metrics m ks' (table ks f)
  = Ret (table ks (λ k, if decide (k ∈ ks') then f k ++ [default 0 (m !! k)] else f k)).
Proof.
  intros Hnd. revert f. induction ks' as [|k ks' IH]; intros f Hnd' Hsub Hm.
  { done. }
  apply Forall_cons in Hm as [[v Hv] Hm].
  apply NoDup_cons in Hnd' as [Hk Hnd'].
  cbn [append_metrics]. unfold getitem. rewrite Hv. simpl.
  rewrite append_to_table_old; [|done|apply Hsub; left].
  rewrite IH; [|done|intros k' Hk'; apply Hsub; by right|done].
  f_equal. apply table_ext. intros k' _.
  destruct (decide (k' = k)) as [->|Hne].
  - rewrite decide_False by done. rewrite decide_True by left. by rewrite Hv.
  - destruct (decide (k' ∈ ks')) as [Hin|Hin].
    + rewrite decide_True; [done|]. by right.
    + rewrite decide_False; [done|]. by apply not_elem_of_cons.
Qed.

Lemma combine_metrics_table (total : Z) (ks : list string) (f : string → list float) :
  total ≠ 0%Z →
  combine_metrics total (table ks f)
  = Ret (table ks (λ k, sum (f k) / float_of_int total)).
Proof.
  intros Ht. unfold combine_metrics, table.
  induction ks as [|k ks IH]; [done|]. simpl.
  rewrite decide_False by done. simpl. by rewrite IH.
Qed.

(** *** One evaluation *)

Section hook.
Context {Instance Batch State Model : Type}.
Variable batch_generator : list Instance → batches Batch.
Variable evaluate : Model → Batch → res (gmap string float).
Implicit Types self : t Instance Batch State.
Implicit Types model : Model.

Abbreviation call := (__call__ batch_generator evaluate).
Abbreviation values := (values_of evaluate).
Abbreviation score := (score_of evaluate).

Lemma values_of_cons model (k : string) (batch : Batch) (items : list Batch)
    (m : gmap string float) (v : float) :
  evaluate model batch = Ret m → m !! k = Some v →
  values model k (batch :: items) = v :: values model k items.
Proof. intros Hev Hv. unfold values_of. simpl. by rewrite Hev, Hv. Qed.

Lemma batch_loop_table model (ks : list string) (items : list Batch)
    (f : string → list float) :
  NoDup ks → evaluable evaluate model ks items →
  batch_loop evaluate model ks items (table ks f)
  = ([], Ret (table ks (λ k, f k ++ values model k items))).
Proof.
  intros Hnd. revert f. induction items as [|batch items IH]; intros f Hev.
  { simpl. do 2 f_equal. apply table_ext. intros k _. by rewrite app_nil_r. }
  apply Forall_cons in Hev as [(m & Hm & Hks) Hev].
  cbn [batch_loop]. rewrite Hm. cbn [mbind res_bind].
  rewrite append_metrics_table by done.
  rewrite IH by done. do 2 f_equal. apply table_ext. intros k Hk.
  rewrite decide_True by done.
  rewrite Forall_forall in Hks. destruct (Hks k Hk) as [v Hv].
  rewrite (values_of_cons model k batch items m v) by done.
  rewrite Hv. simpl. by rewrite <- app_assoc.
Qed.

Lemma batch_loop_first model (ks : list string) (batch : Batch) (items : list Batch) :
  NoDup ks → evaluable evaluate model ks (batch :: items) →
  batch_loop evaluate model ks (batch :: items) []
  = ([], Ret (table ks (λ k, values model k (batch :: items)))).
Proof.
  intros Hnd Hev. apply Forall_cons in Hev as [(m & Hm & Hks) Hev].
  cbn [batch_loop]. rewrite Hm. cbn [mbind res_bind].
  change (@nil (string * list float)) with (table [] (λ _ : string, @nil float)).
  rewrite append_metrics_first by done. simpl.
  rewrite batch_loop_table by done. do 2 f_equal. apply table_ext. intros k Hk.
  rewrite decide_True by done.
  rewrite Forall_forall in Hks. destruct (Hks k Hk) as [v Hv].
  by rewrite Hm, Hv.
Qed.

(** A loop that ends without an exception has reached every batch. *)
Lemma batch_loop_rest model (ks : list string) (items rest : list Batch)
    (metrics metrics' : accumulated) :
  batch_loop evaluate model ks items metrics = (rest, Ret metrics') → rest = [].
Proof.
  revert metrics. induction items as [|batch items IH]; intros metrics Hl; simpl in Hl.
  - by injection Hl as <- _.
  - destruct (evaluate model batch ≫= _) as [metrics1|e]; [by apply (IH metrics1)|done].
Qed.

(** The evaluation that goes through: every batch evaluated to the
    metrics asked for, at least one batch, a dataset that is not empty,
    no side effect. *)
Lemma call_evaluable model self (epoch : Z) (items : list Batch) :
  (iterate (batches_of batch_generator self)).1 = items → items ≠ [] →
  NoDup (_metrics self) → evaluable evaluate model (_metrics self) items →
  _total self ≠ 0%Z → _side_effect self = None →
  call model epoch self
  = (with_scores
       (with_batches self (iterate (batches_of batch_generator self)).2)
       (add_to_history (table (_metrics self) (λ k, score model (_total self) k items))
          (_iter self) epoch "train" (scores self)),
     Ret ()).
Proof.
  intros Hitems Hne Hnd Hev Htotal Hside. unfold __call__. rewrite Hitems.
  destruct items as [|batch items]; [done|].
  rewrite batch_loop_first by done.
  cbn [mbind res_bind _total with_batches].
  rewrite combine_metrics_table by done.
  cbn [_side_effect with_scores with_batches _iter scores]. rewrite Hside.
  by destruct (batches_of batch_generator self).
Qed.

(** X23: an evaluation over batches that are all evaluated to the
    metrics the hook asks for (at least one batch, a dataset that is not
    empty, no side effect) returns and, for every metric of the hook,
    appends to the history of the set name "train" the sum of the values
    of the batches, computed with the variables the session holds, over
    the size of the dataset, with the iteration count of the hook and
    the epoch; no other entry of the history changes and the iteration
    count stays. *)
Theorem evaluation_files_means model self (epoch : Z) (items : list Batch) :
  (iterate (batches_of batch_generator self)).1 = items → items ≠ [] →
  NoDup (_metrics self) → evaluable evaluate model (_metrics self) items →
  _total self ≠ 0%Z → _side_effect self = None →
  let r := call model epoch self in
  r.2 = Ret () ∧ _iter r.1 = _iter self
  ∧ (∀ k, k ∈ _metrics self →
       entry (scores r.1) k "train"
       = ((entry (scores self) k "train").1.1 ++ [score model (_total self) k items],
          (entry (scores self) k "train").1.2 ++ [_iter self],
          (entry (scores self) k "train").2 ++ [epoch]))
  ∧ (∀ k set_name, (k ∉ _metrics self) ∨ set_name ≠ "train" →
       scores r.1 !! k ≫= (.!! set_name) = scores self !! k ≫= (.!! set_name)).
Proof.
  intros Hitems Hne Hnd Hev Htotal Hside r. subst r.
  rewrite (call_evaluable model self epoch items) by done.
  cbn [fst snd with_scores _iter with_batches scores].
  split; [done|]. split; [done|]. split.
  - intros k Hk. unfold entry at 1.
    rewrite (TraceHookProofs.add_to_history_entry _ _ _ _ _ k
               (score model (_total self) k items)); [done| |].
    + by rewrite table_keys.
    + by apply (elem_of_table (_metrics self) (λ k, score model (_total self) k items)).
  - intros k set_name Hk. apply TraceHookProofs.add_to_history_others.
    by rewrite table_keys.
Qed.

(** *** A generator of batches *)

(** An evaluation on a generator that is used up files nothing. *)
Lemma call_used_up model self (epoch : Z) :
  _batches self = Some (Generator []) →
  _batches (call model epoch self).1 = Some (Generator [])
  ∧ scores (call model epoch self).1 = scores self.
Proof.
  intros Hb. unfold __call__, batches_of. rewrite Hb. simpl.
  destruct (_side_effect self) as [side_effect|]; [|done].
  by destruct (side_effect [] (_side_effect_state self)).
Qed.

Lemma evaluations_used_up self (epochs : list (Model * Z)) :
  _batches self = Some (Generator []) →
  scores (evaluations batch_generator evaluate epochs self) = scores self.
Proof.
  revert self. induction epochs as [|[model epoch] epochs IH]; intros self Hb; [done|].
  simpl. destruct (call_used_up model self epoch Hb) as [Hb' Hs].
  fold (evaluations batch_generator evaluate epochs (call model epoch self).1).
  by rewrite IH.
Qed.

(** X24: where the batches of the hook are a generator, an evaluation
    that returns has used it up, and no later evaluation, at whatever
    epochs, with whatever variables and however many, sees a batch or
    adds to the history. *)
Theorem generator_evaluated_once model self (epoch : Z) (items : list Batch) :
  batches_of batch_generator self = Generator items →
  returns (call model epoch self).2 →
  _batches (call model epoch self).1 = Some (Generator [])
  ∧ ∀ epochs,
      scores (evaluations batch_generator evaluate epochs (call model epoch self).1)
      = scores (call model epoch self).1.
Proof.
  intros Hb Hret.
  assert (_batches (call model epoch self).1 = Some (Generator [])) as Hused.
  { revert Hret. unfold __call__. rewrite Hb. cbn [iterate fst].
    destruct (batch_loop evaluate model (_metrics self) items [])
      as [rest [metrics|e]] eqn:Hl.
    - apply batch_loop_rest in Hl as ->. cbn [mbind res_bind].
      destruct (combine_metrics _ metrics) as [metrics'|e]; [|done].
      cbn [_side_effect with_scores with_batches].
      destruct (_side_effect self) as [side_effect|]; [|done].
      by destruct (side_effect metrics' _).
    - cbn [mbind res_bind]. by intros [? ?]. }
  split; [done|]. intros epochs. by apply evaluations_used_up.
Qed.

(** *** The iterations of a hook with an interval *)

Lemma schedule_succ (interval : Z) (n : nat) :
  (0 < interval)%Z →
  schedule interval (S n)
  = if decide (Z.of_nat (S n) mod interval = 0)%Z
    then schedule interval n ++ [Z.of_nat (S n)]
    else schedule interval n.
Proof.
  intros Hiv. unfold schedule.
  replace (Z.of_nat (S n)) with (Z.of_nat n + 1)%Z by lia.
  rewrite LossHookMore.div_succ by lia.
  assert (0 ≤ Z.of_nat n / interval)%Z as Hq by (apply Z.div_pos; lia).
  case_decide as Hdue.
  - replace (Z.to_nat (Z.of_nat n / interval + 1)) with (S (Z.to_nat (Z.of_nat n / interval)))
      by lia.
    rewrite seq_S, map_app. simpl. do 2 f_equal.
    pose proof (Z.div_mod (Z.of_nat n + 1) interval ltac:(lia)) as Hdm.
    rewrite Hdue, LossHookMore.div_succ, decide_True in Hdm by (done || lia). lia.
  - by rewrite Z.add_0_r.
Qed.

(** The iterations of the schedule are among the first [n]. *)
Lemma schedule_bound (interval : Z) (n : nat) (it : Z) :
  (0 < interval)%Z → it ∈ schedule interval n → (1 ≤ it ≤ Z.of_nat n)%Z.
Proof.
  intros Hiv Hin. unfold schedule in Hin.
  apply list_elem_of_fmap in Hin as (i & -> & Hi).
  apply list_elem_of_In, in_seq in Hi.
  assert (0 ≤ Z.of_nat n / interval)%Z as Hq by (apply Z.div_pos; lia).
  pose proof (Z.mul_div_le (Z.of_nat n) interval Hiv) as Hle.
  split; [nia|].
  assert (Z.of_nat i ≤ Z.of_nat n / interval)%Z by lia. nia.
Qed.

(** A later step does not change what the earlier evaluations
    filed. *)
Lemma scores_at_app (steps steps' : list (Model * float)) (total : Z) (k : string)
    (items : list Batch) (its : list Z) :
  Forall (λ it, 1 ≤ it ≤ Z.of_nat (length steps))%Z its →
  scores_at evaluate (steps ++ steps') total k items its
  = scores_at evaluate steps total k items its.
Proof.
  intros Hits. unfold scores_at. induction Hits as [|it its Hit _ IH]; [done|].
  simpl. rewrite lookup_app_l by lia.
  destruct (steps !! pred (Z.to_nat it)); simpl; [f_equal|]; exact IH.
Qed.

Section interval.
Variable interval : Z.
Variable epoch : Z.
Variable items : list Batch.
Variable ks : list string.
Variable total : Z.
Hypothesis interval_pos : (0 < interval)%Z.
Hypothesis items_ne : items ≠ [].
Hypothesis ks_NoDup : NoDup ks.
Hypothesis total_ne : total ≠ 0%Z.

(** The hook after the steps of the epoch made so far. *)
Let after_iterations (steps : list (Model * float)) self : Prop :=
  _iter self = Z.of_nat (length steps) ∧ _iter_interval self = Some interval
  ∧ batches_of batch_generator self = Restartable items
  ∧ _metrics self = ks ∧ _total self = total ∧ _side_effect self = None
  ∧ ∀ k, k ∈ ks →
      entry (scores self) k "train"
      = (scores_at evaluate steps total k items (schedule interval (length steps)),
         schedule interval (length steps),
         replicate (length (schedule interval (length steps))) epoch).

Lemma at_iteration_end_after (steps : list (Model * float)) self model (loss : float) :
  evaluable evaluate model ks items →
  after_iterations steps self →
  ∃ self', at_iteration_end batch_generator evaluate model epoch loss self = (self', Ret ())
           ∧ after_iterations (steps ++ [(model, loss)]) self'.
Proof using interval_pos items_ne ks_NoDup total_ne.
  intros Hev (Hiter & Hiv & Hb & Hks & Htotal & Hside & Hentries).
  unfold at_iteration_end, call_when_due. cbn [_iter_interval with_iter _iter].
  rewrite Hiv, Hiter. rewrite decide_False by lia.
  set (n := length steps) in *.
  replace (Z.of_nat n + 1)%Z with (Z.of_nat (S n)) by lia.
  pose proof (schedule_succ interval n interval_pos) as Hsched.
  assert (length (steps ++ [(model, loss)]) = S n) as Hlen
    by (rewrite length_app; simpl; lia).
  assert (∀ k, scores_at evaluate (steps ++ [(model, loss)]) total k items
                 (schedule interval n)
               = scores_at evaluate steps total k items (schedule interval n)) as Hold.
  { intros k. apply scores_at_app. apply Forall_forall. intros it Hit.
    by apply (schedule_bound interval n). }
  destruct (decide (Z.of_nat (S n) mod interval = 0)%Z) as [Hdue|Hdue].
  - set (self1 := with_iter self (Z.of_nat (S n))).
    assert (batches_of batch_generator self1 = Restartable items) as Hb1 by done.
    rewrite (call_evaluable model self1 epoch items);
      [|by rewrite Hb1|done|by subst self1; cbn; rewrite Hks
       |by subst self1; cbn; rewrite Hks|by subst self1; cbn; rewrite Htotal|done].
    eexists. split; [done|].
    rewrite Hb1. cbn [iterate snd]. unfold after_iterations. rewrite Hlen.
    split; [done|]. split; [done|]. split; [done|]. split; [done|].
    split; [done|]. split; [done|].
    intros k Hk. cbn [scores with_scores with_batches with_iter self1 _metrics _total _iter].
    unfold entry at 1.
    rewrite (TraceHookProofs.add_to_history_entry _ _ _ _ _ k
               (score model (_total self) k items)).
    + simpl. rewrite (Hentries k Hk), Hsched, Htotal. cbn [fst snd].
      rewrite length_app. simpl. rewrite Nat.add_1_r, replicate_S_end.
      do 2 f_equal. unfold scores_at at 2. rewrite omap_app. fold (scores_at evaluate
        (steps ++ [(model, loss)]) total k items (schedule interval n)).
      rewrite Hold. f_equal. simpl.
      replace (pred (Z.to_nat (Z.of_nat (S n)))) with n by lia.
      rewrite lookup_app_r by (subst n; lia).
      by replace (n - length steps)%nat with 0%nat by (subst n; lia).
    + by rewrite table_keys, Hks.
    + apply (elem_of_table (_metrics self) (λ k, score model (_total self) k items)).
      by rewrite Hks.
  - eexists. split; [done|]. unfold after_iterations. rewrite Hlen, Hsched.
    repeat split; try done.
    intros k Hk. cbn [scores with_iter]. rewrite (Hentries k Hk). by rewrite Hold.
Qed.

Lemma iterations_after (done todo : list (Model * float)) self :
  Forall (λ step, evaluable evaluate step.1 ks items) todo →
  after_iterations done self →
  ∃ self', iterations batch_generator evaluate epoch todo self = (self', Ret ())
           ∧ after_iterations (done ++ todo) self'.
Proof using interval_pos items_ne ks_NoDup total_ne.
  intros Hev. revert done self.
  induction Hev as [|[model loss] todo Hstep _ IH]; intros done self Hafter.
  { exists self. split; [done|]. by rewrite app_nil_r. }
  destruct (at_iteration_end_after done self model loss Hstep Hafter)
    as (self1 & Hstep1 & Hafter1).
  destruct (IH (done ++ [(model, loss)]) self1 Hafter1) as (self2 & Hrest & Hafter2).
  exists self2. cbn [iterations]. rewrite Hstep1. split; [done|].
  by rewrite <- app_assoc in Hafter2.
Qed.

End interval.

(** X25: a new hook with an [iter_interval] above 0, over batches that
    can be iterated again and are evaluated, with the variables of
    every step, to the metrics of the hook (at least one batch, a
    dataset that is not empty, no side effect), evaluates at every
    iteration that is a multiple of the interval and at no other: after
    the steps none has raised and the history of every metric holds,
    under "train", one entry for each multiple of the interval up to the
    number of steps, with the score computed from the variables of that
    step and the epoch of the iterations. *)
Theorem evaluation_every_interval (possible_metrics : list string)
    (dataset : list Instance) (interval : Z) (epoch_interval : option Z)
    (metrics : option (list string)) (epoch : Z) (items : list Batch)
    (steps : list (Model * float)) :
  (0 < interval)%Z → batch_generator dataset = Restartable items → items ≠ [] →
  dataset ≠ [] → NoDup (or_list metrics possible_metrics) →
  Forall (λ step, evaluable evaluate step.1 (or_list metrics possible_metrics) items)
         steps →
  let self : t Instance Batch State :=
    __init__ possible_metrics dataset (Some interval) epoch_interval metrics None in
  let r := iterations batch_generator evaluate epoch steps self in
  r.2 = Ret () ∧ _iter r.1 = Z.of_nat (length steps)
  ∧ ∀ k, k ∈ _metrics self →
      entry (scores r.1) k "train"
      = (scores_at evaluate steps (_total self) k items
           (schedule interval (length steps)),
         schedule interval (length steps),
         replicate (length (schedule interval (length steps))) epoch).
Proof.
  intros Hiv Hb Hitems Hdata Hnd Hev self r.
  destruct (iterations_after interval epoch items (or_list metrics possible_metrics)
              (Z.of_nat (length dataset)) Hiv Hitems Hnd
              ltac:(destruct dataset; [done|simpl; lia]) [] steps self Hev)
    as (self' & Hr & Hiter & _ & _ & _ & _ & _ & Hentries).
  { split; [done|]. split; [done|]. split; [done|]. split; [done|].
    split; [done|]. split; [done|]. intros k _.
    unfold schedule. by rewrite Z.div_0_l by lia. }
  subst r. rewrite Hr. by split.
Qed.

(** X26: the intervals at their edges. A hook without [iter_interval]
    (the default) only counts its iterations, whatever their number; a
    hook with [epoch_interval=1] (the default) evaluates at the end of
    every epoch, whatever its number; with an interval of 0 the call
    raises [ZeroDivisionError], an iteration after it was counted. *)
Theorem intervals_at_the_edges self (epoch : Z) :
  (_iter_interval self = None →
   ∀ steps,
     iterations batch_generator evaluate epoch steps self
     = (with_iter self (_iter self + Z.of_nat (length steps)), Ret ()))
  ∧ (_epoch_interval self = Some 1%Z →
     ∀ model, at_epoch_end batch_generator evaluate model epoch self
              = call model epoch self)
  ∧ (_iter_interval self = Some 0%Z →
     ∀ model loss, at_iteration_end batch_generator evaluate model epoch loss self
                   = (with_iter self (_iter self + 1), Raise ZeroDivisionError))
  ∧ (_epoch_interval self = Some 0%Z →
     ∀ model, at_epoch_end batch_generator evaluate model epoch self
              = (self, Raise ZeroDivisionError)).
Proof.
  split; [|split; [|split]].
  - intros Hiv steps. revert self Hiv.
    induction steps as [|[model loss] steps IH]; intros self Hiv.
    + simpl. rewrite Z.add_0_r. by destruct self.
    + cbn [iterations]. unfold at_iteration_end, call_when_due.
      cbn [_iter_interval with_iter]. rewrite Hiv.
      rewrite IH by done. unfold with_iter. cbn. do 2 f_equal. lia.
  - intros Hiv model. unfold at_epoch_end, call_when_due. rewrite Hiv.
    rewrite decide_False by done. by rewrite Z.mod_1_r, decide_True.
  - intros Hiv model loss. unfold at_iteration_end, call_when_due.
    cbn [_iter_interval with_iter]. rewrite Hiv. by rewrite decide_True.
  - intros Hiv model. unfold at_epoch_end, call_when_due. rewrite Hiv.
    by rewrite decide_True.
Qed.

End hook.

(** *** The example hook *)

Lemma ex_items_evaluable (model : float) (items : list (list float)) :
  evaluable ex_evaluate model ["f1"] items.
Proof.
  apply Forall_forall. intros batch _. eexists. split; [done|].
  constructor; [|constructor]. by rewrite lookup_singleton_eq.
Qed.

Lemma evaluation_files_means_witness :
  let self := ex_hook None in
  let items := [take 2 ex_dataset; drop 2 ex_dataset] in
  (iterate (batches_of ex_batches self)).1 = items ∧ items ≠ []
  ∧ NoDup (_metrics self) ∧ evaluable ex_evaluate 2 (_metrics self) items
  ∧ _total self ≠ 0%Z ∧ _side_effect self = None
  ∧ (__call__ ex_batches ex_evaluate 2 1 self).2 = Ret ()
  ∧ entry (scores (__call__ ex_batches ex_evaluate 2 1 self).1) "f1" "train"
    = ([1], [0%Z], [1%Z]).
Proof.
  intros self items.
  assert ((iterate (batches_of ex_batches self)).1 = items) as H1 by reflexivity.
  assert (items ≠ []) as H2 by discriminate.
  assert (NoDup (_metrics self)) as H3 by apply NoDup_singleton.
  assert (evaluable ex_evaluate 2 (_metrics self) items) as H4
    by apply ex_items_evaluable.
  assert (_total self ≠ 0%Z) as H5 by discriminate.
  assert (_side_effect self = None) as H6 by reflexivity.
  do 6 (split; [assumption|]).
  destruct (evaluation_files_means ex_batches ex_evaluate 2 self 1 items H1 H2 H3 H4 H5 H6)
    as (Hret & _ & Hentry & _).
  split; [exact Hret|].
  etrans; [apply (Hentry "f1"); left|by vm_compute].
Defined.

Lemma generator_evaluated_once_witness :
  let self := ex_hook None in
  batches_of ex_generator self = Generator [take 2 ex_dataset; drop 2 ex_dataset]
  ∧ returns (__call__ ex_generator ex_evaluate 1 1 self).2
  ∧ entry (scores (evaluations ex_generator ex_evaluate [(2, 2%Z); (4, 3%Z)]
                     (__call__ ex_generator ex_evaluate 1 1 self).1)) "f1" "train"
    = ([0.5], [0%Z], [1%Z]).
Proof.
  intros self.
  assert (batches_of ex_generator self
          = Generator [take 2 ex_dataset; drop 2 ex_dataset]) as H1 by reflexivity.
  assert (returns (__call__ ex_generator ex_evaluate 1 1 self).2) as H2 by (by eexists).
  split; [exact H1|]. split; [exact H2|].
  destruct (generator_evaluated_once ex_generator ex_evaluate 1 self 1 _ H1 H2)
    as [_ Hlater].
  rewrite (Hlater [(2, 2%Z); (4, 3%Z)]). by vm_compute.
Defined.

Lemma evaluation_every_interval_witness :
  (0 < 2)%Z ∧ ex_dataset ≠ []
  ∧ (let r := iterations ex_batches ex_evaluate 1 ex_steps (ex_hook (Some 2%Z))
     in r.2 = Ret () ∧ _iter r.1 = 5%Z
        ∧ entry (scores r.1) "f1" "train" = ([0.5; 1], [2%Z; 4%Z], [1%Z; 1%Z])).
Proof.
  assert (0 < 2)%Z as H1 by lia.
  assert (ex_dataset ≠ []) as H2 by discriminate.
  split; [exact H1|]. split; [exact H2|].
  destruct (evaluation_every_interval (State := unit) ex_batches ex_evaluate ["f1"]
              ex_dataset 2 (Some 1%Z) None 1 [take 2 ex_dataset; drop 2 ex_dataset]
              ex_steps H1 eq_refl ltac:(discriminate) H2
              (NoDup_singleton "f1")
              ltac:(apply Forall_forall; intros; apply ex_items_evaluable))
    as (Hret & Hiter & Hentry).
  split; [exact Hret|]. split; [exact Hiter|].
  etrans; [apply (Hentry "f1"); left|by vm_compute].
Defined.

Lemma intervals_at_the_edges_witness :
  _iter_interval (ex_hook None) = None
  ∧ _epoch_interval (ex_hook None) = Some 1%Z
  ∧ iterations ex_batches ex_evaluate 1 ex_steps (ex_hook None)
    = (with_iter (ex_hook None) 5, Ret ())
  ∧ at_epoch_end ex_batches ex_evaluate 2 1 (ex_hook None)
    = __call__ ex_batches ex_evaluate 2 1 (ex_hook None).
Proof.
  destruct (intervals_at_the_edges ex_batches ex_evaluate (ex_hook None) 1)
    as (Hcount & Hepoch & _ & _).
  split; [reflexivity|]. split; [reflexivity|].
  split; [exact (Hcount eq_refl ex_steps)|exact (Hepoch eq_refl 2)].
Defined.

End EvalHookProofs.

(** ** KBPEvalHook.at_test_time: ranks, and batches of the right shape *)

Module KBPEvalHookMore.
Import KBPEvalHook KBPEvalHookShapes MeanAveragePrecision.
Local Open Scope float_scope.

Section at_test_time.
Variable rankdata_min : list float → list Z.
Variable get_sym : Z → res string.
Hypothesis documented : rankdata_documented rankdata_min.

Abbreviation rank_descending := (KBPEvalHook.rank_descending rankdata_min).
Abbreviation at_test_time := (KBPEvalHook.at_test_time rankdata_min get_sym).

(** X27: for scores without NaN, the rank of a candidate lies between
    1 and the number of candidates of the question, so that
    [answers / r] never divides by zero; it is 1 exactly for a candidate
    that no candidate outscores. *)
Theorem rank_between_one_and_length (scores : list float) (c : nat) (s : float) :
  no_nan scores → scores !! c = Some s →
  ∃ r, rank_descending scores !! c = Some r
       ∧ (1 ≤ r ≤ Z.of_nat (length scores))%Z
       ∧ (r = 1%Z ↔ Forall (λ s', PrimFloat.ltb s s' = false) scores).
Proof using documented.
  intros Hnan Hc. eexists. split.
  { rewrite (KBPEvalHookProofs.rank_descending_documented rankdata_min documented)
      by done.
    by apply KBPEvalHookProofs.descending_ranks_lookup. }
  split.
  - split; [lia|].
    assert (length (filter (λ s', PrimFloat.ltb s s' = true) scores) < length scores)%nat;
      [|lia].
    apply (length_filter_lt _ _ s); [by eapply list_elem_of_lookup_2|].
    by rewrite KBPEvalHookProofs.ltb_irrefl.
  - split.
    + intros Hr.
      assert (filter (λ s', PrimFloat.ltb s s' = true) scores = []) as Hnil.
      { apply length_zero_iff_nil. lia. }
      apply Forall_forall. intros s' Hs'.
      destruct (PrimFloat.ltb s s') eqn:Hlt; [|done].
      assert (s' ∈ filter (λ s', PrimFloat.ltb s s' = true) scores) as Hin
        by (by apply list_elem_of_filter).
      rewrite Hnil in Hin. by apply elem_of_nil in Hin.
    + intros Hall.
      assert (filter (λ s', PrimFloat.ltb s s' = true) scores = []) as ->; [|done].
      clear Hc Hnan. induction Hall as [|s' l Hs' _ IH]; [done|].
      rewrite filter_cons_False; [done|]. by rewrite Hs'.
Qed.

(** X28: on batches of the right shape (the four arrays of a batch
    have a row for every question, the rows of [questions] are not
    empty, a row of [logits] is as long as the row of the candidates or
    longer and holds no NaN), with a vocabulary that has a symbol for
    every question, [at_test_time] without [write_metrics_to] raises
    nothing and reports its two values, whatever the scores, the
    candidates and the gold answers are; with [write_metrics_to] the
    only exception it can raise is the [ValueError] of the write. *)
Theorem at_test_time_returns (info : string) (batches : list predictions) :
  Forall well_shaped batches → (∀ q, returns (get_sym q)) →
  (∃ r, at_test_time info false batches = ([], Ret r))
  ∧ (returns (at_test_time info true batches).2
     ∨ (at_test_time info true batches).2 = Raise ValueError).
Proof using documented.
  intros Hb Hsym. split.
  { by apply KBPEvalHookProofs.at_test_time_without_file. }
  unfold KBPEvalHook.at_test_time.
  destruct (KBPEvalHookProofs.evaluate_returns rankdata_min get_sym documented
              batches Hb Hsym) as [[mean_ap wmap] ->].
  cbn [mean_average_precision weighted_mean_average_precision].
  destruct mean_ap as [n|x]; [by right|]. cbn [write_metric].
  destruct wmap as [n|y]; [by right|]. left. by eexists.
Qed.

(** X29: with [write_metrics_to] set, [at_test_time] on batches of
    the right shape in which no gold answer is found among the
    candidates ranked 100 or better raises [ValueError]: the weighted
    MAP is then the integer [0] of [wmap / md if md else 0], which the
    format of the line refuses; at most the line of the MAP was written
    by then. Without [write_metrics_to] the same batches are reported
    with that integer. *)
Theorem nothing_found_is_not_written (info : string) (batches : list predictions)
    (c : collected) :
  Forall well_shaped batches →
  collect batches (Collected [] [] []) = Ret c →
  Forall (λ qa, found_ranks (descending_ranks (default [] (lookup (q_cand_scores c) qa.1)))
                            (default [] (lookup (q_cand_ids c) qa.1)) qa.2 = [])
         (q_answers c) →
  (at_test_time info true batches).2 = Raise ValueError
  ∧ (length (at_test_time info true batches).1 ≤ 1)%nat
  ∧ ∃ r, at_test_time info false batches = ([], Ret r)
         ∧ weighted_mean_average_precision r = Int 0.
Proof using documented.
  intros Hb Hc Hnone.
  destruct (KBPEvalHookProofs.collect_consistent batches _ Hb
              KBPEvalHookProofs.consistent_empty) as (c' & Hc' & Hcons).
  rewrite Hc in Hc'. injection Hc' as <-.
  destruct (KBPEvalHookProofs.qa_scores_returns c Hcons) as [qa Hqa].
  destruct (KBPEvalHookProofs.question_loop_nothing_found rankdata_min get_sym
              documented c (q_answers c) (Totals 0 0 0 0) Hcons) as (t & Ht & Hmd).
  { apply Forall_forall. intros [q answers] Hin. split.
    - by apply (KBPEvalHookProofs.elem_lookup_is_Some _ q answers).
    - rewrite Forall_forall in Hnone. by apply (Hnone (q, answers)). }
  unfold KBPEvalHook.at_test_time, evaluate. rewrite Hc. cbn [mbind res_bind].
  rewrite Hqa. cbn [mbind res_bind]. rewrite Ht. cbn [mbind res_bind mret res_ret].
  cbn [mean_average_precision weighted_mean_average_precision].
  rewrite Hmd. cbn [md]. rewrite (decide_True (P := (0 = 0)%Z)) by done.
  case_decide; cbn [write_metric fst snd length app]; (split; [done|]);
    (split; [simpl; lia|]); by eexists.
Qed.

End at_test_time.

Lemma rank_between_one_and_length_witness :
  rankdata_documented min_ranks
  ∧ no_nan ex_tied_scores ∧ ex_tied_scores !! 2%nat = Some 0.5
  ∧ ∃ r, rank_descending min_ranks ex_tied_scores !! 2%nat = Some r
         ∧ (1 ≤ r ≤ Z.of_nat (length ex_tied_scores))%Z
         ∧ (r = 1%Z ↔ Forall (λ s', PrimFloat.ltb 0.5 s' = false) ex_tied_scores).
Proof.
  assert (rankdata_documented min_ranks) as Hdoc by (by intros a _).
  assert (no_nan ex_tied_scores) as Hnan by (by repeat constructor).
  split; [exact Hdoc|]. split; [exact Hnan|]. split; [reflexivity|].
  exact (rank_between_one_and_length min_ranks Hdoc ex_tied_scores 2 0.5 Hnan eq_refl).
Defined.

Lemma well_shaped_ex_two_rows : well_shaped ex_two_rows.
Proof.
  split; [done|]. split; [done|]. split; [done|]. split; [by repeat constructor|].
  split; [repeat constructor; simpl; lia|by repeat constructor].
Qed.

Lemma ex_get_sym_returns (q : Z) : returns (ex_get_sym q).
Proof. by eexists. Qed.

Lemma at_test_time_returns_witness :
  rankdata_documented min_ranks
  ∧ Forall well_shaped [ex_batch; ex_two_rows]
  ∧ (∀ q, returns (ex_get_sym q))
  ∧ (∃ r, at_test_time min_ranks ex_get_sym "kbp" false [ex_batch; ex_two_rows]
          = ([], Ret r))
  ∧ returns (at_test_time min_ranks ex_get_sym "kbp" true [ex_batch; ex_two_rows]).2.
Proof.
  assert (rankdata_documented min_ranks) as Hdoc by (by intros a _).
  assert (Forall well_shaped [ex_batch; ex_two_rows]) as H.
  { constructor; [apply KBPEvalHookProofs.ex_batch_well_shaped|].
    constructor; [apply well_shaped_ex_two_rows|constructor]. }
  destruct (at_test_time_returns min_ranks ex_get_sym Hdoc "kbp" [ex_batch; ex_two_rows]
              H ex_get_sym_returns) as [Hret _].
  split; [exact Hdoc|]. split; [exact H|]. split; [exact ex_get_sym_returns|].
  split; [exact Hret|]. by eexists.
Defined.

Lemma nothing_found_is_not_written_witness :
  rankdata_documented min_ranks
  ∧ Forall well_shaped [ex_no_hit]
  ∧ (at_test_time min_ranks ex_get_sym "kbp" true [ex_no_hit]).2 = Raise ValueError
  ∧ (at_test_time min_ranks ex_get_sym "kbp" true [ex_no_hit]).1
    = [("kbp_Mean Average Precision", 0)]
  ∧ at_test_time min_ranks ex_get_sym "kbp" false [ex_no_hit]
    = ([], Ret (Report (Float 0) (Int 0))).
Proof.
  assert (rankdata_documented min_ranks) as Hdoc by (by intros a _).
  assert (Forall well_shaped [ex_no_hit]) as H.
  { constructor; [|constructor].
    split; [done|]. split; [done|]. split; [done|]. split; [by repeat constructor|].
    split; [repeat constructor; simpl; lia|by repeat constructor]. }
  destruct (nothing_found_is_not_written min_ranks ex_get_sym Hdoc "kbp" [ex_no_hit]
              (Collected [(7%Z, ex_scores)] [(7%Z, [10; 11; 12]%Z)] [(7%Z, [99%Z])])
              H eq_refl)
    as (Hraise & _ & _).
  { constructor; [by vm_compute|constructor]. }
  split; [exact Hdoc|]. split; [exact H|]. split; [exact Hraise|].
  split; by vm_compute.
Defined.

End KBPEvalHookMore.
